(** * sngrep: the RTP dissector (src/parser/packet_rtp.c)

    A shallow embedding of [packet_rtp.c]: the table of known encodings,
    the accessor [packet_rtp_data], the registry lookup
    [packet_rtp_standard_codec], the dissector [packet_rtp_parse] and its
    release function [packet_rtp_free].

    The C code works on pointers into a mutable memory, so the embedding
    threads an explicit machine state (heap blocks, the global [encodings]
    array, and a trace of the observable calls) through a small state and
    fault monad. *)

From Stdlib Require Import ZArith String List Lia.
From Stdlib.Strings Require Import Byte.
From stdpp Require Import gmap strings list.

(** ** Memory model *)

(** Heap blocks are named by positive numbers. *)
Abbreviation loc := positive.

(** A C pointer: [NULL], the address of the [i]-th element of the global
    array [encodings], or the address of a block returned by the allocator. *)
Inductive ptr : Type :=
| NULL
| Global (i : nat)
| Heap (l : loc).

#[global] Instance ptr_eq_dec : EqDecision ptr.
Proof. solve_decision. Defined.

(** [struct _PacketRtpEncoding], as the initialisers of [encodings] and the
    accesses [.id] and [.format] use it.  A [const gchar *] is an optional
    string, [None] being the null pointer. *)
Record PacketRtpEncoding : Type := mkEncoding {
  enc_id : Z;
  enc_name : option string;
  enc_format : option string;
  enc_clock : Z
}.

(** [struct _PacketRtpData], the fields [packet_rtp_parse] assigns. *)
Record PacketRtpData : Type := mkRtpData {
  rtp_encoding : ptr;
  rtp_seq : Z;
  rtp_ts : Z;
  rtp_ssrc : Z;
  rtp_payload : ptr
}.

(** A [GByteArray]: its bytes ([data], [len]) and its reference count. *)
Record GByteArray : Type := mkByteArray {
  ba_data : list byte;
  ba_ref : nat
}.

(** The part of [Packet] this file touches: the pointer array [proto],
    indexed by protocol identifier. *)
Record Packet : Type := mkPacket {
  proto : list ptr
}.

Inductive obj : Type :=
| OEncoding (e : PacketRtpEncoding)
| ORtpData (r : PacketRtpData)
| OByteArray (b : GByteArray)
| OPacket (p : Packet).

(** What the outside can observe of a run: allocator calls, critical log
    messages of GLib's precondition macros, and packets handed to storage. *)
Inductive event : Type :=
| EvMalloc (l : loc)
| EvFree (l : loc)
| EvCritical
| EvStorageAddPacket (p : ptr).

#[global] Instance event_eq_dec : EqDecision event.
Proof. solve_decision. Defined.

Record state : Type := mkState {
  heap : gmap positive obj;
  registry : list PacketRtpEncoding;
  trace : list event
}.

(** Ways a run leaves defined behaviour. *)
Inductive fault : Type :=
| NullDereference
| DanglingPointer
| TypeConfusion
| OutOfBounds
| InvalidFree
| FatalAbort.

Inductive result (A : Type) : Type :=
| Ok (a : A) (s : state)
| Stuck (f : fault).
Arguments Ok {A} a s.
Arguments Stuck {A} f.

(** ** The state and fault monad *)

Definition M (A : Type) : Type := state -> result A.

#[global] Instance M_ret : MRet M := fun A a s => Ok a s.

#[global] Instance M_bind : MBind M := fun A B f m s =>
  match m s with
  | Ok a s' => f a s'
  | Stuck e => Stuck e
  end.

Definition stuck {A : Type} (f : fault) : M A := fun _ => Stuck f.

Definition get_state : M state := fun s => Ok s s.

Definition set_heap (h : gmap positive obj) : M unit :=
  fun s => Ok tt (mkState h (registry s) (trace s)).

Definition set_registry (r : list PacketRtpEncoding) : M unit :=
  fun s => Ok tt (mkState (heap s) r (trace s)).

Definition emit (e : event) : M unit :=
  fun s => Ok tt (mkState (heap s) (registry s) (trace s ++ [e])).

(** Reading through a pointer. *)
Definition load (p : ptr) : M obj :=
  s ← get_state;
  match p with
  | NULL => stuck NullDereference
  | Global i =>
      match registry s !! i with
      | Some e => mret (OEncoding e)
      | None => stuck OutOfBounds
      end
  | Heap l =>
      match heap s !! l with
      | Some o => mret o
      | None => stuck DanglingPointer
      end
  end.

(** Writing through a pointer. *)
Definition store (p : ptr) (o : obj) : M unit :=
  s ← get_state;
  match p with
  | NULL => stuck NullDereference
  | Global i =>
      match registry s !! i, o with
      | Some _, OEncoding e => set_registry (<[i := e]> (registry s))
      | Some _, _ => stuck TypeConfusion
      | None, _ => stuck OutOfBounds
      end
  | Heap l =>
      match heap s !! l with
      | Some _ => set_heap (<[l := o]> (heap s))
      | None => stuck DanglingPointer
      end
  end.

Definition load_encoding (p : ptr) : M PacketRtpEncoding :=
  o ← load p;
  match o with OEncoding e => mret e | _ => stuck TypeConfusion end.

Definition load_rtp (p : ptr) : M PacketRtpData :=
  o ← load p;
  match o with ORtpData r => mret r | _ => stuck TypeConfusion end.

Definition load_bytes (p : ptr) : M GByteArray :=
  o ← load p;
  match o with OByteArray b => mret b | _ => stuck TypeConfusion end.

Definition load_packet (p : ptr) : M Packet :=
  o ← load p;
  match o with OPacket k => mret k | _ => stuck TypeConfusion end.

(** ** GLib primitives *)

(** [g_malloc0 (sizeof (T))]: a fresh block holding the all-zero value of
    [T], which the caller passes as [zero]. *)
Definition g_malloc0 (zero : obj) : M ptr :=
  s ← get_state;
  let l := fresh (dom (heap s)) in
  set_heap (<[l := zero]> (heap s));;
  emit (EvMalloc l);;
  mret (Heap l).

(** [g_free]: a no-op on [NULL]; releases a live heap block; anything else
    (a pointer into static storage, a block already released) is undefined. *)
Definition g_free (p : ptr) : M unit :=
  s ← get_state;
  match p with
  | NULL => mret tt
  | Global _ => stuck InvalidFree
  | Heap l =>
      match heap s !! l with
      | Some _ => set_heap (delete l (heap s));; emit (EvFree l)
      | None => stuck InvalidFree
      end
  end.

(** [g_byte_array_remove_range]: GLib checks the range with
    [g_return_val_if_fail] and otherwise closes the gap in place. *)
Definition g_byte_array_remove_range (a : ptr) (index len : nat) : M unit :=
  b ← load_bytes a;
  if decide (index + len ≤ length (ba_data b))
  then store a (OByteArray (mkByteArray
                  (take index (ba_data b) ++ drop (index + len) (ba_data b))
                  (ba_ref b)))
  else emit EvCritical.

(** [g_byte_array_ref]: one more owner of the same array. *)
Definition g_byte_array_ref (a : ptr) : M ptr :=
  b ← load_bytes a;
  store a (OByteArray (mkByteArray (ba_data b) (S (ba_ref b))));;
  mret a.

(** [g_byte_array_unref]: one owner less; the last one releases the array. *)
Definition g_byte_array_unref (a : ptr) : M unit :=
  b ← load_bytes a;
  if decide (ba_ref b ≤ 1)
  then g_free a
  else store a (OByteArray (mkByteArray (ba_data b) (ba_ref b - 1))).

(** [g_return_if_fail] and [g_return_val_if_fail], when the condition does
    not hold: GLib logs a critical message, and the macro then returns from
    the calling function.  This is the logging half; the caller's model
    writes the return. *)
Definition g_return_if_fail_warning : M unit := emit EvCritical.

(** [g_ptr_array_index (array, index)]: plain indexing, unchecked in C. *)
Definition g_ptr_array_index (array : list ptr) (index : nat) : M ptr :=
  match array !! index with
  | Some p => mret p
  | None => stuck OutOfBounds
  end.

(** ** Octets and byte order *)

Local Open Scope Z_scope.

Definition octet (b : byte) : Z := Z.of_N (Byte.to_N b).

(** [G_BYTE_ORDER], fixed by GLib's configuration for the host. *)
Inductive byte_order : Type := G_LITTLE_ENDIAN | G_BIG_ENDIAN.

(** A [guint16] and a [guint32] field as the host reads them from memory. *)
Definition host_load16 (bo : byte_order) (b0 b1 : byte) : Z :=
  match bo with
  | G_LITTLE_ENDIAN => Z.lor (octet b0) (Z.shiftl (octet b1) 8)
  | G_BIG_ENDIAN => Z.lor (Z.shiftl (octet b0) 8) (octet b1)
  end.

Definition host_load32 (bo : byte_order) (b0 b1 b2 b3 : byte) : Z :=
  match bo with
  | G_LITTLE_ENDIAN =>
      Z.lor (Z.lor (Z.lor (octet b0) (Z.shiftl (octet b1) 8))
                   (Z.shiftl (octet b2) 16)) (Z.shiftl (octet b3) 24)
  | G_BIG_ENDIAN =>
      Z.lor (Z.lor (Z.lor (Z.shiftl (octet b0) 24) (Z.shiftl (octet b1) 16))
                   (Z.shiftl (octet b2) 8)) (octet b3)
  end.

Definition GUINT16_SWAP_LE_BE (v : Z) : Z :=
  Z.land (Z.lor (Z.shiftr v 8) (Z.shiftl v 8)) 0xFFFF.

Definition GUINT32_SWAP_LE_BE (v : Z) : Z :=
  Z.lor (Z.lor (Z.lor (Z.shiftl (Z.land v 0x000000ff) 24)
                      (Z.shiftl (Z.land v 0x0000ff00) 8))
               (Z.shiftr (Z.land v 0x00ff0000) 8))
        (Z.shiftr (Z.land v 0xff000000) 24).

(** [g_ntohs] and [g_ntohl]: network (big-endian) to host order. *)
Definition g_ntohs (bo : byte_order) (v : Z) : Z :=
  match bo with
  | G_LITTLE_ENDIAN => GUINT16_SWAP_LE_BE v
  | G_BIG_ENDIAN => v
  end.

Definition g_ntohl (bo : byte_order) (v : Z) : Z :=
  match bo with
  | G_LITTLE_ENDIAN => GUINT32_SWAP_LE_BE v
  | G_BIG_ENDIAN => v
  end.

(** The value of a big-endian byte sequence, most significant byte first. *)
Fixpoint big_endian (acc : Z) (bs : list byte) : Z :=
  match bs with
  | [] => acc
  | b :: bs' => big_endian (acc * 256 + octet b) bs'
  end.

(** ** The RTP header *)

(** Version is the first 2 bits of the first octet. *)
Definition RTP_VERSION (o : Z) : Z := Z.shiftr o 6.

(** Payload type is the last 7 bits; the macro casts to [guint8]. *)
Definition RTP_PAYLOAD_TYPE (o : Z) : Z := Z.land (Z.land o 0x7F) 0xFF.

(** Handled RTP versions. *)
Definition RTP_VERSION_RFC1889 : Z := 2.

(** Modelled from the spec: [PacketRtpHdr] is declared in [packet_rtp.h],
    which is not part of the sources at hand.  The fixed RTP header is 12
    bytes: the version is the top 2 bits of the first octet, the payload
    type the low 7 bits of the second octet, followed by the sequence number
    (bytes 2-3), the timestamp (bytes 4-7) and the synchronization source
    (bytes 8-11), each stored in network order and read here as the host
    finds it in memory. *)
Definition sizeof_PacketRtpHdr : nat := 12.

Record PacketRtpHdr : Type := mkHdr {
  hdr_version : Z;
  hdr_pt : Z;
  hdr_seq : Z;
  hdr_ts : Z;
  hdr_ssrc : Z
}.

(** The cast [(PacketRtpHdr * ) data->data]: the fields of the header laid
    over the first bytes of the buffer. *)
Definition PacketRtpHdr_cast (bo : byte_order) (bs : list byte) : PacketRtpHdr :=
  let b i := nth i bs x00 in
  mkHdr (RTP_VERSION (octet (b 0%nat)))
        (RTP_PAYLOAD_TYPE (octet (b 1%nat)))
        (host_load16 bo (b 2%nat) (b 3%nat))
        (host_load32 bo (b 4%nat) (b 5%nat) (b 6%nat) (b 7%nat))
        (host_load32 bo (b 8%nat) (b 9%nat) (b 10%nat) (b 11%nat)).

(** ** Known RTP encodings *)

(** Modelled from the spec: the [RTP_PT_*] payload-type codes are defined in
    [packet_rtp.h], which is not part of the sources at hand.  They are the
    well-known static payload-type assignments (code 0 is PCMU, code 8 is
    PCMA, and so on through the RTP audio/video profile). *)
Definition RTP_PT_PCMU : Z := 0.
Definition RTP_PT_GSM : Z := 3.
Definition RTP_PT_G723 : Z := 4.
Definition RTP_PT_DVI4_8000 : Z := 5.
Definition RTP_PT_DVI4_16000 : Z := 6.
Definition RTP_PT_LPC : Z := 7.
Definition RTP_PT_PCMA : Z := 8.
Definition RTP_PT_G722 : Z := 9.
Definition RTP_PT_L16_STEREO : Z := 10.
Definition RTP_PT_L16_MONO : Z := 11.
Definition RTP_PT_QCELP : Z := 12.
Definition RTP_PT_CN : Z := 13.
Definition RTP_PT_MPA : Z := 14.
Definition RTP_PT_G728 : Z := 15.
Definition RTP_PT_DVI4_11025 : Z := 16.
Definition RTP_PT_DVI4_22050 : Z := 17.
Definition RTP_PT_G729 : Z := 18.
Definition RTP_PT_CELB : Z := 25.
Definition RTP_PT_JPEG : Z := 26.
Definition RTP_PT_NV : Z := 28.
Definition RTP_PT_H261 : Z := 31.
Definition RTP_PT_MPV : Z := 32.
Definition RTP_PT_MP2T : Z := 33.
Definition RTP_PT_H263 : Z := 34.

Definition known (code : Z) (name format : string) (clock : Z) : PacketRtpEncoding :=
  mkEncoding code (Some name) (Some format) clock.

(** The initialiser of the global array [encodings], with its terminating
    all-null entry. *)
Definition encodings : list PacketRtpEncoding := [
  known RTP_PT_PCMU       "PCMU/8000"  "g711u" 8000;
  known RTP_PT_GSM        "GSM/8000"   "gsm"   8000;
  known RTP_PT_G723       "G723/8000"  "g723"  8000;
  known RTP_PT_DVI4_8000  "DVI4/8000"  "dvi"   8000;
  known RTP_PT_DVI4_16000 "DVI4/16000" "dvi"   16000;
  known RTP_PT_LPC        "LPC/8000"   "lpc"   8000;
  known RTP_PT_PCMA       "PCMA/8000"  "g711a" 8000;
  known RTP_PT_G722       "G722/8000"  "g722"  8000;
  known RTP_PT_L16_STEREO "L16/44100"  "l16"   44100;
  known RTP_PT_L16_MONO   "L16/44100"  "l16"   44100;
  known RTP_PT_QCELP      "QCELP/8000" "qcelp" 8000;
  known RTP_PT_CN         "CN/8000"    "cn"    8000;
  known RTP_PT_MPA        "MPA/90000"  "mpa"   8000;
  known RTP_PT_G728       "G728/8000"  "g728"  8000;
  known RTP_PT_DVI4_11025 "DVI4/11025" "dvi"   11025;
  known RTP_PT_DVI4_22050 "DVI4/22050" "dvi"   22050;
  known RTP_PT_G729       "G729/8000"  "g729"  8000;
  known RTP_PT_CELB       "CelB/90000" "celb"  90000;
  known RTP_PT_JPEG       "JPEG/90000" "jpeg"  90000;
  known RTP_PT_NV         "nv/90000"   "nv"    90000;
  known RTP_PT_H261       "H261/90000" "h261"  90000;
  known RTP_PT_MPV        "MPV/90000"  "mpv"   90000;
  known RTP_PT_MP2T       "MP2T/90000" "mp2t"  90000;
  known RTP_PT_H263       "H263/90000" "h263"  90000;
  mkEncoding 0 None None 0
].

(** What [g_malloc0] leaves in a new [PacketRtpEncoding] and in a new
    [PacketRtpData]: every field zero, every pointer null. *)
Definition zero_PacketRtpEncoding : PacketRtpEncoding := mkEncoding 0 None None 0.

Definition zero_PacketRtpData : PacketRtpData := mkRtpData NULL 0 0 0 NULL.

(** Field assignments. *)
Definition with_id (v : Z) (e : PacketRtpEncoding) : PacketRtpEncoding :=
  mkEncoding v (enc_name e) (enc_format e) (enc_clock e).

Definition with_encoding (v : ptr) (r : PacketRtpData) : PacketRtpData :=
  mkRtpData v (rtp_seq r) (rtp_ts r) (rtp_ssrc r) (rtp_payload r).

Definition with_seq (v : Z) (r : PacketRtpData) : PacketRtpData :=
  mkRtpData (rtp_encoding r) v (rtp_ts r) (rtp_ssrc r) (rtp_payload r).

Definition with_ts (v : Z) (r : PacketRtpData) : PacketRtpData :=
  mkRtpData (rtp_encoding r) (rtp_seq r) v (rtp_ssrc r) (rtp_payload r).

Definition with_ssrc (v : Z) (r : PacketRtpData) : PacketRtpData :=
  mkRtpData (rtp_encoding r) (rtp_seq r) (rtp_ts r) v (rtp_payload r).

Definition with_payload (v : ptr) (r : PacketRtpData) : PacketRtpData :=
  mkRtpData (rtp_encoding r) (rtp_seq r) (rtp_ts r) (rtp_ssrc r) v.

(** [p->field = v] on a [PacketRtpData] and on a [PacketRtpEncoding]. *)
Definition assign_rtp (p : ptr) (f : PacketRtpData -> PacketRtpData) : M unit :=
  r ← load_rtp p;
  store p (ORtpData (f r)).

Definition assign_encoding (p : ptr) (f : PacketRtpEncoding -> PacketRtpEncoding) : M unit :=
  e ← load_encoding p;
  store p (OEncoding (f e)).

(** ** Collaborators outside [packet_rtp.c] *)

(** Modelled from the spec: [packet_add_type] is defined in
    [parser/packet.c], which is not part of the sources at hand.  It attaches
    the protocol data to the packet record under the protocol identifier and
    fails fatally if the identifier already has an entry. *)
Definition packet_add_type (packet : ptr) (type : nat) (data : ptr) : M unit :=
  pk ← load_packet packet;
  match proto pk !! type with
  | None => stuck OutOfBounds
  | Some NULL => store packet (OPacket (mkPacket (<[type := data]> (proto pk))))
  | Some _ => stuck FatalAbort
  end.

(** Modelled from the spec: [storage_add_packet] is defined in
    [storage/storage.c], which is not part of the sources at hand.  It is the
    delivery of the packet to the storage collaborator, which takes no
    ownership action on the packet; only the call is recorded. *)
Definition storage_add_packet (packet : ptr) : M unit :=
  emit (EvStorageAddPacket packet).

(** ** The functions of [packet_rtp.c] *)

(** The loop of [packet_rtp_standard_codec] over the array [es], whose first
    element has index [i]: it stops at the first entry with a null [format].
    [None] is a read past the end of the array. *)
Fixpoint standard_codec_from (es : list PacketRtpEncoding) (i : nat) (code : Z)
  : option ptr :=
  match es with
  | [] => None
  | e :: es' =>
      match enc_format e with
      | None => Some NULL
      | Some _ =>
          if decide (enc_id e = code) then Some (Global i)
          else standard_codec_from es' (S i) code
      end
  end.

Definition packet_rtp_standard_codec (code : Z) : M ptr :=
  s ← get_state;
  match standard_codec_from (registry s) 0 code with
  | Some p => mret p
  | None => stuck OutOfBounds
  end.

Section Dissector.

(** The identifier [PACKET_RTP] of [enum PacketProtoId] (declared in
    [parser/packet.h]) and the host's byte order are fixed by the build. *)
Variable PACKET_RTP : nat.
Variable G_BYTE_ORDER : byte_order.

Definition packet_rtp_data (packet : ptr) : M ptr :=
  if decide (packet = NULL) then
    g_return_if_fail_warning;; mret NULL
  else
    pk ← load_packet packet;
    rtp ← g_ptr_array_index (proto pk) PACKET_RTP;
    if decide (rtp = NULL) then
      g_return_if_fail_warning;; mret NULL
    else
      mret rtp.

Definition packet_rtp_parse (packet data : ptr) : M ptr :=
  arr ← load_bytes data;
  (* Not enough data for a RTP packet *)
  if decide (length (ba_data arr) < sizeof_PacketRtpHdr)%nat then mret data else
  let hdr := PacketRtpHdr_cast G_BYTE_ORDER (ba_data arr) in
  (* Validate RTP version field *)
  if decide (hdr_version hdr ≠ RTP_VERSION_RFC1889) then mret data else
  (* Validate RTP payload type *)
  if negb ((hdr_pt hdr <=? 64) || (hdr_pt hdr >=? 96))
  then mret data else
  rtp ← g_malloc0 (ORtpData zero_PacketRtpData);
  enc ← packet_rtp_standard_codec (hdr_pt hdr);
  assign_rtp rtp (with_encoding enc);;
  (* Not standard payload_type, just set the id *)
  r ← load_rtp rtp;
  (if decide (rtp_encoding r = NULL) then
     e ← g_malloc0 (OEncoding zero_PacketRtpEncoding);
     assign_rtp rtp (with_encoding e);;
     r' ← load_rtp rtp;
     assign_encoding (rtp_encoding r') (with_id (hdr_pt hdr))
   else mret tt);;
  (* Store RTP header information in host byte order *)
  assign_rtp rtp (with_seq (g_ntohs G_BYTE_ORDER (hdr_seq hdr)));;
  assign_rtp rtp (with_ts (g_ntohl G_BYTE_ORDER (hdr_ts hdr)));;
  assign_rtp rtp (with_ssrc (g_ntohl G_BYTE_ORDER (hdr_ssrc hdr)));;
  (* Remove RTP headers from payload *)
  g_byte_array_remove_range data 0 12;;
  (* Store RTP payload data *)
  payload ← g_byte_array_ref data;
  assign_rtp rtp (with_payload payload);;
  (* Set packet RTP information *)
  packet_add_type packet PACKET_RTP rtp;;
  (* Add data to storage *)
  storage_add_packet packet;;
  mret data.

Definition packet_rtp_free (packet : ptr) : M unit :=
  if decide (packet = NULL) then g_return_if_fail_warning else
  pk ← load_packet packet;
  rtp_data ← g_ptr_array_index (proto pk) PACKET_RTP;
  if decide (rtp_data = NULL) then g_return_if_fail_warning else
  r ← load_rtp rtp_data;
  e ← load_encoding (rtp_encoding r);
  codec ← packet_rtp_standard_codec (enc_id e);
  (if decide (codec = NULL) then g_free (rtp_encoding r) else mret tt);;
  r' ← load_rtp rtp_data;
  g_byte_array_unref (rtp_payload r');;
  g_free rtp_data.

(** ** Vocabulary of the statements *)

(** The three guards of [packet_rtp_parse] on the bytes [bs] of a buffer:
    enough data, the handled version, a payload type outside 65-95. *)
Definition accepted (bs : list byte) : Prop :=
  (sizeof_PacketRtpHdr ≤ length bs)%nat
  ∧ hdr_version (PacketRtpHdr_cast G_BYTE_ORDER bs) = RTP_VERSION_RFC1889
  ∧ (hdr_pt (PacketRtpHdr_cast G_BYTE_ORDER bs) ≤ 64
     ∨ 96 ≤ hdr_pt (PacketRtpHdr_cast G_BYTE_ORDER bs)).

(** The fields [packet_rtp_parse] stores for a buffer holding [bs], next to
    the encoding and payload pointers. *)
Definition parsed_rtp (bs : list byte) (enc payload : ptr) : PacketRtpData :=
  let hdr := PacketRtpHdr_cast G_BYTE_ORDER bs in
  mkRtpData enc
            (g_ntohs G_BYTE_ORDER (hdr_seq hdr))
            (g_ntohl G_BYTE_ORDER (hdr_ts hdr))
            (g_ntohl G_BYTE_ORDER (hdr_ssrc hdr))
            payload.

(** The statements of [packet_rtp_parse] from the header stores on. *)
Definition parse_tail (hdr : PacketRtpHdr) (packet data rtp : ptr) : M ptr :=
  assign_rtp rtp (with_seq (g_ntohs G_BYTE_ORDER (hdr_seq hdr)));;
  assign_rtp rtp (with_ts (g_ntohl G_BYTE_ORDER (hdr_ts hdr)));;
  assign_rtp rtp (with_ssrc (g_ntohl G_BYTE_ORDER (hdr_ssrc hdr)));;
  g_byte_array_remove_range data 0 12;;
  payload ← g_byte_array_ref data;
  assign_rtp rtp (with_payload payload);;
  packet_add_type packet PACKET_RTP rtp;;
  storage_add_packet packet;;
  mret data.

(** The state [packet_rtp_parse] leaves when it accepts the buffer [d]
    (holding [b]) for the packet [p] (holding [k]) and finds the payload type
    at index [i] of the registry. *)
Definition parsed_static (st : state) (p d : loc) (k : Packet) (b : GByteArray)
    (i : nat) : state :=
  let r := fresh (dom (heap st)) in
  mkState
    (<[p := OPacket (mkPacket (<[PACKET_RTP := Heap r]> (proto k)))]>
     (<[d := OByteArray (mkByteArray (drop 12 (ba_data b)) (S (ba_ref b)))]>
      (<[r := ORtpData (parsed_rtp (ba_data b) (Global i) (Heap d))]> (heap st))))
    (registry st)
    (trace st ++ [EvMalloc r; EvStorageAddPacket (Heap p)]).

(** The state it leaves when the payload type is not in the registry. *)
Definition parsed_dynamic (st : state) (p d : loc) (k : Packet) (b : GByteArray)
    : state :=
  let r := fresh (dom (heap st)) in
  let e := fresh ({[r]} ∪ dom (heap st)) in
  let pt := hdr_pt (PacketRtpHdr_cast G_BYTE_ORDER (ba_data b)) in
  mkState
    (<[p := OPacket (mkPacket (<[PACKET_RTP := Heap r]> (proto k)))]>
     (<[d := OByteArray (mkByteArray (drop 12 (ba_data b)) (S (ba_ref b)))]>
      (<[r := ORtpData (parsed_rtp (ba_data b) (Heap e) (Heap d))]>
       (<[e := OEncoding (mkEncoding pt None None 0)]> (heap st)))))
    (registry st)
    (trace st ++ [EvMalloc r; EvMalloc e; EvStorageAddPacket (Heap p)]).

(** The release as the design note of the spec words it: whether the
    descriptor is static or dynamic is a tag fixed when the descriptor is
    created.  In this memory model the tag is the kind of the pointer:
    [Global] for an entry of [encodings], [Heap] for an allocated block. *)
Definition packet_rtp_free_by_tag (packet : ptr) : M unit :=
  if decide (packet = NULL) then g_return_if_fail_warning else
  pk ← load_packet packet;
  rtp_data ← g_ptr_array_index (proto pk) PACKET_RTP;
  if decide (rtp_data = NULL) then g_return_if_fail_warning else
  r ← load_rtp rtp_data;
  _ ← load_encoding (rtp_encoding r);
  (match rtp_encoding r with
   | Heap _ => g_free (rtp_encoding r)
   | _ => mret tt
   end);;
  r' ← load_rtp rtp_data;
  g_byte_array_unref (rtp_payload r');;
  g_free rtp_data.

(** One dissect/release cycle of a packet over a buffer, and a sequence of
    them, for a given release function. *)
Definition cycle (release : ptr → M unit) (pd : loc * loc) : M unit :=
  packet_rtp_parse (Heap pd.1) (Heap pd.2);;
  release (Heap pd.1).

Fixpoint cycles (release : ptr → M unit) (l : list (loc * loc)) : M unit :=
  match l with
  | [] => mret tt
  | pd :: l' => cycle release pd;; cycles release l'
  end.

(** What a sequence of cycles needs of the state it starts in: the global
    array holds its initialiser, every packet is live and has no RTP data,
    every buffer is a live byte array with an owner, and no packet occurs
    twice. *)
Definition cycles_ready (st : state) (l : list (loc * loc)) : Prop :=
  registry st = encodings
  ∧ NoDup (l.*1)
  ∧ ∀ p d, (p, d) ∈ l →
      (∃ k, heap st !! p = Some (OPacket k) ∧ proto k !! PACKET_RTP = Some NULL)
      ∧ (∃ b, heap st !! d = Some (OByteArray b) ∧ (1 ≤ ba_ref b)%nat).

End Dissector.


(** ** The dissector with its storage collaborator left open *)

Section DissectorOpen.

Variable PACKET_RTP : nat.
Variable G_BYTE_ORDER : byte_order.

(** [storage_add_packet] belongs to another module, so when and on what
    state the dissector calls it is stated for any function [deliver] in its
    place.  These are [packet_rtp_parse] and its last statements again, word
    for word, with [deliver] where the source calls [storage_add_packet]. *)
Variable deliver : ptr → M unit.

Definition parse_tail_with (hdr : PacketRtpHdr) (packet data rtp : ptr) : M ptr :=
  assign_rtp rtp (with_seq (g_ntohs G_BYTE_ORDER (hdr_seq hdr)));;
  assign_rtp rtp (with_ts (g_ntohl G_BYTE_ORDER (hdr_ts hdr)));;
  assign_rtp rtp (with_ssrc (g_ntohl G_BYTE_ORDER (hdr_ssrc hdr)));;
  g_byte_array_remove_range data 0 12;;
  payload ← g_byte_array_ref data;
  assign_rtp rtp (with_payload payload);;
  packet_add_type packet PACKET_RTP rtp;;
  deliver packet;;
  mret data.

Definition packet_rtp_parse_with (packet data : ptr) : M ptr :=
  arr ← load_bytes data;
  (* Not enough data for a RTP packet *)
  if decide (length (ba_data arr) < sizeof_PacketRtpHdr)%nat then mret data else
  let hdr := PacketRtpHdr_cast G_BYTE_ORDER (ba_data arr) in
  (* Validate RTP version field *)
  if decide (hdr_version hdr ≠ RTP_VERSION_RFC1889) then mret data else
  (* Validate RTP payload type *)
  if negb ((hdr_pt hdr <=? 64) || (hdr_pt hdr >=? 96))
  then mret data else
  rtp ← g_malloc0 (ORtpData zero_PacketRtpData);
  enc ← packet_rtp_standard_codec (hdr_pt hdr);
  assign_rtp rtp (with_encoding enc);;
  (* Not standard payload_type, just set the id *)
  r ← load_rtp rtp;
  (if decide (rtp_encoding r = NULL) then
     e ← g_malloc0 (OEncoding zero_PacketRtpEncoding);
     assign_rtp rtp (with_encoding e);;
     r' ← load_rtp rtp;
     assign_encoding (rtp_encoding r') (with_id (hdr_pt hdr))
   else mret tt);;
  (* Store RTP header information in host byte order *)
  assign_rtp rtp (with_seq (g_ntohs G_BYTE_ORDER (hdr_seq hdr)));;
  assign_rtp rtp (with_ts (g_ntohl G_BYTE_ORDER (hdr_ts hdr)));;
  assign_rtp rtp (with_ssrc (g_ntohl G_BYTE_ORDER (hdr_ssrc hdr)));;
  (* Remove RTP headers from payload *)
  g_byte_array_remove_range data 0 12;;
  (* Store RTP payload data *)
  payload ← g_byte_array_ref data;
  assign_rtp rtp (with_payload payload);;
  (* Set packet RTP information *)
  packet_add_type packet PACKET_RTP rtp;;
  (* Add data to storage *)
  deliver packet;;
  mret data.

End DissectorOpen.

(** A storage collaborator that looks at what it is given: it reads the
    packet's RTP data through the accessor, then the payload, and only then
    records the packet. *)
Definition probing_storage (PACKET_RTP : nat) (packet : ptr) : M unit :=
  rtp ← packet_rtp_data PACKET_RTP packet;
  r ← load_rtp rtp;
  _ ← load_bytes (rtp_payload r);
  emit (EvStorageAddPacket packet).

(** A payload-type code is in the registry when one of the entries before
    the terminator carries it. *)
Definition in_registry (code : Z) : Prop :=
  ∃ e, e ∈ encodings ∧ is_Some (enc_format e) ∧ enc_id e = code.

(** The number of deliveries of the packet [p] to storage in a trace. *)
Definition deliveries (p : ptr) (t : list event) : nat :=
  length (filter (λ e, e = EvStorageAddPacket p) t).

(** ** Sample inputs *)

(** A 12-byte RTP header with the given first two octets, sequence number 1,
    timestamp 2 and synchronization source 3. *)
Definition sample_header (b0 b1 : byte) : list byte :=
  [b0; b1; x00; x01; x00; x00; x00; x02; x00; x00; x00; x03].

(** A state with a packet without protocol data at block 1 and a buffer
    holding [bs], with one owner, at block 2. *)
Definition sample_state (bs : list byte) : state :=
  mkState (<[2%positive := OByteArray (mkByteArray bs 1)]>
           {[1%positive := OPacket (mkPacket (replicate 11 NULL))]})
          encodings [].

(** The same with a second packet at block 3. *)
Definition sample_state2 (bs : list byte) : state :=
  mkState (<[3%positive := OPacket (mkPacket (replicate 11 NULL))]>
           (heap (sample_state bs)))
          encodings [].

(** A state in which the RTP data of the packet points to an allocated
    descriptor that carries a code of the registry. *)
Definition forged_state : state :=
  mkState (<[4%positive := OEncoding (mkEncoding 0 None None 0)]>
           (<[3%positive := ORtpData (mkRtpData (Heap 4) 1 2 3 (Heap 2))]>
            (<[2%positive := OByteArray (mkByteArray [] 2)]>
             {[1%positive := OPacket (mkPacket (<[8%nat := Heap 3]> (replicate 11 NULL)))]})))
          encodings [].

(** ** Vocabulary of the further statements *)

(** [s'] comes after [s] by a run that leaves the global array alone and
    logs only events satisfying [P]. *)
Definition follows (P : event → Prop) (s s' : state) : Prop :=
  registry s' = registry s ∧ ∃ t, trace s' = trace s ++ t ∧ Forall P t.

(** Every returning run of [m] ends in a state that follows the initial one,
    with a result satisfying [Q]. *)
Definition yields {A : Type} (P : event → Prop) (Q : A → Prop) (m : M A) : Prop :=
  ∀ s a s', m s = Ok a s' → Q a ∧ follows P s s'.

Definition is_heap (p : ptr) : Prop := ∃ l, p = Heap l.

Definition not_free (e : event) : Prop := ∀ l, e ≠ EvFree l.

Definition free_or_log (e : event) : Prop := (∃ l, e = EvFree l) ∨ e = EvCritical.

(** The heap, and the events, after one owner of the byte array [b] at [d]
    lets go of it. *)
Definition unref_heap (d : loc) (b : GByteArray) (h : gmap positive obj)
  : gmap positive obj :=
  if decide (ba_ref b ≤ 1)%nat then delete d h
  else <[d := OByteArray (mkByteArray (ba_data b) (ba_ref b - 1))]> h.

Definition unref_events (d : loc) (b : GByteArray) : list event :=
  if decide (ba_ref b ≤ 1)%nat then [EvFree d] else [].

(** ** More sample inputs *)

(** A buffer with one header (payload type 0) and two bytes of payload, and
    one with two headers (payload types 0 and 100) and one byte. *)
Definition sample_bytes : list byte := sample_header x80 x00 ++ [x41; x42].

Definition sample_bytes2 : list byte :=
  sample_header x80 x00 ++ sample_header x80 x64 ++ [x41].

Definition sample_packet : Packet := mkPacket (replicate 11 NULL).

(** A state that has nothing but a global array, here one with an element
    after its terminator and one without terminator. *)
Definition registry_state (es : list PacketRtpEncoding) : state := mkState ∅ es [].

Definition sample_registry : list PacketRtpEncoding :=
  [known 5 "FIVE/8000" "five" 8000; mkEncoding 0 None None 0;
   known 7 "SEVEN/8000" "seven" 8000].

Definition unterminated_registry : list PacketRtpEncoding :=
  [known 5 "FIVE/8000" "five" 8000; known 7 "SEVEN/8000" "seven" 8000].

(** A state in which the RTP data of the packet points to the terminator of
    the table. *)
Definition terminator_state : state :=
  mkState (<[3%positive := ORtpData (mkRtpData (Global 24) 1 2 3 (Heap 2))]>
           (<[2%positive := OByteArray (mkByteArray [] 2)]>
            {[1%positive := OPacket (mkPacket (<[8%nat := Heap 3]> (replicate 11 NULL)))]}))
          encodings [].

(** * Properties *)

(** ** Running the monad *)

Lemma bind_Ok {A B : Type} (m : M A) (f : A → M B) (s s' : state) (a : A) :
  m s = Ok a s' → (m ≫= f) s = f a s'.
Proof. intros H. unfold mbind, M_bind. now rewrite H. Qed.

Lemma bind_Stuck {A B : Type} (m : M A) (f : A → M B) (s : state) (e : fault) :
  m s = Stuck e → (m ≫= f) s = Stuck e.
Proof. intros H. unfold mbind, M_bind. now rewrite H. Qed.

Lemma load_Heap (l : loc) (o : obj) (s : state) :
  heap s !! l = Some o → load (Heap l) s = Ok o s.
Proof. intros H. unfold load, mbind, M_bind, get_state. now rewrite H. Qed.

Lemma load_Global (i : nat) (e : PacketRtpEncoding) (s : state) :
  registry s !! i = Some e → load (Global i) s = Ok (OEncoding e) s.
Proof. intros H. unfold load, mbind, M_bind, get_state. now rewrite H. Qed.

Lemma store_Heap (l : loc) (o : obj) (s : state) :
  is_Some (heap s !! l) →
  store (Heap l) o s = Ok tt (mkState (<[l := o]> (heap s)) (registry s) (trace s)).
Proof. intros [o' H]. unfold store, mbind, M_bind, get_state. now rewrite H. Qed.

Lemma load_bytes_Heap (l : loc) (b : GByteArray) (s : state) :
  heap s !! l = Some (OByteArray b) → load_bytes (Heap l) s = Ok b s.
Proof. intros H. unfold load_bytes. now rewrite (bind_Ok _ _ _ _ _ (load_Heap _ _ _ H)). Qed.

Lemma load_rtp_Heap (l : loc) (r : PacketRtpData) (s : state) :
  heap s !! l = Some (ORtpData r) → load_rtp (Heap l) s = Ok r s.
Proof. intros H. unfold load_rtp. now rewrite (bind_Ok _ _ _ _ _ (load_Heap _ _ _ H)). Qed.

Lemma load_packet_Heap (l : loc) (k : Packet) (s : state) :
  heap s !! l = Some (OPacket k) → load_packet (Heap l) s = Ok k s.
Proof. intros H. unfold load_packet. now rewrite (bind_Ok _ _ _ _ _ (load_Heap _ _ _ H)). Qed.

Lemma load_encoding_Heap (l : loc) (e : PacketRtpEncoding) (s : state) :
  heap s !! l = Some (OEncoding e) → load_encoding (Heap l) s = Ok e s.
Proof. intros H. unfold load_encoding. now rewrite (bind_Ok _ _ _ _ _ (load_Heap _ _ _ H)). Qed.

Lemma load_encoding_Global (i : nat) (e : PacketRtpEncoding) (s : state) :
  registry s !! i = Some e → load_encoding (Global i) s = Ok e s.
Proof. intros H. unfold load_encoding. now rewrite (bind_Ok _ _ _ _ _ (load_Global _ _ _ H)). Qed.

Lemma assign_rtp_Heap (l : loc) (f : PacketRtpData → PacketRtpData)
    (r : PacketRtpData) (s : state) :
  heap s !! l = Some (ORtpData r) →
  assign_rtp (Heap l) f s
  = Ok tt (mkState (<[l := ORtpData (f r)]> (heap s)) (registry s) (trace s)).
Proof.
  intros H. unfold assign_rtp.
  rewrite (bind_Ok _ _ _ _ _ (load_rtp_Heap _ _ _ H)).
  apply store_Heap. eauto.
Qed.

Lemma assign_encoding_Heap (l : loc) (f : PacketRtpEncoding → PacketRtpEncoding)
    (e : PacketRtpEncoding) (s : state) :
  heap s !! l = Some (OEncoding e) →
  assign_encoding (Heap l) f s
  = Ok tt (mkState (<[l := OEncoding (f e)]> (heap s)) (registry s) (trace s)).
Proof.
  intros H. unfold assign_encoding.
  rewrite (bind_Ok _ _ _ _ _ (load_encoding_Heap _ _ _ H)).
  apply store_Heap. eauto.
Qed.

Lemma g_malloc0_Ok (zero : obj) (s : state) :
  g_malloc0 zero s
  = Ok (Heap (fresh (dom (heap s))))
       (mkState (<[fresh (dom (heap s)) := zero]> (heap s)) (registry s)
                (trace s ++ [EvMalloc (fresh (dom (heap s)))])).
Proof. reflexivity. Qed.

Lemma fresh_loc_None (h : gmap positive obj) : h !! fresh (dom h) = None.
Proof. apply not_elem_of_dom. apply is_fresh. Qed.

Lemma fresh_loc_ne (h : gmap positive obj) (l : loc) :
  is_Some (h !! l) → l ≠ fresh (dom h).
Proof. intros [o H] ->. rewrite fresh_loc_None in H. discriminate. Qed.


Lemma g_byte_array_remove_range_Heap (l : loc) (b : GByteArray) (index len : nat) (s : state) :
  heap s !! l = Some (OByteArray b) →
  (index + len ≤ length (ba_data b))%nat →
  g_byte_array_remove_range (Heap l) index len s
  = Ok tt (mkState
      (<[l := OByteArray (mkByteArray
                 (take index (ba_data b) ++ drop (index + len) (ba_data b))
                 (ba_ref b))]> (heap s))
      (registry s) (trace s)).
Proof.
  intros H Hlen. unfold g_byte_array_remove_range.
  rewrite (bind_Ok _ _ _ _ _ (load_bytes_Heap _ _ _ H)).
  rewrite decide_True by exact Hlen. apply store_Heap. eauto.
Qed.

Lemma g_byte_array_ref_Heap (l : loc) (b : GByteArray) (s : state) :
  heap s !! l = Some (OByteArray b) →
  g_byte_array_ref (Heap l) s
  = Ok (Heap l) (mkState
      (<[l := OByteArray (mkByteArray (ba_data b) (S (ba_ref b)))]> (heap s))
      (registry s) (trace s)).
Proof.
  intros H. unfold g_byte_array_ref.
  rewrite (bind_Ok _ _ _ _ _ (load_bytes_Heap _ _ _ H)).
  erewrite bind_Ok by (apply store_Heap; eauto). reflexivity.
Qed.

Lemma packet_add_type_Heap (l : loc) (k : Packet) (type : nat) (data : ptr) (s : state) :
  heap s !! l = Some (OPacket k) →
  proto k !! type = Some NULL →
  packet_add_type (Heap l) type data s
  = Ok tt (mkState
      (<[l := OPacket (mkPacket (<[type := data]> (proto k)))]> (heap s))
      (registry s) (trace s)).
Proof.
  intros H Hk. unfold packet_add_type.
  rewrite (bind_Ok _ _ _ _ _ (load_packet_Heap _ _ _ H)).
  rewrite Hk. apply store_Heap. eauto.
Qed.

(** Equality of heaps, key by key. *)
Ltac heap_eq :=
  apply map_eq; intros ?l;
  repeat first
    [ rewrite lookup_insert_eq
    | rewrite lookup_delete_eq
    | rewrite lookup_insert_ne by congruence
    | rewrite lookup_delete_ne by congruence
    | match goal with
      | |- context [<[?k := _]> _ !! ?l] => destruct (decide (k = l)) as [<-|]
      | |- context [delete ?k _ !! ?l] => destruct (decide (k = l)) as [<-|]
      end ];
  try congruence; try reflexivity.

Lemma g_free_Heap (l : loc) (o : obj) (s : state) :
  heap s !! l = Some o →
  g_free (Heap l) s
  = Ok tt (mkState (delete l (heap s)) (registry s) (trace s ++ [EvFree l])).
Proof. intros H. unfold g_free, mbind, M_bind, get_state. now rewrite H. Qed.

Lemma g_byte_array_unref_shared (l : loc) (b : GByteArray) (s : state) :
  heap s !! l = Some (OByteArray b) →
  (2 ≤ ba_ref b)%nat →
  g_byte_array_unref (Heap l) s
  = Ok tt (mkState
      (<[l := OByteArray (mkByteArray (ba_data b) (ba_ref b - 1))]> (heap s))
      (registry s) (trace s)).
Proof.
  intros H Href. unfold g_byte_array_unref.
  rewrite (bind_Ok _ _ _ _ _ (load_bytes_Heap _ _ _ H)).
  rewrite decide_False by lia. apply store_Heap. eauto.
Qed.

Lemma g_ptr_array_index_Some (array : list ptr) (index : nat) (p : ptr) (s : state) :
  array !! index = Some p → g_ptr_array_index array index s = Ok p s.
Proof. intros H. unfold g_ptr_array_index. now rewrite H. Qed.

Lemma second_fresh (h : gmap positive obj) :
  let r := fresh (dom h) in
  let e := fresh ({[r]} ∪ dom h) in
  e ≠ r ∧ h !! e = None ∧ ∀ l, is_Some (h !! l) → e ≠ l.
Proof.
  intros r e. pose proof (is_fresh ({[r]} ∪ dom h)) as Hfresh. fold e in Hfresh.
  rewrite elem_of_union, elem_of_singleton, elem_of_dom in Hfresh.
  split; [tauto|]. split.
  - destruct (h !! e) eqn:E; [|reflexivity]. exfalso. eauto.
  - intros l Hl ->. tauto.
Qed.

(** ** Byte order *)

Lemma octet_range (b : byte) : 0 ≤ octet b < 256.
Proof. unfold octet. pose proof (Byte.to_N_bounded b). lia. Qed.

Lemma octet_bits (b : byte) (i : Z) : 8 ≤ i → Z.testbit (octet b) i = false.
Proof.
  intros Hi. pose proof (octet_range b) as Hb.
  destruct (Z.eq_dec (octet b) 0) as [->|Hne]; [apply Z.bits_0|].
  apply Z.bits_above_log2; [lia|].
  apply Z.lt_le_trans with 8; [|exact Hi].
  apply Z.log2_lt_pow2; lia.
Qed.

(** One rewriting step on the bits of an expression built from octets. *)
Ltac testbit_step :=
  match goal with
  | |- context [Z.testbit (Z.lor ?a ?b) ?j] => rewrite (Z.lor_spec a b j)
  | |- context [Z.testbit (Z.land ?a ?b) ?j] => rewrite (Z.land_spec a b j)
  | |- context [Z.testbit ?a ?j] => rewrite (Z.testbit_neg_r a j) by lia
  | |- context [Z.testbit (Z.shiftl ?a ?n) ?j] => rewrite (Z.shiftl_spec a n j) by lia
  | |- context [Z.testbit (Z.shiftr ?a ?n) ?j] => rewrite (Z.shiftr_spec a n j) by lia
  | |- context [Z.testbit (Z.ones ?n) ?j] => rewrite (Z.testbit_ones_nonneg n j) by lia
  | |- context [Z.testbit (octet ?b) ?j] => rewrite (octet_bits b j) by lia
  | |- context [?a <? ?b] => rewrite (proj2 (Z.ltb_lt a b)) by lia
  | |- context [?a <? ?b] => rewrite (proj2 (Z.ltb_ge a b)) by lia
  end.

(** Equality of two such expressions of at most 32 bits, bit by bit. *)
Ltac octets_eq :=
  apply Z.bits_inj'; intros i Hi;
  destruct (Z.lt_ge_cases i 8);
  [| destruct (Z.lt_ge_cases i 16);
     [| destruct (Z.lt_ge_cases i 24); [| destruct (Z.lt_ge_cases i 32)]]];
  repeat testbit_step;
  repeat first [rewrite orb_false_r | rewrite orb_false_l
               | rewrite andb_true_r | rewrite andb_false_r];
  try reflexivity; repeat (f_equal; try lia).

Lemma swap16_load (b0 b1 : byte) :
  GUINT16_SWAP_LE_BE (host_load16 G_LITTLE_ENDIAN b0 b1)
  = host_load16 G_BIG_ENDIAN b0 b1.
Proof.
  unfold GUINT16_SWAP_LE_BE, host_load16.
  change 0xFFFF with (Z.ones 16).
  octets_eq.
Qed.

Lemma swap32_load (b0 b1 b2 b3 : byte) :
  GUINT32_SWAP_LE_BE (host_load32 G_LITTLE_ENDIAN b0 b1 b2 b3)
  = host_load32 G_BIG_ENDIAN b0 b1 b2 b3.
Proof.
  unfold GUINT32_SWAP_LE_BE, host_load32.
  change 0x000000ff with (Z.ones 8).
  change 0x0000ff00 with (Z.shiftl (Z.ones 8) 8).
  change 0x00ff0000 with (Z.shiftl (Z.ones 8) 16).
  change 0xff000000 with (Z.shiftl (Z.ones 8) 24).
  octets_eq.
Qed.

Lemma lor_shiftl_octet (hi : Z) (b : byte) :
  Z.lor (Z.shiftl hi 8) (octet b) = hi * 256 + octet b.
Proof.
  pose proof (octet_range b) as Hb.
  rewrite Z.shiftl_mul_pow2 by lia. change (2 ^ 8) with 256.
  symmetry. apply Z.add_nocarry_lor.
  apply Z.bits_inj'; intros i Hi. rewrite Z.land_spec, Z.bits_0.
  destruct (Z.lt_ge_cases i 8).
  - change 256 with (2 ^ 8). now rewrite Z.mul_pow2_bits_low by lia.
  - rewrite octet_bits by lia. apply andb_false_r.
Qed.

Lemma big_endian16 (b0 b1 : byte) :
  host_load16 G_BIG_ENDIAN b0 b1 = big_endian 0 [b0; b1].
Proof. unfold host_load16. cbn [big_endian]. rewrite lor_shiftl_octet. lia. Qed.

Lemma big_endian32 (b0 b1 b2 b3 : byte) :
  host_load32 G_BIG_ENDIAN b0 b1 b2 b3 = big_endian 0 [b0; b1; b2; b3].
Proof.
  unfold host_load32. cbn [big_endian].
  transitivity
    (Z.lor (Z.shiftl (Z.lor (Z.shiftl (Z.lor (Z.shiftl (octet b0) 8) (octet b1)) 8)
                            (octet b2)) 8) (octet b3)).
  - octets_eq.
  - rewrite !lor_shiftl_octet. lia.
Qed.

(** Whatever the host's byte order, [g_ntohs] and [g_ntohl] of a field read
    from memory give the big-endian value of its bytes. *)
Lemma g_ntohs_load (bo : byte_order) (b0 b1 : byte) :
  g_ntohs bo (host_load16 bo b0 b1) = big_endian 0 [b0; b1].
Proof.
  destruct bo; unfold g_ntohs.
  - rewrite swap16_load. apply big_endian16.
  - apply big_endian16.
Qed.

Lemma g_ntohl_load (bo : byte_order) (b0 b1 b2 b3 : byte) :
  g_ntohl bo (host_load32 bo b0 b1 b2 b3) = big_endian 0 [b0; b1; b2; b3].
Proof.
  destruct bo; unfold g_ntohl.
  - rewrite swap32_load. apply big_endian32.
  - apply big_endian32.
Qed.

(** ** The table of encodings *)

Lemma standard_codec_total (code : Z) :
  standard_codec_from encodings 0 code = Some NULL
  ∨ ∃ i e, standard_codec_from encodings 0 code = Some (Global i)
           ∧ encodings !! i = Some e ∧ enc_id e = code.
Proof.
  unfold encodings, known. cbn [standard_codec_from enc_format enc_id].
  repeat (case_decide;
          [right; eexists _, _; split; [reflexivity|]; split; [reflexivity|];
           cbn [enc_id]; assumption|]).
  left. reflexivity.
Qed.

Lemma standard_codec_absent (code : Z) :
  ¬ in_registry code → standard_codec_from encodings 0 code = Some NULL.
Proof.
  intros Hno. destruct (standard_codec_total code) as [H|(i & e & H & Hi & He)].
  - exact H.
  - exfalso. apply Hno. exists e. split; [|split].
    + apply list_elem_of_lookup. eauto.
    + revert H Hi. clear. unfold encodings, known.
      cbn [standard_codec_from enc_format enc_id].
      repeat (case_decide; [intros [= <-] [= <-]; cbn; eauto|]).
      discriminate.
    + exact He.
Qed.

Lemma standard_codec_present (code : Z) :
  in_registry code →
  ∃ i e, standard_codec_from encodings 0 code = Some (Global i)
         ∧ encodings !! i = Some e ∧ enc_id e = code.
Proof.
  intros (e & Hin & Hfmt & Hid).
  destruct (standard_codec_total code) as [H|H]; [|exact H].
  exfalso. revert H. apply list_elem_of_In in Hin.
  unfold encodings, known in *. cbn [standard_codec_from enc_format enc_id].
  cbn in Hin.
  repeat (destruct Hin as [<-|Hin];
          [cbn in Hid; repeat (case_decide; [discriminate|]); congruence|]).
  destruct Hin as [<-|[]]. destruct Hfmt as [? [=]].
Qed.

Lemma dynamic_codes_absent (code : Z) : 35 ≤ code → ¬ in_registry code.
Proof.
  intros Hcode (e & Hin & Hfmt & Hid). apply list_elem_of_In in Hin.
  unfold encodings, known in Hin. cbn in Hin.
  repeat (destruct Hin as [<-|Hin]; [cbv in Hid; lia|]).
  destruct Hin.
Qed.

(** ** Runs of the dissector *)

Section DissectorFacts.

Variable PACKET_RTP : nat.
Variable G_BYTE_ORDER : byte_order.

Lemma parse_tail_Ok (s : state) (p d r : loc) (k : Packet) (b : GByteArray) (enc : ptr) :
  heap s !! d = Some (OByteArray b) →
  heap s !! p = Some (OPacket k) →
  heap s !! r = Some (ORtpData (with_encoding enc zero_PacketRtpData)) →
  proto k !! PACKET_RTP = Some NULL →
  (12 ≤ length (ba_data b))%nat →
  parse_tail PACKET_RTP G_BYTE_ORDER (PacketRtpHdr_cast G_BYTE_ORDER (ba_data b)) (Heap p) (Heap d) (Heap r) s
  = Ok (Heap d) (mkState
      (<[p := OPacket (mkPacket (<[PACKET_RTP := Heap r]> (proto k)))]>
       (<[d := OByteArray (mkByteArray (drop 12 (ba_data b)) (S (ba_ref b)))]>
        (<[r := ORtpData (parsed_rtp G_BYTE_ORDER (ba_data b) enc (Heap d))]> (heap s))))
      (registry s)
      (trace s ++ [EvStorageAddPacket (Heap p)])).
Proof.
  intros Hd Hp Hr Hk Hlen.
  assert (r ≠ d) as Hrd by congruence.
  assert (r ≠ p) as Hrp by congruence.
  assert (d ≠ p) as Hdp by congruence.
  unfold parse_tail.
  erewrite bind_Ok by (apply assign_rtp_Heap; exact Hr).
  erewrite bind_Ok by (apply assign_rtp_Heap; cbn [heap]; apply lookup_insert_eq).
  erewrite bind_Ok by (apply assign_rtp_Heap; cbn [heap]; apply lookup_insert_eq).
  erewrite bind_Ok.
  2:{ apply g_byte_array_remove_range_Heap with (b := b); cbn [heap].
      - rewrite !lookup_insert_ne by assumption. exact Hd.
      - exact Hlen. }
  erewrite bind_Ok by (apply g_byte_array_ref_Heap; cbn [heap]; apply lookup_insert_eq).
  erewrite bind_Ok.
  2:{ apply assign_rtp_Heap; cbn [heap].
      rewrite !lookup_insert_ne by congruence. apply lookup_insert_eq. }
  erewrite bind_Ok.
  2:{ apply packet_add_type_Heap with (k := k); cbn [heap]; [|exact Hk].
      rewrite !lookup_insert_ne by congruence. exact Hp. }
  unfold storage_add_packet, emit, mbind, M_bind, mret, M_ret.
  cbn [heap registry trace]. f_equal. f_equal. heap_eq.
Qed.

Lemma packet_rtp_standard_codec_Ok (s : state) (code : Z) (c : ptr) :
  standard_codec_from (registry s) 0 code = Some c →
  packet_rtp_standard_codec code s = Ok c s.
Proof.
  intros H. unfold packet_rtp_standard_codec, mbind, M_bind, get_state.
  now rewrite H.
Qed.

Lemma parse_enter (st : state) (p d : loc) (b : GByteArray) :
  heap st !! d = Some (OByteArray b) →
  accepted G_BYTE_ORDER (ba_data b) →
  packet_rtp_parse PACKET_RTP G_BYTE_ORDER (Heap p) (Heap d) st
  = (let hdr := PacketRtpHdr_cast G_BYTE_ORDER (ba_data b) in
     rtp ← g_malloc0 (ORtpData zero_PacketRtpData);
     enc ← packet_rtp_standard_codec (hdr_pt hdr);
     assign_rtp rtp (with_encoding enc);;
     r ← load_rtp rtp;
     (if decide (rtp_encoding r = NULL) then
        e ← g_malloc0 (OEncoding zero_PacketRtpEncoding);
        assign_rtp rtp (with_encoding e);;
        r' ← load_rtp rtp;
        assign_encoding (rtp_encoding r') (with_id (hdr_pt hdr))
      else mret tt);;
     parse_tail PACKET_RTP G_BYTE_ORDER hdr (Heap p) (Heap d) rtp) st.
Proof.
  intros Hd (Hlen & Hv & Hpt). unfold packet_rtp_parse.
  rewrite (bind_Ok _ _ _ _ _ (load_bytes_Heap _ _ _ Hd)).
  rewrite decide_False by lia.
  rewrite decide_False by (intros X; apply X; exact Hv).
  replace (negb _) with false; [reflexivity|].
  symmetry. apply negb_false_iff, orb_true_iff. rewrite Z.leb_le, Z.geb_le. exact Hpt.
Qed.

Lemma parse_static (st : state) (p d : loc) (k : Packet) (b : GByteArray) (i : nat) :
  heap st !! d = Some (OByteArray b) →
  heap st !! p = Some (OPacket k) →
  proto k !! PACKET_RTP = Some NULL →
  accepted G_BYTE_ORDER (ba_data b) →
  standard_codec_from (registry st) 0
    (hdr_pt (PacketRtpHdr_cast G_BYTE_ORDER (ba_data b))) = Some (Global i) →
  packet_rtp_parse PACKET_RTP G_BYTE_ORDER (Heap p) (Heap d) st
  = Ok (Heap d) (parsed_static PACKET_RTP G_BYTE_ORDER st p d k b i).
Proof.
  intros Hd Hp Hk Hacc Hc. rewrite (parse_enter _ _ _ _ Hd Hacc).
  destruct Hacc as (Hlen & _ & _). unfold sizeof_PacketRtpHdr in Hlen. cbv zeta.
  pose proof (fresh_loc_ne (heap st) d ltac:(eauto)) as Hrd.
  pose proof (fresh_loc_ne (heap st) p ltac:(eauto)) as Hrp.
  rewrite (bind_Ok _ _ _ _ _ (g_malloc0_Ok _ _)).
  erewrite bind_Ok by (apply packet_rtp_standard_codec_Ok; exact Hc).
  erewrite bind_Ok by (apply assign_rtp_Heap; cbn [heap]; apply lookup_insert_eq).
  erewrite bind_Ok by (apply load_rtp_Heap; cbn [heap]; apply lookup_insert_eq).
  cbn [rtp_encoding with_encoding]. rewrite decide_False by discriminate.
  erewrite bind_Ok by reflexivity.
  erewrite parse_tail_Ok with (k := k) (b := b) (enc := Global i); cbn [heap]; trivial.
  - unfold parsed_static. cbn [heap registry trace]. f_equal. f_equal.
    + heap_eq.
    + now rewrite <- app_assoc.
  - rewrite !lookup_insert_ne by congruence. exact Hd.
  - rewrite !lookup_insert_ne by congruence. exact Hp.
  - apply lookup_insert_eq.
Qed.

Lemma parse_dynamic (st : state) (p d : loc) (k : Packet) (b : GByteArray) :
  heap st !! d = Some (OByteArray b) →
  heap st !! p = Some (OPacket k) →
  proto k !! PACKET_RTP = Some NULL →
  accepted G_BYTE_ORDER (ba_data b) →
  standard_codec_from (registry st) 0
    (hdr_pt (PacketRtpHdr_cast G_BYTE_ORDER (ba_data b))) = Some NULL →
  packet_rtp_parse PACKET_RTP G_BYTE_ORDER (Heap p) (Heap d) st
  = Ok (Heap d) (parsed_dynamic PACKET_RTP G_BYTE_ORDER st p d k b).
Proof.
  intros Hd Hp Hk Hacc Hc. rewrite (parse_enter _ _ _ _ Hd Hacc).
  destruct Hacc as (Hlen & _ & _). unfold sizeof_PacketRtpHdr in Hlen. cbv zeta.
  pose proof (fresh_loc_ne (heap st) d ltac:(eauto)) as Hrd.
  pose proof (fresh_loc_ne (heap st) p ltac:(eauto)) as Hrp.
  rewrite (bind_Ok _ _ _ _ _ (g_malloc0_Ok _ _)).
  erewrite bind_Ok by (apply packet_rtp_standard_codec_Ok; exact Hc).
  erewrite bind_Ok by (apply assign_rtp_Heap; cbn [heap]; apply lookup_insert_eq).
  erewrite bind_Ok by (apply load_rtp_Heap; cbn [heap]; apply lookup_insert_eq).
  cbn [rtp_encoding with_encoding]. rewrite decide_True by reflexivity.
  unfold parsed_dynamic.
  set (r := fresh (dom (heap st))) in *.
  rewrite (bind_Ok (g_malloc0 _ ≫= _) _ _
    (mkState
       (<[fresh ({[r]} ∪ dom (heap st)) :=
            OEncoding (with_id (hdr_pt (PacketRtpHdr_cast G_BYTE_ORDER (ba_data b)))
                               zero_PacketRtpEncoding)]>
        (<[r := ORtpData (with_encoding (Heap (fresh ({[r]} ∪ dom (heap st))))
                                         zero_PacketRtpData)]>
         (<[fresh ({[r]} ∪ dom (heap st)) := OEncoding zero_PacketRtpEncoding]>
          (<[r := ORtpData zero_PacketRtpData]> (heap st)))))
       (registry st)
       (trace st ++ [EvMalloc r; EvMalloc (fresh ({[r]} ∪ dom (heap st)))])) tt).
  2:{ rewrite (bind_Ok _ _ _ _ _ (g_malloc0_Ok _ _)). cbn [heap registry trace].
      replace (dom (<[r:=ORtpData (mkRtpData NULL 0 0 0 NULL)]>
                      (<[r:=ORtpData zero_PacketRtpData]> (heap st))))
        with ({[r]} ∪ dom (heap st))
        by (now rewrite !dom_insert_L, (assoc_L (∪) {[r]}), (idemp_L (∪) {[r]})).
      destruct (second_fresh (heap st)) as (Her & _ & _). fold r in Her.
      set (e := fresh ({[r]} ∪ dom (heap st))) in *.
      erewrite bind_Ok.
      2:{ apply assign_rtp_Heap; cbn [heap].
          rewrite lookup_insert_ne by congruence. apply lookup_insert_eq. }
      erewrite bind_Ok by (apply load_rtp_Heap; cbn [heap]; apply lookup_insert_eq).
      cbn [rtp_encoding with_encoding].
      erewrite assign_encoding_Heap.
      2:{ cbn [heap]. rewrite lookup_insert_ne by congruence. apply lookup_insert_eq. }
      cbn [heap registry trace]. f_equal. f_equal.
      - heap_eq.
      - now rewrite <- app_assoc. }
  destruct (second_fresh (heap st)) as (Her & _ & Hne). fold r in Her, Hne.
  pose proof (Hne d ltac:(eauto)) as Hed.
  pose proof (Hne p ltac:(eauto)) as Hep.
  clear Hne. set (e := fresh ({[r]} ∪ dom (heap st))) in *.
  erewrite parse_tail_Ok with (k := k) (b := b) (enc := Heap e); cbn [heap]; trivial.
  - cbn [heap registry trace]. f_equal. f_equal.
    + heap_eq.
    + now rewrite <- app_assoc.
  - rewrite !lookup_insert_ne by congruence. exact Hd.
  - rewrite !lookup_insert_ne by congruence. exact Hp.
  - rewrite lookup_insert_ne by congruence. apply lookup_insert_eq.
Qed.

Lemma parse_decline (st : state) (packet : ptr) (d : loc) (b : GByteArray) :
  heap st !! d = Some (OByteArray b) →
  ¬ accepted G_BYTE_ORDER (ba_data b) →
  packet_rtp_parse PACKET_RTP G_BYTE_ORDER packet (Heap d) st = Ok (Heap d) st.
Proof.
  intros Hd Hno. unfold packet_rtp_parse.
  rewrite (bind_Ok _ _ _ _ _ (load_bytes_Heap _ _ _ Hd)).
  destruct (decide _) as [|Hlen]; [reflexivity|].
  destruct (decide _) as [|Hv]; [reflexivity|].
  destruct (negb _) eqn:Hpt; [reflexivity|].
  exfalso. apply Hno. split; [lia|]. split.
  - destruct (decide (hdr_version (PacketRtpHdr_cast G_BYTE_ORDER (ba_data b))
                      = RTP_VERSION_RFC1889)); [assumption|contradiction].
  - apply negb_false_iff, orb_true_iff in Hpt.
    rewrite Z.leb_le, Z.geb_le in Hpt. exact Hpt.
Qed.

(** The state after releasing what an accepting [packet_rtp_parse] attached:
    the blocks it allocated are gone, the buffer is back to its owners, and
    the packet keeps the (now dangling) pointer. *)
Lemma free_after_static (st : state) (p d : loc) (k : Packet) (b : GByteArray)
    (i j : nat) (e : PacketRtpEncoding) :
  heap st !! d = Some (OByteArray b) →
  heap st !! p = Some (OPacket k) →
  proto k !! PACKET_RTP = Some NULL →
  (1 ≤ ba_ref b)%nat →
  registry st !! i = Some e →
  standard_codec_from (registry st) 0 (enc_id e) = Some (Global j) →
  let r := fresh (dom (heap st)) in
  let st'' := mkState
    (<[p := OPacket (mkPacket (<[PACKET_RTP := Heap r]> (proto k)))]>
     (<[d := OByteArray (mkByteArray (drop 12 (ba_data b)) (ba_ref b))]> (heap st)))
    (registry st)
    (trace st ++ [EvMalloc r; EvStorageAddPacket (Heap p); EvFree r]) in
  packet_rtp_free PACKET_RTP (Heap p) (parsed_static PACKET_RTP G_BYTE_ORDER st p d k b i)
  = Ok tt st''
  ∧ packet_rtp_free_by_tag PACKET_RTP (Heap p)
      (parsed_static PACKET_RTP G_BYTE_ORDER st p d k b i)
  = Ok tt st''.
Proof.
  intros Hd Hp Hk Href He Hc r st''.
  pose proof (fresh_loc_ne (heap st) d ltac:(eauto)) as Hrd.
  pose proof (fresh_loc_ne (heap st) p ltac:(eauto)) as Hrp.
  pose proof (fresh_loc_None (heap st)) as Hr.
  assert (d ≠ p) as Hdp by congruence.
  fold r in Hrd, Hrp, Hr.
  unfold packet_rtp_free, packet_rtp_free_by_tag, parsed_static. fold r.
  rewrite !decide_False by discriminate.
  split.
  all: erewrite bind_Ok by (apply load_packet_Heap; cbn [heap]; apply lookup_insert_eq).
  all: erewrite bind_Ok by
         (apply g_ptr_array_index_Some; cbn [proto];
          apply list_lookup_insert_eq, (lookup_lt_Some _ _ _ Hk)).
  all: rewrite decide_False by discriminate.
  all: erewrite bind_Ok by
         (apply load_rtp_Heap; cbn [heap];
          rewrite !lookup_insert_ne by congruence; apply lookup_insert_eq).
  all: cbn [rtp_encoding rtp_payload parsed_rtp].
  all: erewrite bind_Ok by (apply load_encoding_Global; exact He).
  1: erewrite bind_Ok by (apply packet_rtp_standard_codec_Ok; exact Hc).
  1: rewrite decide_False by discriminate.
  all: erewrite bind_Ok by reflexivity.
  all: erewrite bind_Ok by
         (apply load_rtp_Heap; cbn [heap];
          rewrite !lookup_insert_ne by congruence; apply lookup_insert_eq).
  all: cbn [rtp_encoding rtp_payload parsed_rtp].
  all: erewrite bind_Ok by
         (apply g_byte_array_unref_shared; cbn [heap];
          [ rewrite lookup_insert_ne by congruence; apply lookup_insert_eq
          | cbn [ba_ref]; lia ]).
  all: erewrite g_free_Heap by
         (cbn [heap]; rewrite !lookup_insert_ne by congruence; apply lookup_insert_eq).
  all: subst st''; cbn [heap registry trace ba_data ba_ref].
  all: rewrite Nat.sub_succ, Nat.sub_0_r.
  all: f_equal; f_equal; [heap_eq | now rewrite <- app_assoc].
Qed.

Lemma free_after_dynamic (st : state) (p d : loc) (k : Packet) (b : GByteArray) :
  heap st !! d = Some (OByteArray b) →
  heap st !! p = Some (OPacket k) →
  proto k !! PACKET_RTP = Some NULL →
  (1 ≤ ba_ref b)%nat →
  standard_codec_from (registry st) 0
    (hdr_pt (PacketRtpHdr_cast G_BYTE_ORDER (ba_data b))) = Some NULL →
  let r := fresh (dom (heap st)) in
  let e := fresh ({[r]} ∪ dom (heap st)) in
  let st'' := mkState
    (<[p := OPacket (mkPacket (<[PACKET_RTP := Heap r]> (proto k)))]>
     (<[d := OByteArray (mkByteArray (drop 12 (ba_data b)) (ba_ref b))]> (heap st)))
    (registry st)
    (trace st ++ [EvMalloc r; EvMalloc e; EvStorageAddPacket (Heap p);
                  EvFree e; EvFree r]) in
  packet_rtp_free PACKET_RTP (Heap p) (parsed_dynamic PACKET_RTP G_BYTE_ORDER st p d k b)
  = Ok tt st''
  ∧ packet_rtp_free_by_tag PACKET_RTP (Heap p)
      (parsed_dynamic PACKET_RTP G_BYTE_ORDER st p d k b)
  = Ok tt st''.
Proof.
  intros Hd Hp Hk Href Hc r e st''.
  pose proof (fresh_loc_ne (heap st) d ltac:(eauto)) as Hrd.
  pose proof (fresh_loc_ne (heap st) p ltac:(eauto)) as Hrp.
  pose proof (fresh_loc_None (heap st)) as Hr.
  destruct (second_fresh (heap st)) as (Her & He & Hne).
  pose proof (Hne d ltac:(eauto)) as Hed.
  pose proof (Hne p ltac:(eauto)) as Hep.
  assert (d ≠ p) as Hdp by congruence.
  fold r in Hrd, Hrp, Hr, Her, He, Hed, Hep. fold e in Her, He, Hed, Hep.
  clear Hne.
  unfold packet_rtp_free, packet_rtp_free_by_tag, parsed_dynamic. fold r e.
  rewrite !decide_False by discriminate.
  split.
  all: erewrite bind_Ok by (apply load_packet_Heap; cbn [heap]; apply lookup_insert_eq).
  all: erewrite bind_Ok by
         (apply g_ptr_array_index_Some; cbn [proto];
          apply list_lookup_insert_eq, (lookup_lt_Some _ _ _ Hk)).
  all: rewrite decide_False by discriminate.
  all: erewrite bind_Ok by
         (apply load_rtp_Heap; cbn [heap];
          rewrite !lookup_insert_ne by congruence; apply lookup_insert_eq).
  all: cbn [rtp_encoding rtp_payload parsed_rtp].
  all: erewrite bind_Ok by
         (apply load_encoding_Heap; cbn [heap];
          rewrite !lookup_insert_ne by congruence; apply lookup_insert_eq).
  1: cbn [enc_id].
  1: erewrite bind_Ok by (apply packet_rtp_standard_codec_Ok; exact Hc).
  1: rewrite decide_True by reflexivity.
  all: erewrite bind_Ok by
         (eapply g_free_Heap; cbn [heap];
          rewrite !lookup_insert_ne by congruence; apply lookup_insert_eq).
  all: erewrite bind_Ok by
         (apply load_rtp_Heap; cbn [heap];
          rewrite lookup_delete_ne by congruence;
          rewrite !lookup_insert_ne by congruence; apply lookup_insert_eq).
  all: cbn [rtp_encoding rtp_payload parsed_rtp].
  all: erewrite bind_Ok by
         (apply g_byte_array_unref_shared; cbn [heap];
          [ rewrite lookup_delete_ne by congruence;
            rewrite lookup_insert_ne by congruence; apply lookup_insert_eq
          | cbn [ba_ref]; lia ]).
  all: erewrite g_free_Heap by
         (cbn [heap]; rewrite lookup_insert_ne by congruence;
          rewrite lookup_delete_ne by congruence;
          rewrite !lookup_insert_ne by congruence; apply lookup_insert_eq).
  all: subst st''; cbn [heap registry trace ba_data ba_ref].
  all: rewrite Nat.sub_succ, Nat.sub_0_r.
  all: f_equal; f_equal; [heap_eq | now rewrite <- !app_assoc].
Qed.

(** The accessor on a packet whose slot holds a pointer. *)
Lemma packet_rtp_data_slot (s : state) (p : loc) (k : Packet) (r : ptr) :
  heap s !! p = Some (OPacket k) →
  proto k !! PACKET_RTP = Some r →
  packet_rtp_data PACKET_RTP (Heap p) s
  = if decide (r = NULL)
    then Ok NULL (mkState (heap s) (registry s) (trace s ++ [EvCritical]))
    else Ok r s.
Proof.
  intros Hp Hk. unfold packet_rtp_data.
  rewrite decide_False by discriminate.
  rewrite (bind_Ok _ _ _ _ _ (load_packet_Heap _ _ _ Hp)).
  rewrite (bind_Ok _ _ _ _ _ (g_ptr_array_index_Some _ _ _ _ Hk)).
  destruct (decide (r = NULL)); reflexivity.
Qed.

Lemma payload_type_low7 (o : Z) : RTP_PAYLOAD_TYPE o = Z.land o 0x7F.
Proof. unfold RTP_PAYLOAD_TYPE. now rewrite <- Z.land_assoc. Qed.

Lemma payload_type_range (b : byte) : 0 ≤ RTP_PAYLOAD_TYPE (octet b) ≤ 127.
Proof.
  rewrite payload_type_low7.
  change (Z.land (octet b) 0x7F) with (Z.land (octet b) (Z.ones 7)).
  rewrite Z.land_ones by lia. change (2 ^ 7) with 128.
  pose proof (Z.mod_pos_bound (octet b) 128). lia.
Qed.

(** The guards fail in exactly three ways. *)
Lemma not_accepted (bs : list byte) :
  ¬ accepted G_BYTE_ORDER bs ↔
  (length bs < 12)%nat
  ∨ Z.shiftr (octet (nth 0 bs x00)) 6 ≠ 2
  ∨ 65 ≤ Z.land (octet (nth 1 bs x00)) 0x7F ≤ 95.
Proof.
  unfold accepted, sizeof_PacketRtpHdr, RTP_VERSION_RFC1889.
  cbn [PacketRtpHdr_cast hdr_version hdr_pt]. rewrite payload_type_low7.
  unfold RTP_VERSION. split.
  - intros Hno.
    destruct (decide (length bs < 12)%nat); [tauto|].
    destruct (decide (Z.shiftr (octet (nth 0 bs x00)) 6 = 2)); [|tauto].
    right. right. lia.
  - intros [H|[H|H]] (Hlen & Hv & Hpt); lia.
Qed.

(** What an accepting run leaves behind, whichever way the payload type is
    resolved. *)
Lemma parse_accept (st : state) (p d : loc) (k : Packet) (b : GByteArray) :
  heap st !! d = Some (OByteArray b) →
  heap st !! p = Some (OPacket k) →
  proto k !! PACKET_RTP = Some NULL →
  registry st = encodings →
  accepted G_BYTE_ORDER (ba_data b) →
  let pt := hdr_pt (PacketRtpHdr_cast G_BYTE_ORDER (ba_data b)) in
  let r := fresh (dom (heap st)) in
  ∃ st' enc,
    packet_rtp_parse PACKET_RTP G_BYTE_ORDER (Heap p) (Heap d) st = Ok (Heap d) st'
    ∧ heap st' !! r = Some (ORtpData (parsed_rtp G_BYTE_ORDER (ba_data b) enc (Heap d)))
    ∧ heap st' !! p = Some (OPacket (mkPacket (<[PACKET_RTP := Heap r]> (proto k))))
    ∧ heap st' !! d
      = Some (OByteArray (mkByteArray (drop 12 (ba_data b)) (S (ba_ref b))))
    ∧ registry st' = registry st
    ∧ ((∃ i e, enc = Global i
               ∧ standard_codec_from encodings 0 pt = Some (Global i)
               ∧ encodings !! i = Some e ∧ enc_id e = pt
               ∧ trace st' = trace st ++ [EvMalloc r; EvStorageAddPacket (Heap p)])
       ∨ (∃ e, enc = Heap e
               ∧ standard_codec_from encodings 0 pt = Some NULL
               ∧ heap st !! e = None
               ∧ heap st' !! e = Some (OEncoding (mkEncoding pt None None 0))
               ∧ trace st' = trace st ++ [EvMalloc r; EvMalloc e;
                                          EvStorageAddPacket (Heap p)])).
Proof.
  intros Hd Hp Hk Hreg Hacc pt r.
  pose proof (fresh_loc_ne (heap st) d ltac:(eauto)) as Hrd.
  pose proof (fresh_loc_ne (heap st) p ltac:(eauto)) as Hrp.
  assert (d ≠ p) as Hdp by congruence.
  destruct (second_fresh (heap st)) as (Her & He & Hne).
  pose proof (Hne d ltac:(eauto)) as Hed.
  pose proof (Hne p ltac:(eauto)) as Hep. clear Hne.
  fold r in Hrd, Hrp, Her, He, Hed, Hep.
  destruct (standard_codec_total pt) as [Hc|(i & e & Hc & Hi & He')].
  - exists (parsed_dynamic PACKET_RTP G_BYTE_ORDER st p d k b),
           (Heap (fresh ({[r]} ∪ dom (heap st)))).
    split; [apply parse_dynamic; try assumption; now rewrite Hreg|].
    unfold parsed_dynamic. fold r pt. cbn [heap registry trace].
    repeat split.
    + rewrite !lookup_insert_ne by congruence. apply lookup_insert_eq.
    + apply lookup_insert_eq.
    + rewrite lookup_insert_ne by congruence. apply lookup_insert_eq.
    + right. eexists. repeat split; try eassumption.
      rewrite !lookup_insert_ne by congruence. apply lookup_insert_eq.
  - exists (parsed_static PACKET_RTP G_BYTE_ORDER st p d k b i), (Global i).
    split; [apply parse_static; try assumption; now rewrite Hreg|].
    unfold parsed_static. fold r. cbn [heap registry trace].
    repeat split.
    + rewrite !lookup_insert_ne by congruence. apply lookup_insert_eq.
    + apply lookup_insert_eq.
    + rewrite lookup_insert_ne by congruence. apply lookup_insert_eq.
    + left. eexists _, _. repeat split; eassumption.
Qed.

(** ** The dissector declines *)

(** C2: for every input buffer shorter than 12 bytes, [packet_rtp_parse]
    returns the buffer it was given and leaves the whole state as it was:
    the bytes are unchanged, no RTP data is attached to the packet, nothing
    is allocated, logged or delivered. *)
Theorem C2_short_buffer_declined
    (st : state) (packet : ptr) (d : loc) (b : GByteArray) :
  heap st !! d = Some (OByteArray b) →
  (length (ba_data b) < 12)%nat →
  packet_rtp_parse PACKET_RTP G_BYTE_ORDER packet (Heap d) st = Ok (Heap d) st.
Proof.
  intros Hd Hlen. apply parse_decline with (b := b); [exact Hd|].
  apply not_accepted. left. exact Hlen.
Qed.

(** C3: for every input buffer of at least 12 bytes whose first octet's top
    2 bits are not 2, [packet_rtp_parse] returns the buffer it was given and
    leaves the whole state as it was. *)
Theorem C3_wrong_version_declined
    (st : state) (packet : ptr) (d : loc) (b : GByteArray) :
  heap st !! d = Some (OByteArray b) →
  (12 ≤ length (ba_data b))%nat →
  Z.shiftr (octet (nth 0 (ba_data b) x00)) 6 ≠ 2 →
  packet_rtp_parse PACKET_RTP G_BYTE_ORDER packet (Heap d) st = Ok (Heap d) st.
Proof.
  intros Hd _ Hv. apply parse_decline with (b := b); [exact Hd|].
  apply not_accepted. right. left. exact Hv.
Qed.

(** C4: for every input buffer of at least 12 bytes with version 2,
    [packet_rtp_parse] proceeds (attaches RTP data to the packet and consumes
    the header) if and only if the low 7 bits of the second octet are at most
    64 or at least 96; for every code in 65-95 it returns the buffer it was
    given and leaves the whole state as it was. *)
Theorem C4_payload_type_band
    (st : state) (p d : loc) (k : Packet) (b : GByteArray) :
  heap st !! d = Some (OByteArray b) →
  heap st !! p = Some (OPacket k) →
  proto k !! PACKET_RTP = Some NULL →
  registry st = encodings →
  (12 ≤ length (ba_data b))%nat →
  Z.shiftr (octet (nth 0 (ba_data b) x00)) 6 = 2 →
  let code := Z.land (octet (nth 1 (ba_data b) x00)) 0x7F in
  ((code ≤ 64 ∨ 96 ≤ code) ↔
   ∃ st' r rtp,
     packet_rtp_parse PACKET_RTP G_BYTE_ORDER (Heap p) (Heap d) st = Ok (Heap d) st'
     ∧ packet_rtp_data PACKET_RTP (Heap p) st' = Ok (Heap r) st'
     ∧ heap st' !! r = Some (ORtpData rtp)
     ∧ heap st' !! d
       = Some (OByteArray (mkByteArray (drop 12 (ba_data b)) (S (ba_ref b)))))
  ∧ (65 ≤ code ≤ 95 →
     packet_rtp_parse PACKET_RTP G_BYTE_ORDER (Heap p) (Heap d) st = Ok (Heap d) st).
Proof.
  intros Hd Hp Hk Hreg Hlen Hv code.
  assert (65 ≤ code ≤ 95 →
          packet_rtp_parse PACKET_RTP G_BYTE_ORDER (Heap p) (Heap d) st
          = Ok (Heap d) st) as Hband.
  { intros Hcode. apply parse_decline with (b := b); [exact Hd|].
    apply not_accepted. right. right. exact Hcode. }
  split; [split|exact Hband].
  - intros Hcode.
    destruct (parse_accept st p d k b Hd Hp Hk Hreg) as
      (st' & enc & Hrun & Hr & Hp' & Hd' & _).
    { split; [exact Hlen|]. split; [exact Hv|].
      cbn [PacketRtpHdr_cast hdr_pt]. rewrite payload_type_low7. exact Hcode. }
    exists st', (fresh (dom (heap st))), (parsed_rtp G_BYTE_ORDER (ba_data b) enc (Heap d)).
    split; [exact Hrun|]. split; [|split; assumption].
    rewrite (packet_rtp_data_slot _ _ _ (Heap (fresh (dom (heap st)))) Hp').
    + reflexivity.
    + apply list_lookup_insert_eq, (lookup_lt_Some _ _ _ Hk).
  - intros (st' & r & rtp & Hrun & Hdata & _).
    destruct (decide (code ≤ 64)) as [|Hlo]; [tauto|].
    destruct (decide (96 ≤ code)) as [|Hhi]; [tauto|].
    exfalso. rewrite Hband in Hrun by lia. injection Hrun as <-.
    rewrite (packet_rtp_data_slot _ _ _ NULL Hp Hk) in Hdata.
    discriminate.
Qed.

(** ** The dissector accepts *)

(** C1: for every input buffer that begins with a 12-byte RTP header with
    version 2 and payload type 0, [packet_rtp_parse] attaches RTP data whose
    encoding pointer is the address of an element of the global array
    [encodings], the one with name PCMU/8000, format g711u and clock 8000;
    the only block it allocates is the RTP data itself; and the buffer it
    returns is the input buffer without its first 12 bytes. *)
Theorem C1_pcmu_static_descriptor
    (st : state) (p d : loc) (k : Packet) (b : GByteArray) :
  heap st !! d = Some (OByteArray b) →
  heap st !! p = Some (OPacket k) →
  proto k !! PACKET_RTP = Some NULL →
  registry st = encodings →
  (12 ≤ length (ba_data b))%nat →
  Z.shiftr (octet (nth 0 (ba_data b) x00)) 6 = 2 →
  Z.land (octet (nth 1 (ba_data b) x00)) 0x7F = 0 →
  let pcmu := mkEncoding 0 (Some "PCMU/8000"%string) (Some "g711u"%string) 8000 in
  ∃ st' r rtp i,
    packet_rtp_parse PACKET_RTP G_BYTE_ORDER (Heap p) (Heap d) st = Ok (Heap d) st'
    ∧ heap st' !! d
      = Some (OByteArray (mkByteArray (drop 12 (ba_data b)) (S (ba_ref b))))
    ∧ packet_rtp_data PACKET_RTP (Heap p) st' = Ok (Heap r) st'
    ∧ heap st' !! r = Some (ORtpData rtp)
    ∧ rtp_encoding rtp = Global i
    ∧ encodings !! i = Some pcmu
    ∧ load_encoding (Global i) st' = Ok pcmu st'
    ∧ trace st' = trace st ++ [EvMalloc r; EvStorageAddPacket (Heap p)].
Proof.
  intros Hd Hp Hk Hreg Hlen Hv Hpt pcmu.
  destruct (parse_accept st p d k b Hd Hp Hk Hreg) as
    (st' & enc & Hrun & Hr & Hp' & Hd' & Hreg' & Henc).
  { split; [exact Hlen|]. split; [exact Hv|].
    cbn [PacketRtpHdr_cast hdr_pt]. rewrite payload_type_low7. lia. }
  cbn [PacketRtpHdr_cast hdr_pt] in Henc. rewrite payload_type_low7, Hpt in Henc.
  destruct Henc as [(i & e & -> & Hc & Hi & _ & Htrace)|(e & _ & Hc & _)];
    [|discriminate Hc].
  injection Hc as <-. injection Hi as <-.
  exists st', (fresh (dom (heap st))),
         (parsed_rtp G_BYTE_ORDER (ba_data b) (Global 0) (Heap d)), 0%nat.
  repeat split; try assumption.
  - rewrite (packet_rtp_data_slot _ _ _ (Heap (fresh (dom (heap st)))) Hp').
    + reflexivity.
    + apply list_lookup_insert_eq, (lookup_lt_Some _ _ _ Hk).
  - apply load_encoding_Global. rewrite Hreg', Hreg. reflexivity.
Qed.

(** C5: for every accepted payload-type code that is not in the registry, in
    particular every code from 96 on, the registry lookup returns [NULL] and
    [packet_rtp_parse] attaches RTP data whose encoding is a block allocated
    during the call, holding that code and nothing else: name and format
    null, clock zero. *)
Theorem C5_dynamic_descriptor
    (st : state) (p d : loc) (k : Packet) (b : GByteArray) :
  heap st !! d = Some (OByteArray b) →
  heap st !! p = Some (OPacket k) →
  proto k !! PACKET_RTP = Some NULL →
  registry st = encodings →
  (12 ≤ length (ba_data b))%nat →
  Z.shiftr (octet (nth 0 (ba_data b) x00)) 6 = 2 →
  let code := Z.land (octet (nth 1 (ba_data b) x00)) 0x7F in
  code ≤ 64 ∨ 96 ≤ code →
  96 ≤ code ∨ ¬ in_registry code →
  ¬ in_registry code
  ∧ packet_rtp_standard_codec code st = Ok NULL st
  ∧ ∃ st' r rtp e,
      packet_rtp_parse PACKET_RTP G_BYTE_ORDER (Heap p) (Heap d) st = Ok (Heap d) st'
      ∧ packet_rtp_data PACKET_RTP (Heap p) st' = Ok (Heap r) st'
      ∧ heap st' !! r = Some (ORtpData rtp)
      ∧ rtp_encoding rtp = Heap e
      ∧ heap st !! e = None
      ∧ EvMalloc e ∈ drop (length (trace st)) (trace st')
      ∧ heap st' !! e = Some (OEncoding (mkEncoding code None None 0)).
Proof.
  intros Hd Hp Hk Hreg Hlen Hv code Hcode Habs.
  assert (¬ in_registry code) as Hno.
  { destruct Habs as [Hdyn|Hno]; [|exact Hno]. apply dynamic_codes_absent. lia. }
  pose proof (standard_codec_absent code Hno) as Hnull.
  split; [exact Hno|]. split.
  { apply packet_rtp_standard_codec_Ok. now rewrite Hreg. }
  destruct (parse_accept st p d k b Hd Hp Hk Hreg) as
    (st' & enc & Hrun & Hr & Hp' & Hd' & Hreg' & Henc).
  { split; [exact Hlen|]. split; [exact Hv|].
    cbn [PacketRtpHdr_cast hdr_pt]. rewrite payload_type_low7. exact Hcode. }
  cbn [PacketRtpHdr_cast hdr_pt] in Henc. rewrite payload_type_low7 in Henc.
  fold code in Henc.
  destruct Henc as [(i & e & _ & Hc & _)|(e & -> & _ & He & He' & Htrace)];
    [congruence|].
  exists st', (fresh (dom (heap st))),
         (parsed_rtp G_BYTE_ORDER (ba_data b) (Heap e) (Heap d)), e.
  repeat split; try assumption.
  - rewrite (packet_rtp_data_slot _ _ _ (Heap (fresh (dom (heap st)))) Hp').
    + reflexivity.
    + apply list_lookup_insert_eq, (lookup_lt_Some _ _ _ Hk).
  - rewrite Htrace, drop_app_length. apply list_elem_of_further, list_elem_of_here.
Qed.

Lemma header_fields (bs : list byte) :
  (12 ≤ length bs)%nat →
  take 2 (drop 2 bs) = [nth 2 bs x00; nth 3 bs x00]
  ∧ take 4 (drop 4 bs) = [nth 4 bs x00; nth 5 bs x00; nth 6 bs x00; nth 7 bs x00]
  ∧ take 4 (drop 8 bs) = [nth 8 bs x00; nth 9 bs x00; nth 10 bs x00; nth 11 bs x00].
Proof.
  intros Hlen.
  do 12 (destruct bs as [|? bs]; [cbn in Hlen; lia|]).
  repeat split.
Qed.

Lemma parsed_rtp_big_endian (bs : list byte) (enc payload : ptr) :
  (12 ≤ length bs)%nat →
  let rtp := parsed_rtp G_BYTE_ORDER bs enc payload in
  rtp_seq rtp = big_endian 0 (take 2 (drop 2 bs))
  ∧ rtp_ts rtp = big_endian 0 (take 4 (drop 4 bs))
  ∧ rtp_ssrc rtp = big_endian 0 (take 4 (drop 8 bs)).
Proof.
  intros Hlen rtp. destruct (header_fields bs Hlen) as (-> & -> & ->).
  subst rtp. unfold parsed_rtp.
  cbn [rtp_seq rtp_ts rtp_ssrc PacketRtpHdr_cast hdr_seq hdr_ts hdr_ssrc].
  now rewrite g_ntohs_load, !g_ntohl_load.
Qed.

(** C6: [packet_rtp_parse] stores the sequence number, the timestamp and the
    synchronization source as the big-endian values of bytes 2-3, 4-7 and
    8-11 of the buffer, whatever the byte order of the host; for a buffer
    starting with 80 00 00 01 00 00 00 02 00 00 00 03 the header has version
    2 and payload type 0, and the attached RTP data has seq 1, ts 2, ssrc 3. *)
Theorem C6_big_endian_fields
    (st : state) (p d : loc) (k : Packet) (b : GByteArray) :
  heap st !! d = Some (OByteArray b) →
  heap st !! p = Some (OPacket k) →
  proto k !! PACKET_RTP = Some NULL →
  registry st = encodings →
  (12 ≤ length (ba_data b))%nat →
  Z.shiftr (octet (nth 0 (ba_data b) x00)) 6 = 2 →
  (let code := Z.land (octet (nth 1 (ba_data b) x00)) 0x7F in
   code ≤ 64 ∨ 96 ≤ code) →
  ∃ st' r rtp,
    packet_rtp_parse PACKET_RTP G_BYTE_ORDER (Heap p) (Heap d) st = Ok (Heap d) st'
    ∧ packet_rtp_data PACKET_RTP (Heap p) st' = Ok (Heap r) st'
    ∧ heap st' !! r = Some (ORtpData rtp)
    ∧ rtp_seq rtp = big_endian 0 (take 2 (drop 2 (ba_data b)))
    ∧ rtp_ts rtp = big_endian 0 (take 4 (drop 4 (ba_data b)))
    ∧ rtp_ssrc rtp = big_endian 0 (take 4 (drop 8 (ba_data b)))
    ∧ (take 12 (ba_data b) = [x80; x00; x00; x01; x00; x00; x00; x02; x00; x00; x00; x03] →
       hdr_version (PacketRtpHdr_cast G_BYTE_ORDER (ba_data b)) = 2
       ∧ hdr_pt (PacketRtpHdr_cast G_BYTE_ORDER (ba_data b)) = 0
       ∧ rtp_seq rtp = 1 ∧ rtp_ts rtp = 2 ∧ rtp_ssrc rtp = 3).
Proof.
  intros Hd Hp Hk Hreg Hlen Hv Hcode.
  destruct (parse_accept st p d k b Hd Hp Hk Hreg) as
    (st' & enc & Hrun & Hr & Hp' & _).
  { split; [exact Hlen|]. split; [exact Hv|].
    cbn [PacketRtpHdr_cast hdr_pt]. rewrite payload_type_low7. exact Hcode. }
  destruct (parsed_rtp_big_endian (ba_data b) enc (Heap d) Hlen) as (Hseq & Hts & Hssrc).
  exists st', (fresh (dom (heap st))), (parsed_rtp G_BYTE_ORDER (ba_data b) enc (Heap d)).
  split; [exact Hrun|]. split.
  { rewrite (packet_rtp_data_slot _ _ _ (Heap (fresh (dom (heap st)))) Hp').
    - reflexivity.
    - apply list_lookup_insert_eq, (lookup_lt_Some _ _ _ Hk). }
  split; [exact Hr|]. split; [exact Hseq|]. split; [exact Hts|]. split; [exact Hssrc|].
  intros Hbytes. rewrite Hseq, Hts, Hssrc.
  clear -Hbytes Hlen. destruct b as [bs ref]. cbn [ba_data] in *.
  do 12 (destruct bs as [|? bs]; [cbn in Hlen; lia|]).
  cbn [take] in Hbytes. injection Hbytes as -> -> -> -> -> -> -> -> -> -> -> ->.
  repeat split.
Qed.

Lemma accepted_dec (bs : list byte) :
  accepted G_BYTE_ORDER bs ∨ ¬ accepted G_BYTE_ORDER bs.
Proof.
  unfold accepted.
  destruct (decide (sizeof_PacketRtpHdr ≤ length bs)%nat); [|tauto].
  destruct (decide (hdr_version (PacketRtpHdr_cast G_BYTE_ORDER bs)
                    = RTP_VERSION_RFC1889)); [|tauto].
  destruct (decide (hdr_pt (PacketRtpHdr_cast G_BYTE_ORDER bs) ≤ 64)); [tauto|].
  destruct (decide (96 ≤ hdr_pt (PacketRtpHdr_cast G_BYTE_ORDER bs))); tauto.
Qed.

Lemma deliveries_malloc (q : ptr) (l : loc) (t : list event) :
  deliveries q (EvMalloc l :: t) = deliveries q t.
Proof. unfold deliveries. now rewrite filter_cons_False by discriminate. Qed.

Lemma deliveries_single (q p : ptr) :
  deliveries q [EvStorageAddPacket p] = if decide (q = p) then 1%nat else 0%nat.
Proof.
  unfold deliveries. destruct (decide (q = p)) as [->|Hne].
  - now rewrite filter_cons_True.
  - rewrite filter_cons_False; [reflexivity|]. intros [= ->]. now apply Hne.
Qed.

(** ** Release and access without RTP data *)

Lemma free_without_data (st : state) (p : loc) (k : Packet) :
  heap st !! p = Some (OPacket k) →
  proto k !! PACKET_RTP = Some NULL →
  packet_rtp_free PACKET_RTP (Heap p) st
  = Ok tt (mkState (heap st) (registry st) (trace st ++ [EvCritical]))
  ∧ packet_rtp_free_by_tag PACKET_RTP (Heap p) st
  = Ok tt (mkState (heap st) (registry st) (trace st ++ [EvCritical])).
Proof.
  intros Hp Hk. unfold packet_rtp_free, packet_rtp_free_by_tag.
  rewrite !decide_False by discriminate.
  rewrite !(bind_Ok _ _ _ _ _ (load_packet_Heap _ _ _ Hp)).
  rewrite !(bind_Ok _ _ _ _ _ (g_ptr_array_index_Some _ _ _ _ Hk)).
  rewrite !decide_True by reflexivity. split; reflexivity.
Qed.

(** C9, as the code has it: releasing a packet that has no attached RTP data
    is reported as a programming error with a critical log message, and
    [packet_rtp_free] then returns normally, having freed and changed
    nothing; the same holds for a null packet.  It does not abort. *)
Theorem C9_release_without_data_returns (st : state) (p : loc) (k : Packet) :
  heap st !! p = Some (OPacket k) →
  proto k !! PACKET_RTP = Some NULL →
  packet_rtp_free PACKET_RTP (Heap p) st
  = Ok tt (mkState (heap st) (registry st) (trace st ++ [EvCritical]))
  ∧ packet_rtp_free PACKET_RTP NULL st
  = Ok tt (mkState (heap st) (registry st) (trace st ++ [EvCritical])).
Proof.
  intros Hp Hk. split.
  - apply (free_without_data st p k Hp Hk).
  - reflexivity.
Qed.

(** C10: [packet_rtp_data] returns [NULL], after a critical log message and
    without any fault, for a null packet and for a packet whose RTP slot is
    null; it returns the pointer in the slot, and changes nothing, when the
    slot is not null.  So its result is not [NULL] exactly when RTP data is
    attached. *)
Theorem C10_accessor (st : state) (p : loc) (k : Packet) (r : ptr) :
  heap st !! p = Some (OPacket k) →
  proto k !! PACKET_RTP = Some r →
  let logged := mkState (heap st) (registry st) (trace st ++ [EvCritical]) in
  packet_rtp_data PACKET_RTP NULL st = Ok NULL logged
  ∧ (r = NULL → packet_rtp_data PACKET_RTP (Heap p) st = Ok NULL logged)
  ∧ (r ≠ NULL → packet_rtp_data PACKET_RTP (Heap p) st = Ok r st)
  ∧ (∀ res st', packet_rtp_data PACKET_RTP (Heap p) st = Ok res st' →
                (res ≠ NULL ↔ r ≠ NULL)).
Proof.
  intros Hp Hk logged. pose proof (packet_rtp_data_slot st p k r Hp Hk) as Hslot.
  split; [reflexivity|]. split; [|split].
  - intros Hr. now rewrite Hslot, decide_True.
  - intros Hr. now rewrite Hslot, decide_False.
  - intros res st' Hres. rewrite Hslot in Hres.
    destruct (decide (r = NULL)) as [->|Hr]; injection Hres as <- <-; tauto.
Qed.

(** ** Dissect/release cycles *)

(** One cycle on a live packet without RTP data and a live buffer: with the
    release of the source and with the release by tag alike, the run ends in
    the same state; the heap differs from the initial one at the packet and
    at the buffer only, every block allocated on the way is freed again, and
    the global array is untouched. *)
Lemma cycle_step (st : state) (p d : loc) (k : Packet) (b : GByteArray) :
  heap st !! d = Some (OByteArray b) →
  heap st !! p = Some (OPacket k) →
  proto k !! PACKET_RTP = Some NULL →
  (1 ≤ ba_ref b)%nat →
  registry st = encodings →
  ∃ st' k' b' t,
    cycle PACKET_RTP G_BYTE_ORDER (packet_rtp_free PACKET_RTP) (p, d) st = Ok tt st'
    ∧ cycle PACKET_RTP G_BYTE_ORDER (packet_rtp_free_by_tag PACKET_RTP) (p, d) st
      = Ok tt st'
    ∧ heap st' = <[p := OPacket k']> (<[d := OByteArray b']> (heap st))
    ∧ ba_ref b' = ba_ref b
    ∧ registry st' = registry st
    ∧ trace st' = trace st ++ t
    ∧ ∀ l, EvMalloc l ∈ t ↔ EvFree l ∈ t.
Proof.
  intros Hd Hp Hk Href Hreg. unfold cycle. cbn [fst snd].
  assert (d ≠ p) as Hdp by congruence.
  destruct (accepted_dec (ba_data b)) as [Hacc|Hno].
  - destruct (standard_codec_total
                (hdr_pt (PacketRtpHdr_cast G_BYTE_ORDER (ba_data b))))
      as [Hc|(i & e & Hc & Hi & He)]; rewrite <- Hreg in Hc.
    + pose proof (parse_dynamic st p d k b Hd Hp Hk Hacc Hc) as Hrun.
      destruct (free_after_dynamic st p d k b Hd Hp Hk Href Hc) as [Hfree Htag].
      rewrite !(bind_Ok _ _ _ _ _ Hrun).
      eexists _, _, (mkByteArray _ _), _.
      split; [exact Hfree|]. split; [exact Htag|].
      cbn [heap registry trace ba_ref]. repeat split.
      all: rewrite !list_elem_of_In; cbn; intros H; intuition congruence.
    + rewrite <- Hreg in Hi. rewrite <- He in Hc.
      pose proof Hc as Hc'. rewrite He in Hc'.
      pose proof (parse_static st p d k b i Hd Hp Hk Hacc Hc') as Hrun.
      destruct (free_after_static st p d k b i i e Hd Hp Hk Href Hi Hc)
        as [Hfree Htag].
      rewrite !(bind_Ok _ _ _ _ _ Hrun).
      eexists _, _, (mkByteArray _ _), _.
      split; [exact Hfree|]. split; [exact Htag|].
      cbn [heap registry trace ba_ref]. repeat split.
      all: rewrite !list_elem_of_In; cbn; intros H; intuition congruence.
  - pose proof (parse_decline st (Heap p) d b Hd Hno) as Hrun.
    destruct (free_without_data st p k Hp Hk) as [Hfree Htag].
    rewrite !(bind_Ok _ _ _ _ _ Hrun).
    exists (mkState (heap st) (registry st) (trace st ++ [EvCritical])), k, b,
           [EvCritical].
    split; [exact Hfree|]. split; [exact Htag|].
    cbn [heap registry trace]. repeat split.
    + rewrite (insert_id _ d) by exact Hd. now rewrite insert_id.
    + rewrite list_elem_of_In. cbn. intuition congruence.
    + rewrite list_elem_of_In. cbn. intuition congruence.
Qed.

(** The readiness of the remaining cycles survives one cycle. *)
Lemma cycles_ready_step (st st' : state) (p d : loc) (k' : Packet)
    (b b' : GByteArray) (l : list (loc * loc)) :
  cycles_ready PACKET_RTP st ((p, d) :: l) →
  heap st !! d = Some (OByteArray b) →
  heap st' = <[p := OPacket k']> (<[d := OByteArray b']> (heap st)) →
  ba_ref b' = ba_ref b →
  registry st' = registry st →
  cycles_ready PACKET_RTP st' l.
Proof.
  intros (Hreg & Hnodup & Hall) Hd Hheap Href Hreg'.
  cbn [fmap list_fmap fst] in Hnodup. apply NoDup_cons in Hnodup as [Hp Hnodup].
  split; [congruence|]. split; [exact Hnodup|].
  intros p' d' Hin.
  destruct (Hall p' d' (list_elem_of_further _ _ _ Hin))
    as ((k1 & Hp1 & Hk1) & (b1 & Hd1 & Hb1)).
  assert (p' ≠ p) as Hpp.
  { intros ->. apply Hp. apply list_elem_of_fmap. exists (p, d'). auto. }
  assert (p' ≠ d) as Hpd by congruence.
  rewrite Hheap. split.
  - exists k1. now rewrite !lookup_insert_ne by congruence.
  - destruct (Hall p d (list_elem_of_here _ _)) as ((k0 & Hp0 & _) & _).
    assert (d' ≠ p) as Hdp by congruence.
    rewrite lookup_insert_ne by congruence.
    destruct (decide (d' = d)) as [->|Hdd].
    + exists b'. rewrite lookup_insert_eq. split; [reflexivity|].
      rewrite Href. congruence.
    + exists b1. now rewrite lookup_insert_ne by congruence.
Qed.

(** C7: over any number of dissect/release cycles of different packets, the
    release of the source, which looks the stored code up again, runs exactly
    as a release that goes by a tag fixed when the descriptor was created:
    both end, without fault, in the same state.  So a descriptor is freed
    exactly when [packet_rtp_parse] had allocated it and an entry of
    [encodings] never is; the blocks freed are the blocks allocated, the heap
    has the blocks it had, and the global array still holds its initialiser. *)
Theorem C7_release_by_lookup_is_release_by_tag
    (l : list (loc * loc)) (st : state) :
  cycles_ready PACKET_RTP st l →
  ∃ st' t,
    cycles PACKET_RTP G_BYTE_ORDER (packet_rtp_free PACKET_RTP) l st = Ok tt st'
    ∧ cycles PACKET_RTP G_BYTE_ORDER (packet_rtp_free_by_tag PACKET_RTP) l st
      = Ok tt st'
    ∧ registry st' = encodings
    ∧ dom (heap st') = dom (heap st)
    ∧ trace st' = trace st ++ t
    ∧ ∀ a, EvMalloc a ∈ t ↔ EvFree a ∈ t.
Proof.
  revert st. induction l as [|[p d] l IH]; intros st Hready.
  - exists st, []. destruct Hready as (Hreg & _).
    repeat split; try assumption; try reflexivity.
    + now rewrite app_nil_r.
    + intros H; inversion H.
    + intros H; inversion H.
  - pose proof Hready as (Hreg & _ & Hall).
    destruct (Hall p d (list_elem_of_here _ _))
      as ((k & Hp & Hk) & (b & Hd & Href)).
    destruct (cycle_step st p d k b Hd Hp Hk Href Hreg)
      as (st1 & k' & b' & t1 & Hrun & Htag & Hheap & Href' & Hreg' & Ht1 & Hbal1).
    destruct (IH st1 (cycles_ready_step st st1 p d k' b b' l
                        Hready Hd Hheap Href' Hreg'))
      as (st2 & t2 & Hrun2 & Htag2 & Hreg2 & Hdom2 & Ht2 & Hbal2).
    exists st2, (t1 ++ t2). cbn [cycles].
    rewrite (bind_Ok _ _ _ _ _ Hrun), (bind_Ok _ _ _ _ _ Htag).
    split; [exact Hrun2|]. split; [exact Htag2|]. split; [exact Hreg2|].
    split; [|split].
    + rewrite Hdom2, Hheap.
      rewrite dom_insert_lookup_L.
      * apply dom_insert_lookup_L. eauto.
      * rewrite lookup_insert_ne by congruence. eauto.
    + now rewrite Ht2, Ht1, app_assoc.
    + intros a. rewrite !elem_of_app, Hbal1, Hbal2. reflexivity.
Qed.

End DissectorFacts.

(** ** When the dissector delivers *)

Section DissectorDelivery.

Variable PACKET_RTP : nat.
Variable G_BYTE_ORDER : byte_order.

(** The state in which an accepting run calls its storage collaborator: the
    final state of [packet_rtp_parse] but for the record of the delivery. *)
Lemma parse_tail_with_run (deliver : ptr → M unit) (s : state) (p d r : loc)
    (k : Packet) (b : GByteArray) (enc : ptr) :
  heap s !! d = Some (OByteArray b) →
  heap s !! p = Some (OPacket k) →
  heap s !! r = Some (ORtpData (with_encoding enc zero_PacketRtpData)) →
  proto k !! PACKET_RTP = Some NULL →
  (12 ≤ length (ba_data b))%nat →
  parse_tail_with PACKET_RTP G_BYTE_ORDER deliver
    (PacketRtpHdr_cast G_BYTE_ORDER (ba_data b)) (Heap p) (Heap d) (Heap r) s
  = (deliver (Heap p) ≫= λ _, mret (Heap d))
      (mkState
         (<[p := OPacket (mkPacket (<[PACKET_RTP := Heap r]> (proto k)))]>
          (<[d := OByteArray (mkByteArray (drop 12 (ba_data b)) (S (ba_ref b)))]>
           (<[r := ORtpData (parsed_rtp G_BYTE_ORDER (ba_data b) enc (Heap d))]>
            (heap s))))
         (registry s) (trace s)).
Proof.
  intros Hd Hp Hr Hk Hlen.
  assert (r ≠ d) as Hrd by congruence.
  assert (r ≠ p) as Hrp by congruence.
  assert (d ≠ p) as Hdp by congruence.
  unfold parse_tail_with.
  erewrite bind_Ok by (apply assign_rtp_Heap; exact Hr).
  erewrite bind_Ok by (apply assign_rtp_Heap; cbn [heap]; apply lookup_insert_eq).
  erewrite bind_Ok by (apply assign_rtp_Heap; cbn [heap]; apply lookup_insert_eq).
  erewrite bind_Ok.
  2:{ apply g_byte_array_remove_range_Heap with (b := b); cbn [heap].
      - rewrite !lookup_insert_ne by assumption. exact Hd.
      - exact Hlen. }
  erewrite bind_Ok by (apply g_byte_array_ref_Heap; cbn [heap]; apply lookup_insert_eq).
  erewrite bind_Ok.
  2:{ apply assign_rtp_Heap; cbn [heap].
      rewrite !lookup_insert_ne by congruence. apply lookup_insert_eq. }
  erewrite bind_Ok.
  2:{ apply packet_add_type_Heap with (k := k); cbn [heap]; [|exact Hk].
      rewrite !lookup_insert_ne by congruence. exact Hp. }
  cbn [heap registry trace]. f_equal. f_equal. heap_eq.
Qed.

Lemma parse_with_enter (deliver : ptr → M unit) (st : state) (p d : loc)
    (b : GByteArray) :
  heap st !! d = Some (OByteArray b) →
  accepted G_BYTE_ORDER (ba_data b) →
  packet_rtp_parse_with PACKET_RTP G_BYTE_ORDER deliver (Heap p) (Heap d) st
  = (let hdr := PacketRtpHdr_cast G_BYTE_ORDER (ba_data b) in
     rtp ← g_malloc0 (ORtpData zero_PacketRtpData);
     enc ← packet_rtp_standard_codec (hdr_pt hdr);
     assign_rtp rtp (with_encoding enc);;
     r ← load_rtp rtp;
     (if decide (rtp_encoding r = NULL) then
        e ← g_malloc0 (OEncoding zero_PacketRtpEncoding);
        assign_rtp rtp (with_encoding e);;
        r' ← load_rtp rtp;
        assign_encoding (rtp_encoding r') (with_id (hdr_pt hdr))
      else mret tt);;
     parse_tail_with PACKET_RTP G_BYTE_ORDER deliver hdr (Heap p) (Heap d) rtp) st.
Proof.
  intros Hd (Hlen & Hv & Hpt). unfold packet_rtp_parse_with.
  rewrite (bind_Ok _ _ _ _ _ (load_bytes_Heap _ _ _ Hd)).
  rewrite decide_False by lia.
  rewrite decide_False by (intros X; apply X; exact Hv).
  replace (negb _) with false; [reflexivity|].
  symmetry. apply negb_false_iff, orb_true_iff. rewrite Z.leb_le, Z.geb_le. exact Hpt.
Qed.

Lemma parse_with_decline (deliver : ptr → M unit) (st : state) (packet : ptr)
    (d : loc) (b : GByteArray) :
  heap st !! d = Some (OByteArray b) →
  ¬ accepted G_BYTE_ORDER (ba_data b) →
  packet_rtp_parse_with PACKET_RTP G_BYTE_ORDER deliver packet (Heap d) st
  = Ok (Heap d) st.
Proof.
  intros Hd Hno. unfold packet_rtp_parse_with.
  rewrite (bind_Ok _ _ _ _ _ (load_bytes_Heap _ _ _ Hd)).
  destruct (decide _) as [|Hlen]; [reflexivity|].
  destruct (decide _) as [|Hv]; [reflexivity|].
  destruct (negb _) eqn:Hpt; [reflexivity|].
  exfalso. apply Hno. split; [lia|]. split.
  - destruct (decide (hdr_version (PacketRtpHdr_cast G_BYTE_ORDER (ba_data b))
                      = RTP_VERSION_RFC1889)); [assumption|contradiction].
  - apply negb_false_iff, orb_true_iff in Hpt.
    rewrite Z.leb_le, Z.geb_le in Hpt. exact Hpt.
Qed.

Lemma parse_with_static (deliver : ptr → M unit) (st : state) (p d : loc)
    (k : Packet) (b : GByteArray) (i : nat) :
  heap st !! d = Some (OByteArray b) →
  heap st !! p = Some (OPacket k) →
  proto k !! PACKET_RTP = Some NULL →
  accepted G_BYTE_ORDER (ba_data b) →
  standard_codec_from (registry st) 0
    (hdr_pt (PacketRtpHdr_cast G_BYTE_ORDER (ba_data b))) = Some (Global i) →
  packet_rtp_parse_with PACKET_RTP G_BYTE_ORDER deliver (Heap p) (Heap d) st
  = (deliver (Heap p) ≫= λ _, mret (Heap d))
      (mkState (heap (parsed_static PACKET_RTP G_BYTE_ORDER st p d k b i))
               (registry st)
               (trace st ++ [EvMalloc (fresh (dom (heap st)))])).
Proof.
  intros Hd Hp Hk Hacc Hc. rewrite (parse_with_enter _ _ _ _ _ Hd Hacc).
  destruct Hacc as (Hlen & _ & _). unfold sizeof_PacketRtpHdr in Hlen. cbv zeta.
  pose proof (fresh_loc_ne (heap st) d ltac:(eauto)) as Hrd.
  pose proof (fresh_loc_ne (heap st) p ltac:(eauto)) as Hrp.
  rewrite (bind_Ok _ _ _ _ _ (g_malloc0_Ok _ _)).
  erewrite bind_Ok by (apply packet_rtp_standard_codec_Ok; exact Hc).
  erewrite bind_Ok by (apply assign_rtp_Heap; cbn [heap]; apply lookup_insert_eq).
  erewrite bind_Ok by (apply load_rtp_Heap; cbn [heap]; apply lookup_insert_eq).
  cbn [rtp_encoding with_encoding]. rewrite decide_False by discriminate.
  erewrite bind_Ok by reflexivity.
  erewrite parse_tail_with_run with (k := k) (b := b) (enc := Global i);
    cbn [heap]; trivial.
  - unfold parsed_static. cbn [heap registry trace]. f_equal. f_equal. heap_eq.
  - rewrite !lookup_insert_ne by congruence. exact Hd.
  - rewrite !lookup_insert_ne by congruence. exact Hp.
  - apply lookup_insert_eq.
Qed.

Lemma parse_with_dynamic (deliver : ptr → M unit) (st : state) (p d : loc)
    (k : Packet) (b : GByteArray) :
  heap st !! d = Some (OByteArray b) →
  heap st !! p = Some (OPacket k) →
  proto k !! PACKET_RTP = Some NULL →
  accepted G_BYTE_ORDER (ba_data b) →
  standard_codec_from (registry st) 0
    (hdr_pt (PacketRtpHdr_cast G_BYTE_ORDER (ba_data b))) = Some NULL →
  packet_rtp_parse_with PACKET_RTP G_BYTE_ORDER deliver (Heap p) (Heap d) st
  = (deliver (Heap p) ≫= λ _, mret (Heap d))
      (mkState (heap (parsed_dynamic PACKET_RTP G_BYTE_ORDER st p d k b))
               (registry st)
               (trace st ++ [EvMalloc (fresh (dom (heap st)));
                             EvMalloc (fresh ({[fresh (dom (heap st))]}
                                              ∪ dom (heap st)))])).
Proof.
  intros Hd Hp Hk Hacc Hc. rewrite (parse_with_enter _ _ _ _ _ Hd Hacc).
  destruct Hacc as (Hlen & _ & _). unfold sizeof_PacketRtpHdr in Hlen. cbv zeta.
  pose proof (fresh_loc_ne (heap st) d ltac:(eauto)) as Hrd.
  pose proof (fresh_loc_ne (heap st) p ltac:(eauto)) as Hrp.
  rewrite (bind_Ok _ _ _ _ _ (g_malloc0_Ok _ _)).
  erewrite bind_Ok by (apply packet_rtp_standard_codec_Ok; exact Hc).
  erewrite bind_Ok by (apply assign_rtp_Heap; cbn [heap]; apply lookup_insert_eq).
  erewrite bind_Ok by (apply load_rtp_Heap; cbn [heap]; apply lookup_insert_eq).
  cbn [rtp_encoding with_encoding]. rewrite decide_True by reflexivity.
  unfold parsed_dynamic.
  set (r := fresh (dom (heap st))) in *.
  rewrite (bind_Ok (g_malloc0 _ ≫= _) _ _
    (mkState
       (<[fresh ({[r]} ∪ dom (heap st)) :=
            OEncoding (with_id (hdr_pt (PacketRtpHdr_cast G_BYTE_ORDER (ba_data b)))
                               zero_PacketRtpEncoding)]>
        (<[r := ORtpData (with_encoding (Heap (fresh ({[r]} ∪ dom (heap st))))
                                         zero_PacketRtpData)]>
         (<[fresh ({[r]} ∪ dom (heap st)) := OEncoding zero_PacketRtpEncoding]>
          (<[r := ORtpData zero_PacketRtpData]> (heap st)))))
       (registry st)
       (trace st ++ [EvMalloc r; EvMalloc (fresh ({[r]} ∪ dom (heap st)))])) tt).
  2:{ rewrite (bind_Ok _ _ _ _ _ (g_malloc0_Ok _ _)). cbn [heap registry trace].
      replace (dom (<[r:=ORtpData (mkRtpData NULL 0 0 0 NULL)]>
                      (<[r:=ORtpData zero_PacketRtpData]> (heap st))))
        with ({[r]} ∪ dom (heap st))
        by (now rewrite !dom_insert_L, (assoc_L (∪) {[r]}), (idemp_L (∪) {[r]})).
      destruct (second_fresh (heap st)) as (Her & _ & _). fold r in Her.
      set (e := fresh ({[r]} ∪ dom (heap st))) in *.
      erewrite bind_Ok.
      2:{ apply assign_rtp_Heap; cbn [heap].
          rewrite lookup_insert_ne by congruence. apply lookup_insert_eq. }
      erewrite bind_Ok by (apply load_rtp_Heap; cbn [heap]; apply lookup_insert_eq).
      cbn [rtp_encoding with_encoding].
      erewrite assign_encoding_Heap.
      2:{ cbn [heap]. rewrite lookup_insert_ne by congruence. apply lookup_insert_eq. }
      cbn [heap registry trace]. f_equal. f_equal.
      - heap_eq.
      - now rewrite <- app_assoc. }
  destruct (second_fresh (heap st)) as (Her & _ & Hne). fold r in Her, Hne.
  pose proof (Hne d ltac:(eauto)) as Hed.
  pose proof (Hne p ltac:(eauto)) as Hep.
  clear Hne. set (e := fresh ({[r]} ∪ dom (heap st))) in *.
  erewrite parse_tail_with_run with (k := k) (b := b) (enc := Heap e);
    cbn [heap]; trivial.
  - cbn [heap registry trace]. f_equal. f_equal. heap_eq.
  - rewrite !lookup_insert_ne by congruence. exact Hd.
  - rewrite !lookup_insert_ne by congruence. exact Hp.
  - rewrite lookup_insert_ne by congruence. apply lookup_insert_eq.
Qed.

(** C8: [packet_rtp_parse] calls its storage collaborator exactly once, on
    its packet, as the last thing it does in an accepting run: whatever the
    collaborator is, it is called in the state in which the RTP data is
    attached to the packet with its fields stored and the header removed from
    the buffer, nothing has been delivered before, and what the collaborator
    leaves is what the dissector returns with.  With [storage_add_packet] the
    trace so gains one delivery, of this packet.  On each of the three
    declining paths (short buffer, other version, payload type in 65-95) the
    collaborator is not called and the state is as it was. *)
Theorem C8_delivery_once_at_the_end
    (st : state) (p d : loc) (k : Packet) (b : GByteArray) :
  heap st !! d = Some (OByteArray b) →
  heap st !! p = Some (OPacket k) →
  proto k !! PACKET_RTP = Some NULL →
  registry st = encodings →
  packet_rtp_parse PACKET_RTP G_BYTE_ORDER (Heap p) (Heap d)
  = packet_rtp_parse_with PACKET_RTP G_BYTE_ORDER storage_add_packet (Heap p) (Heap d)
  ∧ (accepted G_BYTE_ORDER (ba_data b) →
     ∃ s r enc t0,
       packet_rtp_data PACKET_RTP (Heap p) s = Ok (Heap r) s
       ∧ heap s !! r
         = Some (ORtpData (parsed_rtp G_BYTE_ORDER (ba_data b) enc (Heap d)))
       ∧ heap s !! d
         = Some (OByteArray (mkByteArray (drop 12 (ba_data b)) (S (ba_ref b))))
       ∧ trace s = trace st ++ t0
       ∧ (∀ q, deliveries q t0 = 0%nat)
       ∧ (∀ deliver : ptr → M unit,
            packet_rtp_parse_with PACKET_RTP G_BYTE_ORDER deliver (Heap p) (Heap d) st
            = (deliver (Heap p) ≫= λ _, mret (Heap d)) s)
       ∧ packet_rtp_parse PACKET_RTP G_BYTE_ORDER (Heap p) (Heap d) st
         = Ok (Heap d)
              (mkState (heap s) (registry s)
                       (trace s ++ [EvStorageAddPacket (Heap p)]))
       ∧ (∀ q, deliveries q (t0 ++ [EvStorageAddPacket (Heap p)])
               = if decide (q = Heap p) then 1%nat else 0%nat))
  ∧ ((length (ba_data b) < 12)%nat
     ∨ Z.shiftr (octet (nth 0 (ba_data b) x00)) 6 ≠ 2
     ∨ 65 ≤ Z.land (octet (nth 1 (ba_data b) x00)) 0x7F ≤ 95 →
     (∀ deliver : ptr → M unit,
        packet_rtp_parse_with PACKET_RTP G_BYTE_ORDER deliver (Heap p) (Heap d) st
        = Ok (Heap d) st)
     ∧ packet_rtp_parse PACKET_RTP G_BYTE_ORDER (Heap p) (Heap d) st
       = Ok (Heap d) st).
Proof.
  intros Hd Hp Hk Hreg. split; [reflexivity|]. split.
  - intros Hacc.
    assert (d ≠ p) as Hdp by congruence.
    pose proof (fresh_loc_ne (heap st) d ltac:(eauto)) as Hrd.
    pose proof (fresh_loc_ne (heap st) p ltac:(eauto)) as Hrp.
    destruct (second_fresh (heap st)) as (Her & _ & Hne).
    pose proof (Hne d ltac:(eauto)) as Hed.
    pose proof (Hne p ltac:(eauto)) as Hep. clear Hne.
    assert (<[PACKET_RTP := Heap (fresh (dom (heap st)))]> (proto k) !! PACKET_RTP
            = Some (Heap (fresh (dom (heap st))))) as Hslot
      by apply list_lookup_insert_eq, (lookup_lt_Some _ _ _ Hk).
    destruct (standard_codec_total
                (hdr_pt (PacketRtpHdr_cast G_BYTE_ORDER (ba_data b))))
      as [Hc|(i & e & Hc & _)]; rewrite <- Hreg in Hc.
    + exists (mkState (heap (parsed_dynamic PACKET_RTP G_BYTE_ORDER st p d k b))
                      (registry st)
                      (trace st ++ [EvMalloc (fresh (dom (heap st)));
                                    EvMalloc (fresh ({[fresh (dom (heap st))]}
                                                     ∪ dom (heap st)))])),
             (fresh (dom (heap st))),
             (Heap (fresh ({[fresh (dom (heap st))]} ∪ dom (heap st)))),
             [EvMalloc (fresh (dom (heap st)));
              EvMalloc (fresh ({[fresh (dom (heap st))]} ∪ dom (heap st)))].
      split; [|split; [|split; [|split; [reflexivity|split; [|split; [|split]]]]]].
      5:{ intros deliver.
          apply (parse_with_dynamic deliver st p d k b Hd Hp Hk Hacc Hc). }
      * rewrite (packet_rtp_data_slot PACKET_RTP _ p
                   (mkPacket (<[PACKET_RTP := Heap (fresh (dom (heap st)))]> (proto k)))
                   (Heap (fresh (dom (heap st)))));
          [reflexivity|cbn [heap]; apply lookup_insert_eq|exact Hslot].
      * unfold parsed_dynamic. cbn [heap].
        rewrite !lookup_insert_ne by congruence. apply lookup_insert_eq.
      * unfold parsed_dynamic. cbn [heap].
        rewrite lookup_insert_ne by congruence. apply lookup_insert_eq.
      * intros q. now rewrite !deliveries_malloc.
      * rewrite (parse_dynamic _ _ _ _ _ _ _ Hd Hp Hk Hacc Hc).
        unfold parsed_dynamic. cbn [heap registry trace].
        now rewrite <- app_assoc.
      * intros q. cbn [app]. rewrite !deliveries_malloc. apply deliveries_single.
    + exists (mkState (heap (parsed_static PACKET_RTP G_BYTE_ORDER st p d k b i))
                      (registry st)
                      (trace st ++ [EvMalloc (fresh (dom (heap st)))])),
             (fresh (dom (heap st))), (Global i),
             [EvMalloc (fresh (dom (heap st)))].
      split; [|split; [|split; [|split; [reflexivity|split; [|split; [|split]]]]]].
      5:{ intros deliver.
          apply (parse_with_static deliver st p d k b i Hd Hp Hk Hacc Hc). }
      * rewrite (packet_rtp_data_slot PACKET_RTP _ p
                   (mkPacket (<[PACKET_RTP := Heap (fresh (dom (heap st)))]> (proto k)))
                   (Heap (fresh (dom (heap st)))));
          [reflexivity|cbn [heap]; apply lookup_insert_eq|exact Hslot].
      * unfold parsed_static. cbn [heap].
        rewrite !lookup_insert_ne by congruence. apply lookup_insert_eq.
      * unfold parsed_static. cbn [heap].
        rewrite lookup_insert_ne by congruence. apply lookup_insert_eq.
      * intros q. now rewrite !deliveries_malloc.
      * rewrite (parse_static _ _ _ _ _ _ _ _ Hd Hp Hk Hacc Hc).
        unfold parsed_static. cbn [heap registry trace].
        now rewrite <- app_assoc.
      * intros q. cbn [app]. rewrite !deliveries_malloc. apply deliveries_single.
  - intros Hdecl. apply (not_accepted G_BYTE_ORDER) in Hdecl. split.
    + intros deliver. now apply parse_with_decline with (b := b).
    + now apply parse_decline with (b := b).
Qed.

End DissectorDelivery.

(** ** The statements on sample inputs *)

Lemma C1_witness :
  ∃ st' r rtp i,
    packet_rtp_parse 8 G_LITTLE_ENDIAN (Heap 1) (Heap 2)
      (sample_state (sample_header x80 x00 ++ [x41; x42])) = Ok (Heap 2) st'
    ∧ heap st' !! 2%positive = Some (OByteArray (mkByteArray [x41; x42] 2))
    ∧ packet_rtp_data 8 (Heap 1) st' = Ok (Heap r) st'
    ∧ heap st' !! r = Some (ORtpData rtp)
    ∧ rtp_encoding rtp = Global i
    ∧ encodings !! i
      = Some (mkEncoding 0 (Some "PCMU/8000"%string) (Some "g711u"%string) 8000)
    ∧ load_encoding (Global i) st'
      = Ok (mkEncoding 0 (Some "PCMU/8000"%string) (Some "g711u"%string) 8000) st'
    ∧ trace st' = [EvMalloc r; EvStorageAddPacket (Heap 1)].
Proof.
  apply (C1_pcmu_static_descriptor 8 G_LITTLE_ENDIAN
           (sample_state (sample_header x80 x00 ++ [x41; x42])) 1 2
           (mkPacket (replicate 11 NULL))
           (mkByteArray (sample_header x80 x00 ++ [x41; x42]) 1)).
  - reflexivity.
  - reflexivity.
  - reflexivity.
  - reflexivity.
  - simpl. lia.
  - reflexivity.
  - reflexivity.
Defined.

Lemma C2_witness :
  packet_rtp_parse 8 G_LITTLE_ENDIAN (Heap 1) (Heap 2) (sample_state [x80; x00; x00])
  = Ok (Heap 2) (sample_state [x80; x00; x00]).
Proof.
  apply (C2_short_buffer_declined 8 G_LITTLE_ENDIAN (sample_state [x80; x00; x00])
           (Heap 1) 2 (mkByteArray [x80; x00; x00] 1)).
  - reflexivity.
  - simpl. lia.
Defined.

Lemma C3_witness :
  packet_rtp_parse 8 G_LITTLE_ENDIAN (Heap 1) (Heap 2)
    (sample_state (sample_header x40 x00))
  = Ok (Heap 2) (sample_state (sample_header x40 x00)).
Proof.
  apply (C3_wrong_version_declined 8 G_LITTLE_ENDIAN
           (sample_state (sample_header x40 x00)) (Heap 1) 2
           (mkByteArray (sample_header x40 x00) 1)).
  - reflexivity.
  - simpl. lia.
  - vm_compute. discriminate.
Defined.

Lemma C4_witness :
  ((65 ≤ 64 ∨ 96 ≤ 65) ↔
   ∃ st' r rtp,
     packet_rtp_parse 8 G_LITTLE_ENDIAN (Heap 1) (Heap 2)
       (sample_state (sample_header x80 x41)) = Ok (Heap 2) st'
     ∧ packet_rtp_data 8 (Heap 1) st' = Ok (Heap r) st'
     ∧ heap st' !! r = Some (ORtpData rtp)
     ∧ heap st' !! 2%positive = Some (OByteArray (mkByteArray [] 2)))
  ∧ (65 ≤ 65 ≤ 95 →
     packet_rtp_parse 8 G_LITTLE_ENDIAN (Heap 1) (Heap 2)
       (sample_state (sample_header x80 x41))
     = Ok (Heap 2) (sample_state (sample_header x80 x41))).
Proof.
  apply (C4_payload_type_band 8 G_LITTLE_ENDIAN
           (sample_state (sample_header x80 x41)) 1 2
           (mkPacket (replicate 11 NULL))
           (mkByteArray (sample_header x80 x41) 1)).
  - reflexivity.
  - reflexivity.
  - reflexivity.
  - reflexivity.
  - simpl. lia.
  - reflexivity.
Defined.

Lemma C5_witness :
  ¬ in_registry 100
  ∧ packet_rtp_standard_codec 100 (sample_state (sample_header x80 x64))
    = Ok NULL (sample_state (sample_header x80 x64))
  ∧ ∃ st' r rtp e,
      packet_rtp_parse 8 G_LITTLE_ENDIAN (Heap 1) (Heap 2)
        (sample_state (sample_header x80 x64)) = Ok (Heap 2) st'
      ∧ packet_rtp_data 8 (Heap 1) st' = Ok (Heap r) st'
      ∧ heap st' !! r = Some (ORtpData rtp)
      ∧ rtp_encoding rtp = Heap e
      ∧ heap (sample_state (sample_header x80 x64)) !! e = None
      ∧ EvMalloc e ∈ drop 0 (trace st')
      ∧ heap st' !! e = Some (OEncoding (mkEncoding 100 None None 0)).
Proof.
  apply (C5_dynamic_descriptor 8 G_LITTLE_ENDIAN
           (sample_state (sample_header x80 x64)) 1 2
           (mkPacket (replicate 11 NULL))
           (mkByteArray (sample_header x80 x64) 1)).
  - reflexivity.
  - reflexivity.
  - reflexivity.
  - reflexivity.
  - simpl. lia.
  - reflexivity.
  - right. vm_compute. discriminate.
  - left. vm_compute. discriminate.
Defined.

Lemma C6_witness :
  ∃ st' r rtp,
    packet_rtp_parse 8 G_LITTLE_ENDIAN (Heap 1) (Heap 2)
      (sample_state (sample_header x80 x00 ++ [x41; x42])) = Ok (Heap 2) st'
    ∧ packet_rtp_data 8 (Heap 1) st' = Ok (Heap r) st'
    ∧ heap st' !! r = Some (ORtpData rtp)
    ∧ rtp_seq rtp = big_endian 0 [x00; x01]
    ∧ rtp_ts rtp = big_endian 0 [x00; x00; x00; x02]
    ∧ rtp_ssrc rtp = big_endian 0 [x00; x00; x00; x03]
    ∧ (sample_header x80 x00
       = [x80; x00; x00; x01; x00; x00; x00; x02; x00; x00; x00; x03] →
       hdr_version (PacketRtpHdr_cast G_LITTLE_ENDIAN
                      (sample_header x80 x00 ++ [x41; x42])) = 2
       ∧ hdr_pt (PacketRtpHdr_cast G_LITTLE_ENDIAN
                   (sample_header x80 x00 ++ [x41; x42])) = 0
       ∧ rtp_seq rtp = 1 ∧ rtp_ts rtp = 2 ∧ rtp_ssrc rtp = 3).
Proof.
  apply (C6_big_endian_fields 8 G_LITTLE_ENDIAN
           (sample_state (sample_header x80 x00 ++ [x41; x42])) 1 2
           (mkPacket (replicate 11 NULL))
           (mkByteArray (sample_header x80 x00 ++ [x41; x42]) 1)).
  - reflexivity.
  - reflexivity.
  - reflexivity.
  - reflexivity.
  - simpl. lia.
  - reflexivity.
  - left. vm_compute. discriminate.
Defined.

Lemma C7_witness :
  ∃ st' t,
    cycles 8 G_LITTLE_ENDIAN (packet_rtp_free 8) [(1, 2); (3, 2)]%positive
      (sample_state2 (sample_header x80 x00 ++ sample_header x80 x64 ++ [x41]))
    = Ok tt st'
    ∧ cycles 8 G_LITTLE_ENDIAN (packet_rtp_free_by_tag 8) [(1, 2); (3, 2)]%positive
        (sample_state2 (sample_header x80 x00 ++ sample_header x80 x64 ++ [x41]))
      = Ok tt st'
    ∧ registry st' = encodings
    ∧ dom (heap st')
      = dom (heap (sample_state2
                     (sample_header x80 x00 ++ sample_header x80 x64 ++ [x41])))
    ∧ trace st' = [] ++ t
    ∧ ∀ a, EvMalloc a ∈ t ↔ EvFree a ∈ t.
Proof.
  apply (C7_release_by_lookup_is_release_by_tag 8 G_LITTLE_ENDIAN
           [(1, 2); (3, 2)]%positive
           (sample_state2 (sample_header x80 x00 ++ sample_header x80 x64 ++ [x41]))).
  split; [reflexivity|]. split.
  - apply (bool_decide_unpack _). vm_compute. exact I.
  - intros p d Hin. apply list_elem_of_In in Hin.
    destruct Hin as [[= <- <-]|[[= <- <-]|[]]].
    + split; eexists; (split; [reflexivity|]); [reflexivity|simpl; lia].
    + split; eexists; (split; [reflexivity|]); [reflexivity|simpl; lia].
Defined.

Lemma C8_witness :
  packet_rtp_parse 8 G_LITTLE_ENDIAN (Heap 1) (Heap 2)
  = packet_rtp_parse_with 8 G_LITTLE_ENDIAN storage_add_packet (Heap 1) (Heap 2)
  ∧ (accepted G_LITTLE_ENDIAN (sample_header x80 x08) →
     ∃ s r enc t0,
       packet_rtp_data 8 (Heap 1) s = Ok (Heap r) s
       ∧ heap s !! r
         = Some (ORtpData (parsed_rtp G_LITTLE_ENDIAN (sample_header x80 x08)
                             enc (Heap 2)))
       ∧ heap s !! 2%positive = Some (OByteArray (mkByteArray [] 2))
       ∧ trace s = [] ++ t0
       ∧ (∀ q, deliveries q t0 = 0%nat)
       ∧ (∀ deliver : ptr → M unit,
            packet_rtp_parse_with 8 G_LITTLE_ENDIAN deliver (Heap 1) (Heap 2)
              (sample_state (sample_header x80 x08))
            = (deliver (Heap 1) ≫= λ _, mret (Heap 2)) s)
       ∧ packet_rtp_parse 8 G_LITTLE_ENDIAN (Heap 1) (Heap 2)
           (sample_state (sample_header x80 x08))
         = Ok (Heap 2)
              (mkState (heap s) (registry s)
                       (trace s ++ [EvStorageAddPacket (Heap 1)]))
       ∧ (∀ q, deliveries q (t0 ++ [EvStorageAddPacket (Heap 1)])
               = if decide (q = Heap 1) then 1%nat else 0%nat))
  ∧ ((length (sample_header x80 x08) < 12)%nat
     ∨ Z.shiftr (octet x80) 6 ≠ 2
     ∨ 65 ≤ Z.land (octet x08) 0x7F ≤ 95 →
     (∀ deliver : ptr → M unit,
        packet_rtp_parse_with 8 G_LITTLE_ENDIAN deliver (Heap 1) (Heap 2)
          (sample_state (sample_header x80 x08))
        = Ok (Heap 2) (sample_state (sample_header x80 x08)))
     ∧ packet_rtp_parse 8 G_LITTLE_ENDIAN (Heap 1) (Heap 2)
         (sample_state (sample_header x80 x08))
       = Ok (Heap 2) (sample_state (sample_header x80 x08))).
Proof.
  apply (C8_delivery_once_at_the_end 8 G_LITTLE_ENDIAN
           (sample_state (sample_header x80 x08)) 1 2
           (mkPacket (replicate 11 NULL))
           (mkByteArray (sample_header x80 x08) 1)).
  - reflexivity.
  - reflexivity.
  - reflexivity.
  - reflexivity.
Defined.

(** A collaborator that reads what it is given is served by the dissector,
    and would fault on the packet as it is before the dissector attaches the
    RTP data. *)
Example delivery_sees_attached_data :
  packet_rtp_parse_with 8 G_LITTLE_ENDIAN (probing_storage 8) (Heap 1) (Heap 2)
    (sample_state (sample_header x80 x08))
  = packet_rtp_parse 8 G_LITTLE_ENDIAN (Heap 1) (Heap 2)
      (sample_state (sample_header x80 x08))
  ∧ (∃ st', packet_rtp_parse 8 G_LITTLE_ENDIAN (Heap 1) (Heap 2)
              (sample_state (sample_header x80 x08)) = Ok (Heap 2) st')
  ∧ probing_storage 8 (Heap 1) (sample_state (sample_header x80 x08))
    = Stuck NullDereference.
Proof.
  split; [vm_compute; reflexivity|]. split; [|reflexivity].
  eexists. vm_compute. reflexivity.
Qed.

Lemma C9_witness :
  packet_rtp_free 8 (Heap 1) (sample_state [])
  = Ok tt (mkState (heap (sample_state [])) encodings [EvCritical])
  ∧ packet_rtp_free 8 NULL (sample_state [])
  = Ok tt (mkState (heap (sample_state [])) encodings [EvCritical]).
Proof.
  apply (C9_release_without_data_returns 8 (sample_state []) 1
           (mkPacket (replicate 11 NULL))).
  - reflexivity.
  - reflexivity.
Defined.

(** C9, as the spec has it, fails: on a packet without RTP data
    [packet_rtp_free] neither aborts nor faults; it returns, and the run goes
    on in a state that differs by one log message. *)
Lemma C9_release_without_data_is_not_fatal :
  (∀ f, packet_rtp_free 8 (Heap 1) (sample_state []) ≠ Stuck f)
  ∧ (packet_rtp_free 8 (Heap 1);; packet_rtp_data 8 (Heap 3)) (sample_state2 [])
    = Ok NULL (mkState (heap (sample_state2 [])) encodings [EvCritical; EvCritical]).
Proof.
  split.
  - intros f. vm_compute. discriminate.
  - reflexivity.
Qed.

Lemma C10_witness :
  packet_rtp_data 8 NULL (sample_state [])
  = Ok NULL (mkState (heap (sample_state [])) encodings [EvCritical])
  ∧ (NULL = NULL →
     packet_rtp_data 8 (Heap 1) (sample_state [])
     = Ok NULL (mkState (heap (sample_state [])) encodings [EvCritical]))
  ∧ (NULL ≠ NULL →
     packet_rtp_data 8 (Heap 1) (sample_state []) = Ok NULL (sample_state []))
  ∧ (∀ res st', packet_rtp_data 8 (Heap 1) (sample_state []) = Ok res st' →
                (res ≠ NULL ↔ NULL ≠ NULL)).
Proof.
  apply (C10_accessor 8 (sample_state []) 1 (mkPacket (replicate 11 NULL)) NULL).
  - reflexivity.
  - reflexivity.
Defined.

(** Outside the states the dissector produces, the two releases differ: for
    an allocated descriptor that carries a code of the registry, the release
    of the source leaves the descriptor allocated, the release by tag frees
    it. *)
Example release_by_lookup_off_invariant :
  (∃ st', packet_rtp_free 8 (Heap 1) forged_state = Ok tt st'
          ∧ is_Some (heap st' !! 4%positive))
  ∧ (∃ st', packet_rtp_free_by_tag 8 (Heap 1) forged_state = Ok tt st'
            ∧ heap st' !! 4%positive = None).
Proof.
  split; eexists; (split; [vm_compute; reflexivity|]).
  - vm_compute. eauto.
  - reflexivity.
Qed.

(** * Further properties *)

(** ** The registry lookup on any array *)

Lemma standard_codec_from_found (es : list PacketRtpEncoding) (k i : nat) (code : Z) :
  standard_codec_from es k code = Some (Global i) →
  (k ≤ i)%nat
  ∧ ∃ e, es !! (i - k)%nat = Some e ∧ enc_id e = code ∧ is_Some (enc_format e)
         ∧ ∀ j e', (j < i - k)%nat → es !! j = Some e' →
                   is_Some (enc_format e') ∧ enc_id e' ≠ code.
Proof.
  revert k. induction es as [|e es IH]; intros k H; [discriminate|].
  cbn [standard_codec_from] in H.
  destruct (enc_format e) as [fmt|] eqn:Hfmt; [|discriminate].
  destruct (decide (enc_id e = code)) as [Hid|Hid].
  - injection H as <-. split; [lia|]. exists e. rewrite Nat.sub_diag.
    repeat split; [assumption|rewrite Hfmt; eauto|lia|lia].
  - destruct (IH _ H) as (Hle & e1 & He1 & Hid1 & Hfmt1 & Hbefore).
    split; [lia|]. exists e1.
    replace (i - k)%nat with (S (i - S k)) by lia.
    repeat split; try assumption.
    + destruct j as [|j]; cbn in H1; [injection H1 as <-; rewrite Hfmt; eauto|].
      apply (Hbefore j e'); [lia|assumption].
    + destruct j as [|j]; cbn in H1; [injection H1 as <-; assumption|].
      apply (Hbefore j e'); [lia|assumption].
Qed.

Lemma standard_codec_from_not_heap (es : list PacketRtpEncoding) (k : nat) (code : Z)
    (l : loc) :
  standard_codec_from es k code ≠ Some (Heap l).
Proof.
  revert k. induction es as [|e es IH]; intros k; [discriminate|].
  cbn [standard_codec_from]. destruct (enc_format e); [|discriminate].
  destruct (decide (enc_id e = code)); [discriminate|apply IH].
Qed.

Lemma standard_codec_from_terminated (pre post : list PacketRtpEncoding)
    (term : PacketRtpEncoding) (k : nat) (code : Z) :
  Forall (λ e, is_Some (enc_format e)) pre →
  enc_format term = None →
  ∃ r, standard_codec_from (pre ++ term :: post) k code = Some r
       ∧ (r = NULL ↔ ∀ e, e ∈ pre → enc_id e ≠ code).
Proof.
  intros Hpre Hterm. revert k.
  induction Hpre as [|e pre [fmt Hfmt] Hpre IH]; intros k.
  - exists NULL. cbn [app standard_codec_from]. rewrite Hterm.
    split; [reflexivity|]. split; [|reflexivity]. intros _ e He. inversion He.
  - cbn [app standard_codec_from]. rewrite Hfmt.
    destruct (decide (enc_id e = code)) as [Hid|Hid].
    + exists (Global k). split; [reflexivity|]. split; [discriminate|].
      intros Hno. exfalso. apply (Hno e); [apply list_elem_of_here|exact Hid].
    + destruct (IH (S k)) as (r & Hr & Hnull). exists r. split; [exact Hr|].
      rewrite Hnull. split.
      * intros Hno e' He'. apply elem_of_cons in He' as [->|He']; auto.
      * intros Hno e' He'. apply Hno. now apply list_elem_of_further.
Qed.

Lemma standard_codec_from_unterminated (es : list PacketRtpEncoding) (k : nat)
    (code : Z) :
  Forall (λ e, is_Some (enc_format e) ∧ enc_id e ≠ code) es →
  standard_codec_from es k code = None.
Proof.
  intros Hes. revert k. induction Hes as [|e es [[fmt Hfmt] Hid] Hes IH]; intros k.
  - reflexivity.
  - cbn [standard_codec_from]. rewrite Hfmt. rewrite decide_False by exact Hid.
    apply IH.
Qed.

(** X1: whenever [packet_rtp_standard_codec] returns a pointer other than
    [NULL], on any contents of the array, the pointer is the address of the
    first element that carries the code: that element has the code and a
    format, every element before it has a format and another code, and the
    state is as it was. *)
Theorem X1_lookup_returns_first_match (st st' : state) (code : Z) (r : ptr) :
  packet_rtp_standard_codec code st = Ok r st' →
  r ≠ NULL →
  st' = st
  ∧ ∃ i e, r = Global i
           ∧ registry st !! i = Some e ∧ enc_id e = code ∧ is_Some (enc_format e)
           ∧ ∀ j e', (j < i)%nat → registry st !! j = Some e' →
                     is_Some (enc_format e') ∧ enc_id e' ≠ code.
Proof.
  unfold packet_rtp_standard_codec, mbind, M_bind, get_state. intros H Hr.
  destruct (standard_codec_from (registry st) 0 code) as [c|] eqn:Hc;
    [|discriminate].
  injection H as <- <-. split; [reflexivity|].
  destruct c as [|i|l]; [contradiction| |].
  - destruct (standard_codec_from_found _ _ _ _ Hc) as (_ & e & He & Hid & Hfmt & Hb).
    rewrite Nat.sub_0_r in He, Hb. exists i, e. auto.
  - exfalso. exact (standard_codec_from_not_heap _ _ _ _ Hc).
Qed.

(** X2: on an array whose first element without a format is preceded only by
    elements with one, [packet_rtp_standard_codec] returns without reading
    past that element, whatever follows it: the result is [NULL] exactly when
    no element before the terminator carries the code. *)
Theorem X2_lookup_stops_at_terminator
    (st : state) (pre post : list PacketRtpEncoding) (term : PacketRtpEncoding)
    (code : Z) :
  registry st = pre ++ term :: post →
  Forall (λ e, is_Some (enc_format e)) pre →
  enc_format term = None →
  ∃ r, packet_rtp_standard_codec code st = Ok r st
       ∧ (r = NULL ↔ ∀ e, e ∈ pre → enc_id e ≠ code).
Proof.
  intros Hreg Hpre Hterm.
  destruct (standard_codec_from_terminated pre post term 0 code Hpre Hterm)
    as (r & Hr & Hnull).
  exists r. split; [|exact Hnull].
  unfold packet_rtp_standard_codec, mbind, M_bind, get_state.
  now rewrite Hreg, Hr.
Qed.

(** X3: the terminator is needed: on an array in which every element has a
    format and none carries the code, the loop of
    [packet_rtp_standard_codec] reads past the end of the array. *)
Theorem X3_lookup_needs_terminator (st : state) (code : Z) :
  Forall (λ e, is_Some (enc_format e) ∧ enc_id e ≠ code) (registry st) →
  packet_rtp_standard_codec code st = Stuck OutOfBounds.
Proof.
  intros Hes. unfold packet_rtp_standard_codec, mbind, M_bind, get_state.
  now rewrite (standard_codec_from_unterminated _ 0 code Hes).
Qed.

(** ** The table [encodings] *)

Lemma encodings_round_trip (i : nat) (e : PacketRtpEncoding) :
  encodings !! i = Some e →
  is_Some (enc_format e) →
  standard_codec_from encodings 0 (enc_id e) = Some (Global i).
Proof.
  intros Hi Hfmt.
  do 24 (destruct i as [|i]; [injection Hi as <-; reflexivity|]).
  destruct i as [|i]; [injection Hi as <-; destruct Hfmt as [? [=]]|].
  discriminate.
Qed.

Lemma encodings_own_code_found (i : nat) (e : PacketRtpEncoding) :
  encodings !! i = Some e →
  ∃ j, standard_codec_from encodings 0 (enc_id e) = Some (Global j).
Proof.
  intros Hi.
  do 25 (destruct i as [|i]; [injection Hi as <-; eexists; reflexivity|]).
  discriminate.
Qed.

(** X4: the lookup is a left inverse of the table: for every entry of
    [encodings] before the terminator, looking its code up returns the
    address of that very entry, so no entry is hidden behind an earlier one
    with the same code. *)
Theorem X4_lookup_of_entry_code (st : state) (i : nat) (e : PacketRtpEncoding) :
  registry st = encodings →
  encodings !! i = Some e →
  is_Some (enc_format e) →
  packet_rtp_standard_codec (enc_id e) st = Ok (Global i) st.
Proof.
  intros Hreg Hi Hfmt. apply packet_rtp_standard_codec_Ok.
  rewrite Hreg. now apply encodings_round_trip.
Qed.

(** ** What no run does *)

Lemma follows_refl (P : event → Prop) (s : state) : follows P s s.
Proof. split; [reflexivity|]. exists []. now rewrite app_nil_r. Qed.

Lemma follows_trans (P : event → Prop) (s1 s2 s3 : state) :
  follows P s1 s2 → follows P s2 s3 → follows P s1 s3.
Proof.
  intros (Hr1 & t1 & Ht1 & HP1) (Hr2 & t2 & Ht2 & HP2). split; [congruence|].
  exists (t1 ++ t2). split; [now rewrite Ht2, Ht1, app_assoc|].
  now apply Forall_app.
Qed.

Lemma follows_heap (P : event → Prop) (s : state) (h : gmap positive obj) :
  follows P s (mkState h (registry s) (trace s)).
Proof. split; [reflexivity|]. exists []. now rewrite app_nil_r. Qed.

Lemma follows_emit (P : event → Prop) (s : state) (h : gmap positive obj) (e : event) :
  P e → follows P s (mkState h (registry s) (trace s ++ [e])).
Proof. intros He. split; [reflexivity|]. exists [e]. split; [reflexivity|]. auto. Qed.

Lemma bind_inv {A B : Type} (m : M A) (f : A → M B) (s s'' : state) (b : B) :
  (m ≫= f) s = Ok b s'' → ∃ a s', m s = Ok a s' ∧ f a s' = Ok b s''.
Proof.
  unfold mbind, M_bind. destruct (m s) as [a s'|]; [eauto|discriminate].
Qed.

Lemma yields_bind {A B : Type} (P : event → Prop) (QA : A → Prop) (QB : B → Prop)
    (m : M A) (f : A → M B) :
  yields P QA m → (∀ a, QA a → yields P QB (f a)) → yields P QB (m ≫= f).
Proof.
  intros Hm Hf s b s'' H. apply bind_inv in H as (a & s' & Ha & Hb).
  destruct (Hm _ _ _ Ha) as [Hq Hs]. destruct (Hf a Hq _ _ _ Hb) as [Hq' Hs'].
  split; [exact Hq'|]. eapply follows_trans; eassumption.
Qed.

Lemma yields_weaken {A : Type} (P : event → Prop) (Q Q' : A → Prop) (m : M A) :
  yields P Q m → (∀ a, Q a → Q' a) → yields P Q' m.
Proof. intros Hm HQ s a s' H. destruct (Hm _ _ _ H). auto. Qed.

Lemma yields_ret {A : Type} (P : event → Prop) (Q : A → Prop) (a : A) :
  Q a → yields P Q (mret a).
Proof. intros Hq s a' s' [= <- <-]. split; [exact Hq|apply follows_refl]. Qed.

Lemma yields_stuck {A : Type} (P : event → Prop) (Q : A → Prop) (f : fault) :
  yields P Q (stuck f : M A).
Proof. intros s a s' H. discriminate. Qed.

Lemma yields_emit (P : event → Prop) (e : event) :
  P e → yields P (λ _, True) (emit e).
Proof.
  intros He s a s' H. inversion H; subst. split; [exact I|now apply follows_emit].
Qed.

Lemma load_inv (p : ptr) (s s' : state) (o : obj) :
  load p s = Ok o s' →
  s' = s ∧ ((∃ l, p = Heap l ∧ heap s !! l = Some o)
            ∨ (∃ i e, p = Global i ∧ o = OEncoding e)).
Proof.
  unfold load, mbind, M_bind, get_state. destruct p as [|i|l]; [discriminate| |].
  - destruct (registry s !! i); [|discriminate]. intros [= <- <-]. eauto 10.
  - destruct (heap s !! l) eqn:E; [|discriminate]. intros [= <- <-]. eauto 10.
Qed.

Lemma yields_load (P : event → Prop) (p : ptr) : yields P (λ _, True) (load p).
Proof.
  intros s o s' H. apply load_inv in H as [-> _]. split; [exact I|apply follows_refl].
Qed.

Lemma load_rtp_inv (p : ptr) (s s' : state) (r : PacketRtpData) :
  load_rtp p s = Ok r s' → s' = s ∧ ∃ l, p = Heap l ∧ heap s !! l = Some (ORtpData r).
Proof.
  unfold load_rtp. intros H. apply bind_inv in H as (o & s1 & Ho & H).
  apply load_inv in Ho as [-> Ho].
  destruct o; try discriminate. injection H as <- <-. split; [reflexivity|].
  destruct Ho as [(l & -> & Hl)|(i & e & _ & [=])]. eauto.
Qed.

Lemma load_bytes_inv (p : ptr) (s s' : state) (b : GByteArray) :
  load_bytes p s = Ok b s' → s' = s ∧ ∃ l, p = Heap l ∧ heap s !! l = Some (OByteArray b).
Proof.
  unfold load_bytes. intros H. apply bind_inv in H as (o & s1 & Ho & H).
  apply load_inv in Ho as [-> Ho].
  destruct o; try discriminate. injection H as <- <-. split; [reflexivity|].
  destruct Ho as [(l & -> & Hl)|(i & e & _ & [=])]. eauto.
Qed.

Lemma load_packet_inv (p : ptr) (s s' : state) (k : Packet) :
  load_packet p s = Ok k s' → s' = s ∧ ∃ l, p = Heap l ∧ heap s !! l = Some (OPacket k).
Proof.
  unfold load_packet. intros H. apply bind_inv in H as (o & s1 & Ho & H).
  apply load_inv in Ho as [-> Ho].
  destruct o; try discriminate. injection H as <- <-. split; [reflexivity|].
  destruct Ho as [(l & -> & Hl)|(i & e & _ & [=])]. eauto.
Qed.

Lemma load_encoding_inv (p : ptr) (s s' : state) (e : PacketRtpEncoding) :
  load_encoding p s = Ok e s' → s' = s.
Proof.
  unfold load_encoding. intros H. apply bind_inv in H as (o & s1 & Ho & H).
  apply load_inv in Ho as [-> _]. destruct o; try discriminate. now injection H.
Qed.

Lemma store_Heap_inv (l : loc) (o : obj) (s s' : state) :
  store (Heap l) o s = Ok tt s' →
  s' = mkState (<[l := o]> (heap s)) (registry s) (trace s).
Proof.
  unfold store, mbind, M_bind, get_state. destruct (heap s !! l); [|discriminate].
  now intros [= <-].
Qed.

Lemma yields_store_Heap (P : event → Prop) (l : loc) (o : obj) :
  yields P (λ _, True) (store (Heap l) o).
Proof.
  intros s [] s' H. apply store_Heap_inv in H as ->.
  split; [exact I|apply follows_heap].
Qed.

Lemma assign_rtp_inv (p : ptr) (f : PacketRtpData → PacketRtpData) (s s' : state) :
  assign_rtp p f s = Ok tt s' →
  ∃ l r, p = Heap l ∧ heap s !! l = Some (ORtpData r)
         ∧ s' = mkState (<[l := ORtpData (f r)]> (heap s)) (registry s) (trace s).
Proof.
  unfold assign_rtp. intros H. apply bind_inv in H as (r & s1 & Hr & H).
  apply load_rtp_inv in Hr as (-> & l & -> & Hl).
  apply store_Heap_inv in H. eauto.
Qed.

Lemma yields_assign_rtp (P : event → Prop) (p : ptr)
    (f : PacketRtpData → PacketRtpData) :
  yields P (λ _, True) (assign_rtp p f).
Proof.
  intros s [] s' H. apply assign_rtp_inv in H as (l & r & _ & _ & ->).
  split; [exact I|apply follows_heap].
Qed.

Lemma yields_g_malloc0 (P : event → Prop) (zero : obj) :
  (∀ l, P (EvMalloc l)) → yields P is_heap (g_malloc0 zero).
Proof.
  intros HP s a s' H. rewrite g_malloc0_Ok in H. injection H as <- <-.
  split; [eexists; reflexivity|]. apply follows_emit, HP.
Qed.

Lemma yields_g_free (P : event → Prop) (p : ptr) :
  (∀ l, P (EvFree l)) → yields P (λ _, True) (g_free p).
Proof.
  intros HP s [] s'. unfold g_free, mbind, M_bind, get_state.
  destruct p as [|i|l]; [|discriminate|].
  - intros H. inversion H; subst. split; [exact I|apply follows_refl].
  - destruct (heap s !! l); [|discriminate]. cbn. intros H. inversion H; subst.
    split; [exact I|]. apply follows_emit, HP.
Qed.

Lemma yields_standard_codec (P : event → Prop) (code : Z) :
  yields P (λ _, True) (packet_rtp_standard_codec code).
Proof.
  intros s a s'. unfold packet_rtp_standard_codec, mbind, M_bind, get_state.
  destruct (standard_codec_from (registry s) 0 code); [|discriminate].
  intros [= <- <-]. split; [exact I|apply follows_refl].
Qed.

Lemma yields_remove_range (P : event → Prop) (a : ptr) (index len : nat) :
  P EvCritical → yields P (λ _, True) (g_byte_array_remove_range a index len).
Proof.
  intros HP s [] s' H. unfold g_byte_array_remove_range in H.
  apply bind_inv in H as (b & s1 & Hb & H).
  apply load_bytes_inv in Hb as (-> & l & -> & _).
  destruct (decide _).
  - apply store_Heap_inv in H as ->. split; [exact I|apply follows_heap].
  - inversion H; subst. split; [exact I|now apply follows_emit].
Qed.

Lemma yields_ref (P : event → Prop) (a : ptr) :
  yields P (λ p, p = a) (g_byte_array_ref a).
Proof.
  intros s p s' H. unfold g_byte_array_ref in H.
  apply bind_inv in H as (b & s1 & Hb & H).
  apply load_bytes_inv in Hb as (-> & l & -> & _).
  apply bind_inv in H as ([] & s2 & Hst & H).
  apply store_Heap_inv in Hst as ->. injection H as <- <-.
  split; [reflexivity|apply follows_heap].
Qed.

Lemma yields_unref (P : event → Prop) (a : ptr) :
  (∀ l, P (EvFree l)) → yields P (λ _, True) (g_byte_array_unref a).
Proof.
  intros HP s [] s' H. unfold g_byte_array_unref in H.
  apply bind_inv in H as (b & s1 & Hb & H).
  apply load_bytes_inv in Hb as (-> & l & -> & _).
  destruct (decide _).
  - now apply (yields_g_free P (Heap l) HP) in H.
  - apply store_Heap_inv in H as ->. split; [exact I|apply follows_heap].
Qed.

Lemma yields_packet_add_type (P : event → Prop) (packet : ptr) (type : nat)
    (data : ptr) :
  yields P (λ _, True) (packet_add_type packet type data).
Proof.
  intros s [] s' H. unfold packet_add_type in H.
  apply bind_inv in H as (k & s1 & Hk & H).
  apply load_packet_inv in Hk as (-> & l & -> & _).
  destruct (proto k !! type) as [[| |]|]; try discriminate.
  apply store_Heap_inv in H as ->. split; [exact I|apply follows_heap].
Qed.

(** The block of [packet_rtp_parse] that makes a descriptor for a code the
    registry lacks: the descriptor it writes to is the block it allocated. *)
Lemma yields_new_descriptor (P : event → Prop) (rtp : ptr) (pt : Z) :
  (∀ l, P (EvMalloc l)) →
  yields P (λ _, True)
    (e ← g_malloc0 (OEncoding zero_PacketRtpEncoding);
     assign_rtp rtp (with_encoding e);;
     r' ← load_rtp rtp;
     assign_encoding (rtp_encoding r') (with_id pt)).
Proof.
  intros HP s [] s' H.
  apply bind_inv in H as (e & s1 & He & H).
  destruct (yields_g_malloc0 P _ HP _ _ _ He) as [[e0 ->] Hs1].
  apply bind_inv in H as ([] & s2 & Ha & H).
  apply assign_rtp_inv in Ha as (l & r & -> & Hl & ->).
  apply bind_inv in H as (r' & s3 & Hr' & H).
  apply load_rtp_inv in Hr' as (-> & l' & [= <-] & Hl').
  cbn [heap] in Hl'. rewrite lookup_insert_eq in Hl'. injection Hl' as <-.
  cbn [rtp_encoding with_encoding] in H. unfold assign_encoding in H.
  apply bind_inv in H as (enc & s4 & Henc & H).
  apply load_encoding_inv in Henc as ->.
  apply store_Heap_inv in H as ->.
  split; [exact I|]. eapply follows_trans; [exact Hs1|].
  split; [reflexivity|]. exists []. cbn [trace]. now rewrite app_nil_r.
Qed.

Lemma yields_load_bytes (P : event → Prop) (p : ptr) :
  yields P (λ _, True) (load_bytes p).
Proof.
  intros s b s' H. apply load_bytes_inv in H as [-> _].
  split; [exact I|apply follows_refl].
Qed.

Lemma yields_load_rtp (P : event → Prop) (p : ptr) :
  yields P (λ _, True) (load_rtp p).
Proof.
  intros s b s' H. apply load_rtp_inv in H as [-> _].
  split; [exact I|apply follows_refl].
Qed.

Lemma yields_load_packet (P : event → Prop) (p : ptr) :
  yields P (λ _, True) (load_packet p).
Proof.
  intros s b s' H. apply load_packet_inv in H as [-> _].
  split; [exact I|apply follows_refl].
Qed.

Lemma yields_load_encoding (P : event → Prop) (p : ptr) :
  yields P (λ _, True) (load_encoding p).
Proof.
  intros s b s' H. apply load_encoding_inv in H as ->.
  split; [exact I|apply follows_refl].
Qed.

Lemma yields_index (P : event → Prop) (array : list ptr) (index : nat) :
  yields P (λ _, True) (g_ptr_array_index array index).
Proof.
  unfold g_ptr_array_index. destruct (array !! index).
  - now apply yields_ret.
  - apply yields_stuck.
Qed.

Section DissectorAnyState.

Variable PACKET_RTP : nat.
Variable G_BYTE_ORDER : byte_order.

Lemma yields_parse (packet data : ptr) :
  yields not_free (λ r, r = data)
    (packet_rtp_parse PACKET_RTP G_BYTE_ORDER packet data).
Proof.
  assert (∀ l, not_free (EvMalloc l)) as Hmalloc by (intros l l'; discriminate).
  assert (not_free EvCritical) as Hlog by (intros l; discriminate).
  unfold packet_rtp_parse.
  eapply yields_bind; [apply yields_load_bytes|]. intros arr _.
  destruct (decide _); [now apply yields_ret|].
  cbv zeta. destruct (decide _); [now apply yields_ret|].
  destruct (negb _); [now apply yields_ret|].
  eapply yields_bind; [now apply yields_g_malloc0|]. intros rtp _.
  eapply yields_bind; [apply yields_standard_codec|]. intros enc _.
  eapply yields_bind; [apply yields_assign_rtp|]. intros _ _.
  eapply yields_bind; [apply yields_load_rtp|]. intros r _.
  eapply yields_bind with (QA := λ _, True).
  { destruct (decide _); [now apply yields_new_descriptor|now apply yields_ret]. }
  intros _ _.
  eapply yields_bind; [apply yields_assign_rtp|]. intros _ _.
  eapply yields_bind; [apply yields_assign_rtp|]. intros _ _.
  eapply yields_bind; [apply yields_assign_rtp|]. intros _ _.
  eapply yields_bind; [now apply yields_remove_range|]. intros _ _.
  eapply yields_bind; [apply yields_ref|]. intros payload _.
  eapply yields_bind; [apply yields_assign_rtp|]. intros _ _.
  eapply yields_bind; [apply yields_packet_add_type|]. intros _ _.
  eapply yields_bind with (QA := λ _, True).
  { apply yields_emit. intros l; discriminate. }
  intros _ _. now apply yields_ret.
Qed.

Lemma yields_free (packet : ptr) :
  yields free_or_log (λ _, True) (packet_rtp_free PACKET_RTP packet).
Proof.
  assert (∀ l, free_or_log (EvFree l)) as Hfree by (intros l; left; eauto).
  assert (free_or_log EvCritical) as Hlog by now right.
  unfold packet_rtp_free, g_return_if_fail_warning.
  destruct (decide _); [now apply yields_emit|].
  eapply yields_bind; [apply yields_load_packet|]. intros pk _.
  eapply yields_bind; [apply yields_index|]. intros rtp_data _.
  destruct (decide _); [now apply yields_emit|].
  eapply yields_bind; [apply yields_load_rtp|]. intros r _.
  eapply yields_bind; [apply yields_load_encoding|]. intros e _.
  eapply yields_bind; [apply yields_standard_codec|]. intros codec _.
  eapply yields_bind with (QA := λ _, True).
  { destruct (decide _); [now apply yields_g_free|now apply yields_ret]. }
  intros _ _.
  eapply yields_bind; [apply yields_load_rtp|]. intros r' _.
  eapply yields_bind; [now apply yields_unref|]. intros _ _.
  now apply yields_g_free.
Qed.

(** X5: whatever the state and the arguments, a call of [packet_rtp_parse]
    that returns, returns its [data] argument (accepting or declining shows
    only in the buffer), leaves the global array [encodings] as it was, and
    frees nothing. *)
Theorem X5_parse_returns_data_and_frees_nothing
    (st st' : state) (packet data r : ptr) :
  packet_rtp_parse PACKET_RTP G_BYTE_ORDER packet data st = Ok r st' →
  r = data
  ∧ registry st' = registry st
  ∧ ∃ t, trace st' = trace st ++ t ∧ ∀ l, EvFree l ∉ t.
Proof.
  intros H. destruct (yields_parse packet data _ _ _ H) as (Hr & Hreg & t & Ht & HP).
  split; [exact Hr|]. split; [exact Hreg|]. exists t. split; [exact Ht|].
  intros l Hin. rewrite Forall_forall in HP. exact (HP _ Hin l eq_refl).
Qed.

(** X6: whatever the state and the packet, a call of [packet_rtp_free] that
    returns leaves the global array [encodings] as it was, allocates nothing
    and delivers nothing to storage: all it logs are releases and critical
    messages. *)
Theorem X6_free_allocates_and_delivers_nothing
    (st st' : state) (packet : ptr) :
  packet_rtp_free PACKET_RTP packet st = Ok tt st' →
  registry st' = registry st
  ∧ ∃ t, trace st' = trace st ++ t
         ∧ (∀ l, EvMalloc l ∉ t) ∧ (∀ q, EvStorageAddPacket q ∉ t).
Proof.
  intros H. destruct (yields_free packet _ _ _ H) as (_ & Hreg & t & Ht & HP).
  split; [exact Hreg|]. exists t. split; [exact Ht|].
  rewrite Forall_forall in HP.
  split; intros x Hin; destruct (HP _ Hin) as [[l [=]]|[=]].
Qed.

End DissectorAnyState.

(** ** More on accepting runs *)

Lemma big_endian16_range (b0 b1 : byte) : 0 ≤ big_endian 0 [b0; b1] < 2 ^ 16.
Proof.
  cbn [big_endian]. pose proof (octet_range b0). pose proof (octet_range b1). lia.
Qed.

Lemma big_endian32_range (b0 b1 b2 b3 : byte) :
  0 ≤ big_endian 0 [b0; b1; b2; b3] < 2 ^ 32.
Proof.
  cbn [big_endian]. pose proof (octet_range b0). pose proof (octet_range b1).
  pose proof (octet_range b2). pose proof (octet_range b3). lia.
Qed.

Section DissectorMore.

Variable PACKET_RTP : nat.
Variable G_BYTE_ORDER : byte_order.

(** An accepting run, with the blocks it leaves alone. *)
Lemma parse_accept_frame (st : state) (p d : loc) (k : Packet) (b : GByteArray) :
  heap st !! d = Some (OByteArray b) →
  heap st !! p = Some (OPacket k) →
  proto k !! PACKET_RTP = Some NULL →
  registry st = encodings →
  accepted G_BYTE_ORDER (ba_data b) →
  ∃ st',
    packet_rtp_parse PACKET_RTP G_BYTE_ORDER (Heap p) (Heap d) st = Ok (Heap d) st'
    ∧ ∀ l, is_Some (heap st !! l) → l ≠ p → l ≠ d → heap st' !! l = heap st !! l.
Proof.
  intros Hd Hp Hk Hreg Hacc.
  pose proof (fresh_loc_ne (heap st)) as Hr.
  destruct (second_fresh (heap st)) as (_ & _ & He).
  destruct (standard_codec_total
              (hdr_pt (PacketRtpHdr_cast G_BYTE_ORDER (ba_data b))))
    as [Hc|(i & e & Hc & _)]; rewrite <- Hreg in Hc.
  - eexists. split; [apply (parse_dynamic _ _ _ _ _ _ _ Hd Hp Hk Hacc Hc)|].
    intros l Hl Hlp Hld. pose proof (Hr l Hl). pose proof (He l Hl).
    unfold parsed_dynamic. cbn [heap]. now rewrite !lookup_insert_ne by congruence.
  - eexists. split; [apply (parse_static _ _ _ _ _ _ _ _ Hd Hp Hk Hacc Hc)|].
    intros l Hl Hlp Hld. pose proof (Hr l Hl).
    unfold parsed_static. cbn [heap]. now rewrite !lookup_insert_ne by congruence.
Qed.

(** X7: an accepting [packet_rtp_parse] writes to the packet, to the buffer
    and to the blocks it allocates, and to nothing else: every other live
    block holds what it held, no block is released, and the global array is
    as it was. *)
Theorem X7_parse_frame (st : state) (p d : loc) (k : Packet) (b : GByteArray) :
  heap st !! d = Some (OByteArray b) →
  heap st !! p = Some (OPacket k) →
  proto k !! PACKET_RTP = Some NULL →
  registry st = encodings →
  accepted G_BYTE_ORDER (ba_data b) →
  ∃ st',
    packet_rtp_parse PACKET_RTP G_BYTE_ORDER (Heap p) (Heap d) st = Ok (Heap d) st'
    ∧ (∀ l, is_Some (heap st !! l) → l ≠ p → l ≠ d → heap st' !! l = heap st !! l)
    ∧ dom (heap st) ⊆ dom (heap st')
    ∧ registry st' = registry st.
Proof.
  intros Hd Hp Hk Hreg Hacc.
  destruct (parse_accept_frame st p d k b Hd Hp Hk Hreg Hacc) as (st' & Hrun & Hframe).
  destruct (parse_accept PACKET_RTP G_BYTE_ORDER st p d k b Hd Hp Hk Hreg Hacc)
    as (st1 & enc & Hrun1 & _ & Hp' & Hd' & Hreg' & _).
  rewrite Hrun in Hrun1. injection Hrun1 as <-.
  exists st'. split; [exact Hrun|]. split; [exact Hframe|]. split; [|exact Hreg'].
  intros l Hl. apply elem_of_dom in Hl. apply elem_of_dom.
  destruct (decide (l = p)) as [->|Hlp]; [eauto|].
  destruct (decide (l = d)) as [->|Hld]; [eauto|].
  now rewrite Hframe.
Qed.

(** X8: the attached descriptor always carries the payload type of the
    header, be it an entry of the table or a new block, and no stored field
    is truncated: the code fits 7 bits, the sequence number 16 bits, the
    timestamp and the synchronization source 32 bits. *)
Theorem X8_stored_fields_in_range
    (st : state) (p d : loc) (k : Packet) (b : GByteArray) :
  heap st !! d = Some (OByteArray b) →
  heap st !! p = Some (OPacket k) →
  proto k !! PACKET_RTP = Some NULL →
  registry st = encodings →
  accepted G_BYTE_ORDER (ba_data b) →
  ∃ st' r rtp enc,
    packet_rtp_parse PACKET_RTP G_BYTE_ORDER (Heap p) (Heap d) st = Ok (Heap d) st'
    ∧ packet_rtp_data PACKET_RTP (Heap p) st' = Ok (Heap r) st'
    ∧ heap st' !! r = Some (ORtpData rtp)
    ∧ load_encoding (rtp_encoding rtp) st' = Ok enc st'
    ∧ enc_id enc = Z.land (octet (nth 1 (ba_data b) x00)) 0x7F
    ∧ 0 ≤ enc_id enc < 2 ^ 7
    ∧ 0 ≤ rtp_seq rtp < 2 ^ 16
    ∧ 0 ≤ rtp_ts rtp < 2 ^ 32
    ∧ 0 ≤ rtp_ssrc rtp < 2 ^ 32.
Proof.
  intros Hd Hp Hk Hreg Hacc.
  destruct (parse_accept PACKET_RTP G_BYTE_ORDER st p d k b Hd Hp Hk Hreg Hacc)
    as (st' & enc & Hrun & Hr & Hp' & _ & Hreg' & Henc).
  pose proof Hacc as (Hlen & _). unfold sizeof_PacketRtpHdr in Hlen.
  destruct (parsed_rtp_big_endian G_BYTE_ORDER (ba_data b) enc (Heap d) Hlen)
    as (Hseq & Hts & Hssrc).
  destruct (header_fields (ba_data b) Hlen) as (Hb2 & Hb4 & Hb8).
  rewrite Hb2 in Hseq. rewrite Hb4 in Hts. rewrite Hb8 in Hssrc.
  cbn [PacketRtpHdr_cast hdr_pt] in Henc.
  pose proof (payload_type_range (nth 1 (ba_data b) x00)) as Hrange.
  rewrite payload_type_low7 in Henc, Hrange.
  assert (∃ e, load_encoding enc st' = Ok e st'
               ∧ enc_id e = Z.land (octet (nth 1 (ba_data b) x00)) 0x7F)
    as (e & Hload & Hid).
  { destruct Henc as [(i & e & -> & _ & Hi & Hid & _)|(e & -> & _ & _ & He & _)].
    - exists e. split; [|exact Hid]. apply load_encoding_Global.
      now rewrite Hreg', Hreg.
    - eexists. split; [apply load_encoding_Heap; exact He|reflexivity]. }
  exists st', (fresh (dom (heap st))),
         (parsed_rtp G_BYTE_ORDER (ba_data b) enc (Heap d)), e.
  split; [exact Hrun|]. split.
  { rewrite (packet_rtp_data_slot _ _ _ _ (Heap (fresh (dom (heap st)))) Hp').
    - reflexivity.
    - apply list_lookup_insert_eq, (lookup_lt_Some _ _ _ Hk). }
  split; [exact Hr|]. split; [exact Hload|]. split; [exact Hid|].
  split; [rewrite Hid; lia|].
  rewrite Hseq, Hts, Hssrc.
  split; [apply big_endian16_range|]. split; apply big_endian32_range.
Qed.

End DissectorMore.

Lemma encodings_codes_low (i : nat) (e : PacketRtpEncoding) :
  encodings !! i = Some e → 0 ≤ enc_id e ≤ 34.
Proof.
  intros Hi.
  do 25 (destruct i as [|i]; [injection Hi as <-; cbv; split; discriminate|]).
  discriminate.
Qed.

Section DissectorCompose.

Variable PACKET_RTP : nat.
Variable G_BYTE_ORDER : byte_order.

(** X9: every entry of the table can be reached: for each entry before the
    terminator, a header of version 2 with that entry's code passes the
    payload-type check, and [packet_rtp_parse] attaches the address of that
    very entry, allocating no descriptor. *)
Theorem X9_every_entry_is_attached
    (st : state) (p d : loc) (k : Packet) (b : GByteArray)
    (i : nat) (e : PacketRtpEncoding) :
  heap st !! d = Some (OByteArray b) →
  heap st !! p = Some (OPacket k) →
  proto k !! PACKET_RTP = Some NULL →
  registry st = encodings →
  (12 ≤ length (ba_data b))%nat →
  Z.shiftr (octet (nth 0 (ba_data b) x00)) 6 = 2 →
  encodings !! i = Some e →
  is_Some (enc_format e) →
  Z.land (octet (nth 1 (ba_data b) x00)) 0x7F = enc_id e →
  ∃ st' r rtp,
    packet_rtp_parse PACKET_RTP G_BYTE_ORDER (Heap p) (Heap d) st = Ok (Heap d) st'
    ∧ packet_rtp_data PACKET_RTP (Heap p) st' = Ok (Heap r) st'
    ∧ heap st' !! r = Some (ORtpData rtp)
    ∧ rtp_encoding rtp = Global i
    ∧ trace st' = trace st ++ [EvMalloc r; EvStorageAddPacket (Heap p)].
Proof.
  intros Hd Hp Hk Hreg Hlen Hv Hi Hfmt Hcode.
  pose proof (encodings_codes_low i e Hi) as Hlow.
  assert (hdr_pt (PacketRtpHdr_cast G_BYTE_ORDER (ba_data b)) = enc_id e) as Hpt.
  { cbn [PacketRtpHdr_cast hdr_pt]. now rewrite payload_type_low7. }
  assert (accepted G_BYTE_ORDER (ba_data b)) as Hacc.
  { split; [exact Hlen|]. split; [exact Hv|]. rewrite Hpt. lia. }
  pose proof (encodings_round_trip i e Hi Hfmt) as Hc.
  rewrite <- Hpt, <- Hreg in Hc.
  pose proof (parse_static PACKET_RTP G_BYTE_ORDER st p d k b i Hd Hp Hk Hacc Hc)
    as Hrun.
  pose proof (fresh_loc_ne (heap st) d ltac:(eauto)) as Hrd.
  pose proof (fresh_loc_ne (heap st) p ltac:(eauto)) as Hrp.
  eexists _, (fresh (dom (heap st))), _. split; [exact Hrun|].
  unfold parsed_static. split; [|split; [|split]].
  - rewrite (packet_rtp_data_slot PACKET_RTP _ p
               (mkPacket (<[PACKET_RTP := Heap (fresh (dom (heap st)))]> (proto k)))
               (Heap (fresh (dom (heap st))))).
    + reflexivity.
    + cbn [heap]. apply lookup_insert_eq.
    + cbn [proto]. apply list_lookup_insert_eq, (lookup_lt_Some _ _ _ Hk).
  - cbn [heap]. rewrite !lookup_insert_ne by congruence. apply lookup_insert_eq.
  - reflexivity.
  - reflexivity.
Qed.

(** X10: the bits of the header that [packet_rtp_parse] does not read do not
    matter: two buffers that agree on the version bits, on the payload type
    and from the third byte on, and differ in padding, extension, CSRC count
    or marker, are accepted alike and leave the same state.  In particular
    exactly 12 bytes are removed whatever the CSRC count and the extension
    bit say. *)
Theorem X10_unread_header_bits
    (st : state) (p d : loc) (k : Packet) (o0 o1 o0' o1' : byte)
    (rest : list byte) (ref : nat) :
  heap st !! d = Some (OByteArray (mkByteArray (o0 :: o1 :: rest) ref)) →
  heap st !! p = Some (OPacket k) →
  proto k !! PACKET_RTP = Some NULL →
  registry st = encodings →
  accepted G_BYTE_ORDER (o0 :: o1 :: rest) →
  Z.shiftr (octet o0') 6 = Z.shiftr (octet o0) 6 →
  Z.land (octet o1') 0x7F = Z.land (octet o1) 0x7F →
  let st2 := mkState (<[d := OByteArray (mkByteArray (o0' :: o1' :: rest) ref)]>
                        (heap st)) (registry st) (trace st) in
  ∃ st',
    packet_rtp_parse PACKET_RTP G_BYTE_ORDER (Heap p) (Heap d) st = Ok (Heap d) st'
    ∧ packet_rtp_parse PACKET_RTP G_BYTE_ORDER (Heap p) (Heap d) st2 = Ok (Heap d) st'
    ∧ heap st' !! d
      = Some (OByteArray (mkByteArray (drop 10 rest) (S ref))).
Proof.
  intros Hd Hp Hk Hreg Hacc Hv Hpt st2.
  assert (d ≠ p) as Hdp by congruence.
  set (b := mkByteArray (o0 :: o1 :: rest) ref) in *.
  set (b2 := mkByteArray (o0' :: o1' :: rest) ref).
  assert (heap st2 !! d = Some (OByteArray b2)) as Hd2 by apply lookup_insert_eq.
  assert (heap st2 !! p = Some (OPacket k)) as Hp2.
  { subst st2. cbn [heap]. now rewrite lookup_insert_ne. }
  assert (hdr_pt (PacketRtpHdr_cast G_BYTE_ORDER (ba_data b2))
          = hdr_pt (PacketRtpHdr_cast G_BYTE_ORDER (ba_data b))) as Hpt'.
  { cbn [PacketRtpHdr_cast hdr_pt ba_data b b2 nth]. now rewrite !payload_type_low7. }
  assert (accepted G_BYTE_ORDER (ba_data b2)) as Hacc2.
  { destruct Hacc as (Hlen & Hver & Hcode). split; [exact Hlen|]. split.
    - cbn [PacketRtpHdr_cast hdr_version ba_data b2 nth] in *.
      unfold RTP_VERSION in *. now rewrite Hv.
    - now rewrite Hpt'. }
  assert (dom (heap st2) = dom (heap st)) as Hdom.
  { subst st2. cbn [heap]. apply dom_insert_lookup_L. eauto. }
  assert (∀ enc, parsed_rtp G_BYTE_ORDER (ba_data b2) enc (Heap d)
                 = parsed_rtp G_BYTE_ORDER (ba_data b) enc (Heap d)) as Hrtp.
  { intros enc. reflexivity. }
  pose proof (fresh_loc_ne (heap st) d ltac:(eauto)) as Hrd.
  pose proof (fresh_loc_ne (heap st) p ltac:(eauto)) as Hrp.
  destruct (second_fresh (heap st)) as (Her & _ & Hne).
  pose proof (Hne d ltac:(eauto)) as Hed.
  pose proof (Hne p ltac:(eauto)) as Hep. clear Hne.
  destruct (standard_codec_total
              (hdr_pt (PacketRtpHdr_cast G_BYTE_ORDER (ba_data b))))
    as [Hc|(i & e & Hc & _)]; rewrite <- Hreg in Hc.
  - exists (parsed_dynamic PACKET_RTP G_BYTE_ORDER st p d k b).
    split; [apply (parse_dynamic _ _ _ _ _ _ _ Hd Hp Hk Hacc Hc)|]. split.
    + rewrite (parse_dynamic _ _ st2 p d k b2 Hd2 Hp2 Hk Hacc2)
        by (now rewrite Hpt').
      unfold parsed_dynamic. rewrite Hdom, Hpt', Hrtp.
      subst st2. cbn [heap registry trace ba_data ba_ref b b2 drop].
      f_equal. f_equal. heap_eq.
    + unfold parsed_dynamic. cbn [heap ba_data ba_ref b drop].
      rewrite lookup_insert_ne by congruence. apply lookup_insert_eq.
  - exists (parsed_static PACKET_RTP G_BYTE_ORDER st p d k b i).
    split; [apply (parse_static _ _ _ _ _ _ _ _ Hd Hp Hk Hacc Hc)|]. split.
    + rewrite (parse_static _ _ st2 p d k b2 i Hd2 Hp2 Hk Hacc2)
        by (now rewrite Hpt').
      unfold parsed_static. rewrite Hdom, Hrtp.
      subst st2. cbn [heap registry trace ba_data ba_ref b b2 drop].
      f_equal. f_equal. heap_eq.
    + unfold parsed_static. cbn [heap ba_data ba_ref b drop].
      rewrite lookup_insert_ne by congruence. apply lookup_insert_eq.
Qed.

End DissectorCompose.

Section DissectorAliasing.

Variable PACKET_RTP : nat.
Variable G_BYTE_ORDER : byte_order.

(** X11: the payload of the RTP data is the buffer itself, not a copy: when
    the same buffer is dissected again for a second packet, the payload seen
    through the first packet's RTP data loses the second header too, and the
    buffer counts both RTP data among its owners. *)
Theorem X11_payload_is_shared
    (st : state) (p1 p2 d : loc) (k1 k2 : Packet) (b : GByteArray) :
  heap st !! d = Some (OByteArray b) →
  heap st !! p1 = Some (OPacket k1) →
  heap st !! p2 = Some (OPacket k2) →
  p1 ≠ p2 →
  proto k1 !! PACKET_RTP = Some NULL →
  proto k2 !! PACKET_RTP = Some NULL →
  registry st = encodings →
  accepted G_BYTE_ORDER (ba_data b) →
  accepted G_BYTE_ORDER (drop 12 (ba_data b)) →
  ∃ st1 st2 r1 rtp1,
    packet_rtp_parse PACKET_RTP G_BYTE_ORDER (Heap p1) (Heap d) st = Ok (Heap d) st1
    ∧ packet_rtp_data PACKET_RTP (Heap p1) st1 = Ok (Heap r1) st1
    ∧ heap st1 !! r1 = Some (ORtpData rtp1)
    ∧ rtp_payload rtp1 = Heap d
    ∧ heap st1 !! d
      = Some (OByteArray (mkByteArray (drop 12 (ba_data b)) (S (ba_ref b))))
    ∧ packet_rtp_parse PACKET_RTP G_BYTE_ORDER (Heap p2) (Heap d) st1 = Ok (Heap d) st2
    ∧ packet_rtp_data PACKET_RTP (Heap p1) st2 = Ok (Heap r1) st2
    ∧ heap st2 !! r1 = Some (ORtpData rtp1)
    ∧ heap st2 !! d
      = Some (OByteArray (mkByteArray (drop 24 (ba_data b)) (S (S (ba_ref b))))).
Proof.
  intros Hd Hp1 Hp2 Hne Hk1 Hk2 Hreg Hacc Hacc2.
  assert (d ≠ p1) as Hdp1 by congruence.
  assert (d ≠ p2) as Hdp2 by congruence.
  pose proof (fresh_loc_ne (heap st) d ltac:(eauto)) as Hrd.
  pose proof (fresh_loc_ne (heap st) p2 ltac:(eauto)) as Hrp2.
  set (r1 := fresh (dom (heap st))) in *.
  destruct (parse_accept PACKET_RTP G_BYTE_ORDER st p1 d k1 b Hd Hp1 Hk1 Hreg Hacc)
    as (st1 & enc & Hrun1 & Hr1 & Hp1' & Hd1 & Hreg1 & _).
  destruct (parse_accept_frame PACKET_RTP G_BYTE_ORDER st p1 d k1 b
              Hd Hp1 Hk1 Hreg Hacc) as (st1' & Hrun1' & Hframe1).
  rewrite Hrun1 in Hrun1'. injection Hrun1' as <-. fold r1 in Hr1, Hp1'.
  assert (heap st1 !! p2 = Some (OPacket k2)) as Hp2'.
  { rewrite Hframe1 by eauto. exact Hp2. }
  assert (registry st1 = encodings) as Hreg1' by congruence.
  destruct (parse_accept PACKET_RTP G_BYTE_ORDER st1 p2 d k2
              (mkByteArray (drop 12 (ba_data b)) (S (ba_ref b)))
              Hd1 Hp2' Hk2 Hreg1' Hacc2)
    as (st2 & enc2 & Hrun2 & _ & _ & Hd2 & _).
  destruct (parse_accept_frame PACKET_RTP G_BYTE_ORDER st1 p2 d k2
              (mkByteArray (drop 12 (ba_data b)) (S (ba_ref b)))
              Hd1 Hp2' Hk2 Hreg1' Hacc2) as (st2' & Hrun2' & Hframe2).
  rewrite Hrun2 in Hrun2'. injection Hrun2' as <-.
  cbn [ba_data ba_ref] in Hd2. rewrite drop_drop in Hd2.
  assert (packet_rtp_data PACKET_RTP (Heap p1) st1 = Ok (Heap r1) st1) as Hdata1.
  { rewrite (packet_rtp_data_slot PACKET_RTP _ _ _ (Heap r1) Hp1').
    - reflexivity.
    - apply list_lookup_insert_eq, (lookup_lt_Some _ _ _ Hk1). }
  exists st1, st2, r1, (parsed_rtp G_BYTE_ORDER (ba_data b) enc (Heap d)).
  repeat split; try assumption.
  - rewrite (packet_rtp_data_slot PACKET_RTP st2 p1
               (mkPacket (<[PACKET_RTP := Heap r1]> (proto k1))) (Heap r1)).
    + reflexivity.
    + rewrite Hframe2 by eauto. exact Hp1'.
    + apply list_lookup_insert_eq, (lookup_lt_Some _ _ _ Hk1).
  - rewrite Hframe2 by (eauto || congruence). exact Hr1.
Qed.

(** X12: [packet_rtp_free] does not clear the packet's slot: after a dissect
    and a release the accessor still returns the pointer to the released RTP
    data, and a second release of the same packet reads that released
    block. *)
Theorem X12_release_leaves_slot_dangling
    (st : state) (p d : loc) (k : Packet) (b : GByteArray) :
  heap st !! d = Some (OByteArray b) →
  heap st !! p = Some (OPacket k) →
  proto k !! PACKET_RTP = Some NULL →
  (1 ≤ ba_ref b)%nat →
  registry st = encodings →
  accepted G_BYTE_ORDER (ba_data b) →
  ∃ st1 st2 r,
    packet_rtp_parse PACKET_RTP G_BYTE_ORDER (Heap p) (Heap d) st = Ok (Heap d) st1
    ∧ packet_rtp_free PACKET_RTP (Heap p) st1 = Ok tt st2
    ∧ packet_rtp_data PACKET_RTP (Heap p) st2 = Ok (Heap r) st2
    ∧ heap st2 !! r = None
    ∧ packet_rtp_free PACKET_RTP (Heap p) st2 = Stuck DanglingPointer.
Proof.
  intros Hd Hp Hk Href Hreg Hacc.
  assert (d ≠ p) as Hdp by congruence.
  pose proof (fresh_loc_ne (heap st) d ltac:(eauto)) as Hrd.
  pose proof (fresh_loc_ne (heap st) p ltac:(eauto)) as Hrp.
  pose proof (fresh_loc_None (heap st)) as Hr.
  set (r := fresh (dom (heap st))) in *.
  assert (∀ t,
    let st2 := mkState
      (<[p := OPacket (mkPacket (<[PACKET_RTP := Heap r]> (proto k)))]>
       (<[d := OByteArray (mkByteArray (drop 12 (ba_data b)) (ba_ref b))]> (heap st)))
      (registry st) t in
    packet_rtp_data PACKET_RTP (Heap p) st2 = Ok (Heap r) st2
    ∧ heap st2 !! r = None
    ∧ packet_rtp_free PACKET_RTP (Heap p) st2 = Stuck DanglingPointer) as Hafter.
  { intros t st2.
    assert (heap st2 !! p
            = Some (OPacket (mkPacket (<[PACKET_RTP := Heap r]> (proto k))))) as Hp2
      by apply lookup_insert_eq.
    assert (<[PACKET_RTP := Heap r]> (proto k) !! PACKET_RTP = Some (Heap r)) as Hk2
      by apply list_lookup_insert_eq, (lookup_lt_Some _ _ _ Hk).
    assert (heap st2 !! r = None) as Hr2.
    { subst st2. cbn [heap]. now rewrite !lookup_insert_ne by congruence. }
    split; [|split; [exact Hr2|]].
    - now rewrite (packet_rtp_data_slot PACKET_RTP _ _ _ (Heap r) Hp2 Hk2).
    - unfold packet_rtp_free. rewrite decide_False by discriminate.
      rewrite (bind_Ok _ _ _ _ _ (load_packet_Heap _ _ _ Hp2)).
      rewrite (bind_Ok _ _ _ _ _ (g_ptr_array_index_Some _ _ _ _ Hk2)).
      rewrite decide_False by discriminate.
      apply bind_Stuck. unfold load_rtp. apply bind_Stuck.
      unfold load, mbind, M_bind, get_state. now rewrite Hr2. }
  destruct (standard_codec_total
              (hdr_pt (PacketRtpHdr_cast G_BYTE_ORDER (ba_data b))))
    as [Hc|(i & e & Hc & Hi & He)]; rewrite <- Hreg in Hc.
  - destruct (free_after_dynamic PACKET_RTP G_BYTE_ORDER st p d k b
                Hd Hp Hk Href Hc) as [Hfree _].
    eexists _, _, r.
    split; [apply (parse_dynamic _ _ _ _ _ _ _ Hd Hp Hk Hacc Hc)|].
    split; [exact Hfree|]. apply Hafter.
  - rewrite <- Hreg in Hi. pose proof Hc as Hc'. rewrite <- He in Hc'.
    destruct (free_after_static PACKET_RTP G_BYTE_ORDER st p d k b i i e
                Hd Hp Hk Href Hi Hc') as [Hfree _].
    eexists _, _, r.
    split; [apply (parse_static _ _ _ _ _ _ _ _ Hd Hp Hk Hacc Hc)|].
    split; [exact Hfree|]. apply Hafter.
Qed.

End DissectorAliasing.

(** ** Release on any well-formed packet *)

Lemma g_byte_array_unref_Heap (d : loc) (b : GByteArray) (s : state) :
  heap s !! d = Some (OByteArray b) →
  g_byte_array_unref (Heap d) s
  = Ok tt (mkState (unref_heap d b (heap s)) (registry s)
                   (trace s ++ unref_events d b)).
Proof.
  intros Hd. unfold g_byte_array_unref, unref_heap, unref_events.
  rewrite (bind_Ok _ _ _ _ _ (load_bytes_Heap _ _ _ Hd)).
  destruct (decide _).
  - now rewrite (g_free_Heap _ _ _ Hd).
  - rewrite store_Heap by eauto. now rewrite app_nil_r.
Qed.

Lemma unref_heap_lookup_ne (d l : loc) (b : GByteArray) (h : gmap positive obj) :
  l ≠ d → unref_heap d b h !! l = h !! l.
Proof.
  intros Hne. unfold unref_heap. destruct (decide _).
  - now rewrite lookup_delete_ne.
  - now rewrite lookup_insert_ne.
Qed.

Section DissectorRelease.

Variable PACKET_RTP : nat.
Variable G_BYTE_ORDER : byte_order.

(** The release from the point where the descriptor has been dealt with. *)
Lemma free_tail (s : state) (r d : loc) (rtp : PacketRtpData) (b : GByteArray) :
  heap s !! r = Some (ORtpData rtp) →
  rtp_payload rtp = Heap d →
  heap s !! d = Some (OByteArray b) →
  (r' ← load_rtp (Heap r);
   g_byte_array_unref (rtp_payload r');;
   g_free (Heap r)) s
  = Ok tt (mkState (delete r (unref_heap d b (heap s))) (registry s)
                   (trace s ++ unref_events d b ++ [EvFree r])).
Proof.
  intros Hr Hpay Hd. assert (r ≠ d) as Hrd by congruence.
  rewrite (bind_Ok _ _ _ _ _ (load_rtp_Heap _ _ _ Hr)). rewrite Hpay.
  rewrite (bind_Ok _ _ _ _ _ (g_byte_array_unref_Heap _ _ _ Hd)).
  erewrite g_free_Heap
    by (cbn [heap]; rewrite unref_heap_lookup_ne by congruence; exact Hr).
  cbn [heap registry trace]. now rewrite <- app_assoc.
Qed.

Lemma free_heap_descriptor (s : state) (p r d x : loc) (k : Packet)
    (rtp : PacketRtpData) (b : GByteArray) (e : PacketRtpEncoding) (c : ptr) :
  heap s !! p = Some (OPacket k) →
  proto k !! PACKET_RTP = Some (Heap r) →
  heap s !! r = Some (ORtpData rtp) →
  rtp_encoding rtp = Heap x →
  rtp_payload rtp = Heap d →
  heap s !! x = Some (OEncoding e) →
  heap s !! d = Some (OByteArray b) →
  standard_codec_from (registry s) 0 (enc_id e) = Some c →
  packet_rtp_free PACKET_RTP (Heap p) s
  = Ok tt (mkState
      (delete r (unref_heap d b
                   (if decide (c = NULL) then delete x (heap s) else heap s)))
      (registry s)
      (trace s ++ (if decide (c = NULL) then [EvFree x] else [])
               ++ unref_events d b ++ [EvFree r])).
Proof.
  intros Hp Hk Hr Henc Hpay Hx Hd Hc.
  assert (x ≠ r) as Hxr by congruence. assert (x ≠ d) as Hxd by congruence.
  unfold packet_rtp_free. rewrite decide_False by discriminate.
  rewrite (bind_Ok _ _ _ _ _ (load_packet_Heap _ _ _ Hp)).
  rewrite (bind_Ok _ _ _ _ _ (g_ptr_array_index_Some _ _ _ _ Hk)).
  rewrite decide_False by discriminate.
  rewrite (bind_Ok _ _ _ _ _ (load_rtp_Heap _ _ _ Hr)). rewrite Henc.
  rewrite (bind_Ok _ _ _ _ _ (load_encoding_Heap _ _ _ Hx)).
  rewrite (bind_Ok _ _ _ _ _ (packet_rtp_standard_codec_Ok _ _ _ Hc)).
  destruct (decide (c = NULL)) as [->|Hne].
  - rewrite (bind_Ok _ _ _ _ _ (g_free_Heap _ _ _ Hx)).
    rewrite (free_tail _ r d rtp b); cbn [heap registry trace].
    + now rewrite <- app_assoc.
    + now rewrite lookup_delete_ne.
    + exact Hpay.
    + now rewrite lookup_delete_ne.
  - erewrite bind_Ok by reflexivity.
    now rewrite (free_tail _ r d rtp b Hr Hpay Hd).
Qed.

Lemma free_static_descriptor (s : state) (p r d : loc) (k : Packet)
    (rtp : PacketRtpData) (b : GByteArray) (i : nat) (e : PacketRtpEncoding) :
  heap s !! p = Some (OPacket k) →
  proto k !! PACKET_RTP = Some (Heap r) →
  heap s !! r = Some (ORtpData rtp) →
  rtp_encoding rtp = Global i →
  rtp_payload rtp = Heap d →
  heap s !! d = Some (OByteArray b) →
  registry s = encodings →
  encodings !! i = Some e →
  packet_rtp_free PACKET_RTP (Heap p) s
  = Ok tt (mkState (delete r (unref_heap d b (heap s))) (registry s)
                   (trace s ++ unref_events d b ++ [EvFree r])).
Proof.
  intros Hp Hk Hr Henc Hpay Hd Hreg Hi.
  destruct (encodings_own_code_found i e Hi) as [j Hc].
  unfold packet_rtp_free. rewrite decide_False by discriminate.
  rewrite (bind_Ok _ _ _ _ _ (load_packet_Heap _ _ _ Hp)).
  rewrite (bind_Ok _ _ _ _ _ (g_ptr_array_index_Some _ _ _ _ Hk)).
  rewrite decide_False by discriminate.
  rewrite (bind_Ok _ _ _ _ _ (load_rtp_Heap _ _ _ Hr)). rewrite Henc.
  erewrite bind_Ok by (apply load_encoding_Global; rewrite Hreg; exact Hi).
  erewrite bind_Ok by (apply packet_rtp_standard_codec_Ok; rewrite Hreg; exact Hc).
  rewrite decide_False by discriminate.
  erewrite bind_Ok by reflexivity.
  now rewrite (free_tail _ r d rtp b Hr Hpay Hd).
Qed.

(** X13: on a packet whose RTP data points to an allocated descriptor,
    [packet_rtp_free] goes by the code stored in the descriptor alone: it
    frees the descriptor when the lookup of that code returns [NULL] and
    leaves it allocated when the lookup finds an entry, whoever allocated
    it.  Either way it drops one reference of the payload, frees the RTP
    data, and leaves the packet with its slot. *)
Theorem X13_release_goes_by_stored_code
    (s : state) (p r d x : loc) (k : Packet) (rtp : PacketRtpData)
    (b : GByteArray) (e : PacketRtpEncoding) (c : ptr) :
  heap s !! p = Some (OPacket k) →
  proto k !! PACKET_RTP = Some (Heap r) →
  heap s !! r = Some (ORtpData rtp) →
  rtp_encoding rtp = Heap x →
  rtp_payload rtp = Heap d →
  heap s !! x = Some (OEncoding e) →
  heap s !! d = Some (OByteArray b) →
  standard_codec_from (registry s) 0 (enc_id e) = Some c →
  ∃ s',
    packet_rtp_free PACKET_RTP (Heap p) s = Ok tt s'
    ∧ (c = NULL → heap s' !! x = None)
    ∧ (c ≠ NULL → heap s' !! x = Some (OEncoding e))
    ∧ heap s' !! r = None
    ∧ ((ba_ref b ≤ 1)%nat → heap s' !! d = None)
    ∧ ((2 ≤ ba_ref b)%nat →
       heap s' !! d = Some (OByteArray (mkByteArray (ba_data b) (ba_ref b - 1))))
    ∧ heap s' !! p = Some (OPacket k).
Proof.
  intros Hp Hk Hr Henc Hpay Hx Hd Hc.
  assert (x ≠ r) as Hxr by congruence. assert (x ≠ d) as Hxd by congruence.
  assert (r ≠ d) as Hrd by congruence. assert (p ≠ r) as Hpr by congruence.
  assert (p ≠ d) as Hpd by congruence. assert (p ≠ x) as Hpx by congruence.
  eexists. split; [apply (free_heap_descriptor s p r d x k rtp b e c); assumption|].
  cbn [heap]. split; [|split; [|split; [|split; [|split]]]].
  - intros ->. rewrite decide_True by reflexivity.
    rewrite lookup_delete_ne by congruence.
    rewrite unref_heap_lookup_ne by congruence. apply lookup_delete_eq.
  - intros Hne. rewrite decide_False by exact Hne.
    rewrite lookup_delete_ne by congruence.
    rewrite unref_heap_lookup_ne by congruence. exact Hx.
  - apply lookup_delete_eq.
  - intros Href. rewrite lookup_delete_ne by congruence. unfold unref_heap.
    rewrite decide_True by exact Href. apply lookup_delete_eq.
  - intros Href. rewrite lookup_delete_ne by congruence. unfold unref_heap.
    rewrite decide_False by lia. apply lookup_insert_eq.
  - rewrite lookup_delete_ne by congruence.
    rewrite unref_heap_lookup_ne by congruence.
    destruct (decide (c = NULL)); [rewrite lookup_delete_ne by congruence|];
      exact Hp.
Qed.

(** X14: on a packet whose RTP data points into the table, at any of its 25
    elements, [packet_rtp_free] never hands that pointer to [g_free]: the
    lookup of the element's own code always finds an entry.  It drops one
    reference of the payload and frees the RTP data. *)
Theorem X14_release_never_frees_table_entry
    (s : state) (p r d : loc) (k : Packet) (rtp : PacketRtpData)
    (b : GByteArray) (i : nat) (e : PacketRtpEncoding) :
  heap s !! p = Some (OPacket k) →
  proto k !! PACKET_RTP = Some (Heap r) →
  heap s !! r = Some (ORtpData rtp) →
  rtp_encoding rtp = Global i →
  rtp_payload rtp = Heap d →
  heap s !! d = Some (OByteArray b) →
  registry s = encodings →
  encodings !! i = Some e →
  ∃ s',
    packet_rtp_free PACKET_RTP (Heap p) s = Ok tt s'
    ∧ registry s' = encodings
    ∧ heap s' = delete r (unref_heap d b (heap s))
    ∧ trace s' = trace s ++ unref_events d b ++ [EvFree r].
Proof.
  intros Hp Hk Hr Henc Hpay Hd Hreg Hi.
  eexists. split.
  - apply (free_static_descriptor s p r d k rtp b i e); assumption.
  - cbn [heap registry trace]. auto.
Qed.

End DissectorRelease.

Section DissectorOwnership.

Variable PACKET_RTP : nat.
Variable G_BYTE_ORDER : byte_order.

(** From a state [s1] in which releasing the packet [p] frees the RTP data
    [r], drops one reference of the buffer [d] and otherwise changes the heap
    by [G] (which does not touch [d]): the caller's own unref and the release
    commute on the heap. *)
Lemma release_unref_commute (s1 : state) (p r d : loc) (b1 : GByteArray)
    (G : gmap positive obj → gmap positive obj) (E : list event) :
  heap s1 !! d = Some (OByteArray b1) →
  (2 ≤ ba_ref b1)%nat →
  r ≠ d →
  (∀ h v, G (<[d := v]> h) = <[d := v]> (G h)) →
  (∀ s b', (∀ l, l ≠ d → heap s !! l = heap s1 !! l) →
           heap s !! d = Some (OByteArray b') →
           registry s = registry s1 →
           packet_rtp_free PACKET_RTP (Heap p) s
           = Ok tt (mkState (delete r (unref_heap d b' (G (heap s)))) (registry s)
                            (trace s ++ E ++ unref_events d b' ++ [EvFree r]))) →
  let bn := mkByteArray (ba_data b1) (ba_ref b1 - 1) in
  ∃ sA sB,
    (packet_rtp_free PACKET_RTP (Heap p);; g_byte_array_unref (Heap d)) s1 = Ok tt sA
    ∧ (g_byte_array_unref (Heap d);; packet_rtp_free PACKET_RTP (Heap p)) s1 = Ok tt sB
    ∧ heap sA = delete r (unref_heap d bn (G (heap s1)))
    ∧ heap sB = heap sA
    ∧ registry sA = registry s1 ∧ registry sB = registry s1.
Proof.
  intros Hd Href Hrd HG Hfree bn.
  assert (∀ h, unref_heap d b1 h = <[d := OByteArray bn]> h) as Hun.
  { intros h. unfold unref_heap. now rewrite decide_False by lia. }
  eexists _, _. split; [|split].
  - rewrite (bind_Ok _ _ _ _ _ (Hfree s1 b1 (λ _ _, eq_refl) Hd eq_refl)).
    apply g_byte_array_unref_Heap with (b := bn). cbn [heap].
    rewrite lookup_delete_ne by congruence.
    rewrite Hun. apply lookup_insert_eq.
  - rewrite (bind_Ok _ _ _ _ _ (g_byte_array_unref_Heap _ _ _ Hd)).
    apply (Hfree _ bn); cbn [heap registry].
    + intros l Hl. now apply unref_heap_lookup_ne.
    + rewrite Hun. apply lookup_insert_eq.
    + reflexivity.
  - cbn [heap registry]. rewrite !Hun, !HG. unfold unref_heap.
    repeat split. 
    + destruct (decide _) as [Hlast|Hlast]; apply map_eq; intros j;
        destruct (decide (j = d)) as [Hjd|Hjd], (decide (j = r)) as [Hjr|Hjr];
        subst;
        repeat first [ rewrite lookup_delete_eq | rewrite lookup_insert_eq
                     | rewrite lookup_delete_ne by congruence
                     | rewrite lookup_insert_ne by congruence ];
        try reflexivity; congruence.
    + destruct (decide _) as [Hlast|Hlast]; apply map_eq; intros j;
        destruct (decide (j = d)) as [Hjd|Hjd], (decide (j = r)) as [Hjr|Hjr];
        subst;
        repeat first [ rewrite lookup_delete_eq | rewrite lookup_insert_eq
                     | rewrite lookup_delete_ne by congruence
                     | rewrite lookup_insert_ne by congruence ];
        try reflexivity; congruence.
Qed.

(** X15: after an accepting dissect, the caller's own [g_byte_array_unref]
    of the buffer and the release of the packet can come in either order:
    both orders end in the same heap, in which every block the dissect
    allocated is gone and the buffer has lost its first 12 bytes; the buffer
    is freed, once, exactly when the caller was its only owner. *)
Theorem X15_release_and_unref_commute
    (st : state) (p d : loc) (k : Packet) (b : GByteArray) :
  heap st !! d = Some (OByteArray b) →
  heap st !! p = Some (OPacket k) →
  proto k !! PACKET_RTP = Some NULL →
  (1 ≤ ba_ref b)%nat →
  registry st = encodings →
  accepted G_BYTE_ORDER (ba_data b) →
  ∃ st1 sA sB,
    packet_rtp_parse PACKET_RTP G_BYTE_ORDER (Heap p) (Heap d) st = Ok (Heap d) st1
    ∧ (packet_rtp_free PACKET_RTP (Heap p);; g_byte_array_unref (Heap d)) st1
      = Ok tt sA
    ∧ (g_byte_array_unref (Heap d);; packet_rtp_free PACKET_RTP (Heap p)) st1
      = Ok tt sB
    ∧ heap sB = heap sA
    ∧ heap sA
      = <[p := OPacket (mkPacket (<[PACKET_RTP := Heap (fresh (dom (heap st)))]>
                                    (proto k)))]>
        (if decide (ba_ref b = 1)%nat then delete d (heap st)
         else <[d := OByteArray (mkByteArray (drop 12 (ba_data b)) (ba_ref b - 1))]>
                (heap st))
    ∧ registry sA = encodings.
Proof.
  intros Hd Hp Hk Href Hreg Hacc.
  assert (d ≠ p) as Hdp by congruence.
  pose proof (fresh_loc_ne (heap st) d ltac:(eauto)) as Hrd.
  pose proof (fresh_loc_ne (heap st) p ltac:(eauto)) as Hrp.
  pose proof (fresh_loc_None (heap st)) as Hr.
  destruct (second_fresh (heap st)) as (Hxr & Hx & Hne).
  pose proof (Hne d ltac:(eauto)) as Hxd.
  pose proof (Hne p ltac:(eauto)) as Hxp. clear Hne.
  set (r := fresh (dom (heap st))) in *.
  set (x := fresh ({[r]} ∪ dom (heap st))) in *.
  set (b1 := mkByteArray (drop 12 (ba_data b)) (S (ba_ref b))).
  set (k' := mkPacket (<[PACKET_RTP := Heap r]> (proto k))).
  assert (proto k' !! PACKET_RTP = Some (Heap r)) as Hk'
    by apply list_lookup_insert_eq, (lookup_lt_Some _ _ _ Hk).
  destruct (standard_codec_total
              (hdr_pt (PacketRtpHdr_cast G_BYTE_ORDER (ba_data b))))
    as [Hc|(i & e & Hc & Hi & He)]; rewrite <- Hreg in Hc.
  - set (st1 := parsed_dynamic PACKET_RTP G_BYTE_ORDER st p d k b).
    set (rtp := parsed_rtp G_BYTE_ORDER (ba_data b) (Heap x) (Heap d)).
    set (enc := mkEncoding (hdr_pt (PacketRtpHdr_cast G_BYTE_ORDER (ba_data b)))
                           None None 0).
    assert (heap st1 !! p = Some (OPacket k')) as Hp1 by apply lookup_insert_eq.
    assert (heap st1 !! d = Some (OByteArray b1)) as Hd1.
    { subst st1. unfold parsed_dynamic. cbn [heap]. fold r x.
      rewrite lookup_insert_ne by congruence. apply lookup_insert_eq. }
    assert (heap st1 !! r = Some (ORtpData rtp)) as Hr1.
    { subst st1. unfold parsed_dynamic. cbn [heap]. fold r x.
      rewrite !lookup_insert_ne by congruence. apply lookup_insert_eq. }
    assert (heap st1 !! x = Some (OEncoding enc)) as Hx1.
    { subst st1. unfold parsed_dynamic. cbn [heap]. fold r x.
      rewrite !lookup_insert_ne by congruence. apply lookup_insert_eq. }
    destruct (release_unref_commute st1 p r d b1 (delete x) [EvFree x])
      as (sA & sB & HA & HB & HhA & HhB & HregA & _);
      [exact Hd1|cbn; lia|congruence| | |].
    { intros h v. now apply delete_insert_ne. }
    { intros s b' Hagree Hsd Hsreg.
      apply (free_heap_descriptor PACKET_RTP s p r d x k' rtp b' enc NULL);
        rewrite ?Hagree by congruence; try assumption; try reflexivity.
      rewrite Hsreg. exact Hc. }
    exists st1, sA, sB.
    split; [apply (parse_dynamic _ _ _ _ _ _ _ Hd Hp Hk Hacc Hc)|].
    split; [exact HA|]. split; [exact HB|]. split; [exact HhB|].
    split; [|now rewrite HregA].
    rewrite HhA. unfold unref_heap. cbn [ba_data ba_ref b1].
    rewrite Nat.sub_succ, Nat.sub_0_r.
    subst st1. unfold parsed_dynamic. cbn [heap]. fold r x.
    destruct (decide (ba_ref b ≤ 1)%nat), (decide (ba_ref b = 1)%nat); try lia.
    all: apply map_eq; intros j;
      destruct (decide (j = p)) as [Hjp|Hjp], (decide (j = d)) as [Hjd|Hjd],
               (decide (j = r)) as [Hjr|Hjr], (decide (j = x)) as [Hjx|Hjx];
      subst; try congruence;
      repeat first [ rewrite lookup_delete_eq | rewrite lookup_insert_eq
                   | rewrite lookup_delete_ne by congruence
                   | rewrite lookup_insert_ne by congruence ];
      try reflexivity; congruence.
  - pose proof Hi as Hi'. rewrite <- Hreg in Hi'.
    set (st1 := parsed_static PACKET_RTP G_BYTE_ORDER st p d k b i).
    set (rtp := parsed_rtp G_BYTE_ORDER (ba_data b) (Global i) (Heap d)).
    assert (heap st1 !! p = Some (OPacket k')) as Hp1 by apply lookup_insert_eq.
    assert (heap st1 !! d = Some (OByteArray b1)) as Hd1.
    { subst st1. unfold parsed_static. cbn [heap]. fold r.
      rewrite lookup_insert_ne by congruence. apply lookup_insert_eq. }
    assert (heap st1 !! r = Some (ORtpData rtp)) as Hr1.
    { subst st1. unfold parsed_static. cbn [heap]. fold r.
      rewrite !lookup_insert_ne by congruence. apply lookup_insert_eq. }
    destruct (release_unref_commute st1 p r d b1 (λ h, h) [])
      as (sA & sB & HA & HB & HhA & HhB & HregA & _);
      [exact Hd1|cbn; lia|congruence| | |].
    { reflexivity. }
    { intros s b' Hagree Hsd Hsreg.
      apply (free_static_descriptor PACKET_RTP s p r d k' rtp b' i e);
        rewrite ?Hagree by congruence; try assumption; try reflexivity.
      rewrite Hsreg. exact Hreg. }
    exists st1, sA, sB.
    split; [apply (parse_static _ _ _ _ _ _ _ _ Hd Hp Hk Hacc Hc)|].
    split; [exact HA|]. split; [exact HB|]. split; [exact HhB|].
    split; [|now rewrite HregA].
    rewrite HhA. unfold unref_heap. cbn [ba_data ba_ref b1].
    rewrite Nat.sub_succ, Nat.sub_0_r.
    subst st1. unfold parsed_static. cbn [heap]. fold r.
    destruct (decide (ba_ref b ≤ 1)%nat), (decide (ba_ref b = 1)%nat); try lia.
    all: apply map_eq; intros j;
      destruct (decide (j = p)) as [Hjp|Hjp], (decide (j = d)) as [Hjd|Hjd],
               (decide (j = r)) as [Hjr|Hjr];
      subst; try congruence;
      repeat first [ rewrite lookup_delete_eq | rewrite lookup_insert_eq
                   | rewrite lookup_delete_ne by congruence
                   | rewrite lookup_insert_ne by congruence ];
      try reflexivity; congruence.
Qed.

End DissectorOwnership.

(** ** The further statements on sample inputs *)

Lemma X1_witness :
  registry_state sample_registry = registry_state sample_registry
  ∧ ∃ i e, Global 0 = Global i
           ∧ registry (registry_state sample_registry) !! i = Some e
           ∧ enc_id e = 5 ∧ is_Some (enc_format e)
           ∧ ∀ j e', (j < i)%nat →
                     registry (registry_state sample_registry) !! j = Some e' →
                     is_Some (enc_format e') ∧ enc_id e' ≠ 5.
Proof.
  apply (X1_lookup_returns_first_match (registry_state sample_registry)
           (registry_state sample_registry) 5 (Global 0)).
  - reflexivity.
  - discriminate.
Defined.

Lemma X2_witness :
  ∃ r, packet_rtp_standard_codec 7 (registry_state sample_registry)
       = Ok r (registry_state sample_registry)
       ∧ (r = NULL ↔ ∀ e, e ∈ [known 5 "FIVE/8000" "five" 8000] → enc_id e ≠ 7).
Proof.
  apply (X2_lookup_stops_at_terminator (registry_state sample_registry)
           [known 5 "FIVE/8000" "five" 8000]
           [known 7 "SEVEN/8000" "seven" 8000]
           (mkEncoding 0 None None 0) 7).
  - reflexivity.
  - repeat constructor. simpl. eauto.
  - reflexivity.
Defined.

Lemma X3_witness :
  packet_rtp_standard_codec 9 (registry_state unterminated_registry)
  = Stuck OutOfBounds.
Proof.
  apply (X3_lookup_needs_terminator (registry_state unterminated_registry) 9).
  repeat constructor; simpl; eauto; discriminate.
Defined.

Lemma X4_witness :
  packet_rtp_standard_codec
    (enc_id (known RTP_PT_PCMA "PCMA/8000" "g711a" 8000)) (sample_state [])
  = Ok (Global 6) (sample_state []).
Proof.
  apply (X4_lookup_of_entry_code (sample_state []) 6
           (known RTP_PT_PCMA "PCMA/8000" "g711a" 8000)).
  - reflexivity.
  - reflexivity.
  - simpl. eauto.
Defined.

Lemma X5_witness :
  Heap 2 = Heap 2
  ∧ registry (parsed_static 8 G_LITTLE_ENDIAN (sample_state sample_bytes) 1 2
                sample_packet (mkByteArray sample_bytes 1) 0)
    = registry (sample_state sample_bytes)
  ∧ ∃ t, trace (parsed_static 8 G_LITTLE_ENDIAN (sample_state sample_bytes) 1 2
                  sample_packet (mkByteArray sample_bytes 1) 0)
         = trace (sample_state sample_bytes) ++ t
         ∧ ∀ l, EvFree l ∉ t.
Proof.
  apply (X5_parse_returns_data_and_frees_nothing 8 G_LITTLE_ENDIAN
           (sample_state sample_bytes)
           (parsed_static 8 G_LITTLE_ENDIAN (sample_state sample_bytes) 1 2
              sample_packet (mkByteArray sample_bytes 1) 0)
           (Heap 1) (Heap 2) (Heap 2)).
  vm_compute. reflexivity.
Defined.

Lemma X6_witness :
  registry (mkState (delete 3%positive
                       (<[2%positive := OByteArray (mkByteArray [] 1)]>
                          (heap forged_state)))
                    encodings [EvFree 3])
  = registry forged_state
  ∧ ∃ t, trace (mkState (delete 3%positive
                           (<[2%positive := OByteArray (mkByteArray [] 1)]>
                              (heap forged_state)))
                        encodings [EvFree 3])
         = trace forged_state ++ t
         ∧ (∀ l, EvMalloc l ∉ t) ∧ (∀ q, EvStorageAddPacket q ∉ t).
Proof.
  apply (X6_free_allocates_and_delivers_nothing 8 forged_state
           (mkState (delete 3%positive
                       (<[2%positive := OByteArray (mkByteArray [] 1)]>
                          (heap forged_state)))
                    encodings [EvFree 3])
           (Heap 1)).
  vm_compute. reflexivity.
Defined.

Lemma sample_accepted : accepted G_LITTLE_ENDIAN sample_bytes.
Proof.
  split; [vm_compute; lia|]. split; [reflexivity|]. left. vm_compute. discriminate.
Defined.

Lemma X7_witness :
  ∃ st',
    packet_rtp_parse 8 G_LITTLE_ENDIAN (Heap 1) (Heap 2) (sample_state2 sample_bytes)
    = Ok (Heap 2) st'
    ∧ (∀ l, is_Some (heap (sample_state2 sample_bytes) !! l) →
            l ≠ 1%positive → l ≠ 2%positive →
            heap st' !! l = heap (sample_state2 sample_bytes) !! l)
    ∧ dom (heap (sample_state2 sample_bytes)) ⊆ dom (heap st')
    ∧ registry st' = registry (sample_state2 sample_bytes).
Proof.
  apply (X7_parse_frame 8 G_LITTLE_ENDIAN (sample_state2 sample_bytes) 1 2
           sample_packet (mkByteArray sample_bytes 1)).
  - reflexivity.
  - reflexivity.
  - reflexivity.
  - reflexivity.
  - exact sample_accepted.
Defined.

Lemma X8_witness :
  ∃ st' r rtp enc,
    packet_rtp_parse 8 G_LITTLE_ENDIAN (Heap 1) (Heap 2) (sample_state sample_bytes)
    = Ok (Heap 2) st'
    ∧ packet_rtp_data 8 (Heap 1) st' = Ok (Heap r) st'
    ∧ heap st' !! r = Some (ORtpData rtp)
    ∧ load_encoding (rtp_encoding rtp) st' = Ok enc st'
    ∧ enc_id enc = Z.land (octet x00) 0x7F
    ∧ 0 ≤ enc_id enc < 2 ^ 7
    ∧ 0 ≤ rtp_seq rtp < 2 ^ 16
    ∧ 0 ≤ rtp_ts rtp < 2 ^ 32
    ∧ 0 ≤ rtp_ssrc rtp < 2 ^ 32.
Proof.
  apply (X8_stored_fields_in_range 8 G_LITTLE_ENDIAN (sample_state sample_bytes) 1 2
           sample_packet (mkByteArray sample_bytes 1)).
  - reflexivity.
  - reflexivity.
  - reflexivity.
  - reflexivity.
  - exact sample_accepted.
Defined.

Lemma X9_witness :
  ∃ st' r rtp,
    packet_rtp_parse 8 G_LITTLE_ENDIAN (Heap 1) (Heap 2)
      (sample_state (sample_header x80 x08)) = Ok (Heap 2) st'
    ∧ packet_rtp_data 8 (Heap 1) st' = Ok (Heap r) st'
    ∧ heap st' !! r = Some (ORtpData rtp)
    ∧ rtp_encoding rtp = Global 6
    ∧ trace st' = [] ++ [EvMalloc r; EvStorageAddPacket (Heap 1)].
Proof.
  apply (X9_every_entry_is_attached 8 G_LITTLE_ENDIAN
           (sample_state (sample_header x80 x08)) 1 2 sample_packet
           (mkByteArray (sample_header x80 x08) 1) 6
           (known RTP_PT_PCMA "PCMA/8000" "g711a" 8000)).
  - reflexivity.
  - reflexivity.
  - reflexivity.
  - reflexivity.
  - simpl. lia.
  - reflexivity.
  - reflexivity.
  - simpl. eauto.
  - reflexivity.
Defined.

Lemma X10_witness :
  ∃ st',
    packet_rtp_parse 8 G_LITTLE_ENDIAN (Heap 1) (Heap 2) (sample_state sample_bytes)
    = Ok (Heap 2) st'
    ∧ packet_rtp_parse 8 G_LITTLE_ENDIAN (Heap 1) (Heap 2)
        (mkState (<[2%positive :=
                      OByteArray (mkByteArray (xbf :: x80 :: drop 2 sample_bytes) 1)]>
                    (heap (sample_state sample_bytes)))
                 (registry (sample_state sample_bytes))
                 (trace (sample_state sample_bytes)))
      = Ok (Heap 2) st'
    ∧ heap st' !! 2%positive
      = Some (OByteArray (mkByteArray (drop 10 (drop 2 sample_bytes)) 2)).
Proof.
  apply (X10_unread_header_bits 8 G_LITTLE_ENDIAN (sample_state sample_bytes) 1 2
           sample_packet x80 x00 xbf x80 (drop 2 sample_bytes) 1).
  - reflexivity.
  - reflexivity.
  - reflexivity.
  - reflexivity.
  - exact sample_accepted.
  - reflexivity.
  - reflexivity.
Defined.

Lemma X11_witness :
  ∃ st1 st2 r1 rtp1,
    packet_rtp_parse 8 G_LITTLE_ENDIAN (Heap 1) (Heap 2) (sample_state2 sample_bytes2)
    = Ok (Heap 2) st1
    ∧ packet_rtp_data 8 (Heap 1) st1 = Ok (Heap r1) st1
    ∧ heap st1 !! r1 = Some (ORtpData rtp1)
    ∧ rtp_payload rtp1 = Heap 2
    ∧ heap st1 !! 2%positive
      = Some (OByteArray (mkByteArray (drop 12 sample_bytes2) 2))
    ∧ packet_rtp_parse 8 G_LITTLE_ENDIAN (Heap 3) (Heap 2) st1 = Ok (Heap 2) st2
    ∧ packet_rtp_data 8 (Heap 1) st2 = Ok (Heap r1) st2
    ∧ heap st2 !! r1 = Some (ORtpData rtp1)
    ∧ heap st2 !! 2%positive
      = Some (OByteArray (mkByteArray (drop 24 sample_bytes2) 3)).
Proof.
  apply (X11_payload_is_shared 8 G_LITTLE_ENDIAN (sample_state2 sample_bytes2)
           1 3 2 sample_packet sample_packet (mkByteArray sample_bytes2 1)).
  - reflexivity.
  - reflexivity.
  - reflexivity.
  - discriminate.
  - reflexivity.
  - reflexivity.
  - reflexivity.
  - split; [vm_compute; lia|]. split; [reflexivity|]. left. vm_compute. discriminate.
  - split; [vm_compute; lia|]. split; [reflexivity|]. right. vm_compute. discriminate.
Defined.

Lemma X12_witness :
  ∃ st1 st2 r,
    packet_rtp_parse 8 G_LITTLE_ENDIAN (Heap 1) (Heap 2) (sample_state sample_bytes)
    = Ok (Heap 2) st1
    ∧ packet_rtp_free 8 (Heap 1) st1 = Ok tt st2
    ∧ packet_rtp_data 8 (Heap 1) st2 = Ok (Heap r) st2
    ∧ heap st2 !! r = None
    ∧ packet_rtp_free 8 (Heap 1) st2 = Stuck DanglingPointer.
Proof.
  apply (X12_release_leaves_slot_dangling 8 G_LITTLE_ENDIAN
           (sample_state sample_bytes) 1 2 sample_packet
           (mkByteArray sample_bytes 1)).
  - reflexivity.
  - reflexivity.
  - reflexivity.
  - simpl. lia.
  - reflexivity.
  - exact sample_accepted.
Defined.

Lemma X13_witness :
  ∃ s',
    packet_rtp_free 8 (Heap 1) forged_state = Ok tt s'
    ∧ (Global 0 = NULL → heap s' !! 4%positive = None)
    ∧ (Global 0 ≠ NULL →
       heap s' !! 4%positive = Some (OEncoding (mkEncoding 0 None None 0)))
    ∧ heap s' !! 3%positive = None
    ∧ ((2 ≤ 1)%nat → heap s' !! 2%positive = None)
    ∧ ((2 ≤ 2)%nat →
       heap s' !! 2%positive = Some (OByteArray (mkByteArray [] (2 - 1))))
    ∧ heap s' !! 1%positive
      = Some (OPacket (mkPacket (<[8%nat := Heap 3]> (replicate 11 NULL)))).
Proof.
  apply (X13_release_goes_by_stored_code 8 forged_state 1 3 2 4
           (mkPacket (<[8%nat := Heap 3]> (replicate 11 NULL)))
           (mkRtpData (Heap 4) 1 2 3 (Heap 2)) (mkByteArray [] 2)
           (mkEncoding 0 None None 0) (Global 0)).
  - reflexivity.
  - reflexivity.
  - reflexivity.
  - reflexivity.
  - reflexivity.
  - reflexivity.
  - reflexivity.
  - reflexivity.
Defined.

Lemma X14_witness :
  ∃ s',
    packet_rtp_free 8 (Heap 1) terminator_state = Ok tt s'
    ∧ registry s' = encodings
    ∧ heap s' = delete 3%positive
                  (unref_heap 2 (mkByteArray [] 2) (heap terminator_state))
    ∧ trace s' = trace terminator_state
                 ++ unref_events 2 (mkByteArray [] 2) ++ [EvFree 3].
Proof.
  apply (X14_release_never_frees_table_entry 8 terminator_state 1 3 2
           (mkPacket (<[8%nat := Heap 3]> (replicate 11 NULL)))
           (mkRtpData (Global 24) 1 2 3 (Heap 2)) (mkByteArray [] 2) 24
           (mkEncoding 0 None None 0)).
  - reflexivity.
  - reflexivity.
  - reflexivity.
  - reflexivity.
  - reflexivity.
  - reflexivity.
  - reflexivity.
  - reflexivity.
Defined.

Lemma X15_witness :
  ∃ st1 sA sB,
    packet_rtp_parse 8 G_LITTLE_ENDIAN (Heap 1) (Heap 2) (sample_state sample_bytes)
    = Ok (Heap 2) st1
    ∧ (packet_rtp_free 8 (Heap 1);; g_byte_array_unref (Heap 2)) st1 = Ok tt sA
    ∧ (g_byte_array_unref (Heap 2);; packet_rtp_free 8 (Heap 1)) st1 = Ok tt sB
    ∧ heap sB = heap sA
    ∧ heap sA
      = <[1%positive :=
            OPacket (mkPacket (<[8%nat := Heap (fresh (dom (heap (sample_state
                                                             sample_bytes))))]>
                                 (proto sample_packet)))]>
        (if decide (1 = 1)%nat then delete 2%positive (heap (sample_state sample_bytes))
         else <[2%positive := OByteArray (mkByteArray (drop 12 sample_bytes) (1 - 1))]>
                (heap (sample_state sample_bytes)))
    ∧ registry sA = encodings.
Proof.
  apply (X15_release_and_unref_commute 8 G_LITTLE_ENDIAN
           (sample_state sample_bytes) 1 2 sample_packet
           (mkByteArray sample_bytes 1)).
  - reflexivity.
  - reflexivity.
  - reflexivity.
  - simpl. lia.
  - reflexivity.
  - exact sample_accepted.
Defined.
